(** * nanonetcall: basecalling driver of nanonet (OpenCL branch)

    A shallow embedding of [src/nanonet/nanonetcall.py]: the unit worker
    [process_read], the unit planner and the aggregating loop of [main].

    Conventions of the embedding.
    - Python floats are idealised as exact rationals ([Q]); the values a
      float operation can produce outside the rationals are kept where the
      code can meet them ([npfloat] for the result of [np.log]).
    - [timeit.default_timer] is a clock that is read at program points: the
      k-th reading of one invocation is [clock k].
    - Exceptions and the early [return]s of [process_read] leave the
      computation; both are carried by the monad [M].
    - Functions of other modules ([nanonet.features], [nanonet.nn],
      [nanonet.decoding], [nanonet.util], [nanonet.fast5], [pyopencl]) are
      variables of a section: every statement holds for whatever they
      compute, including when they raise. *)

From Stdlib Require Import List String Ascii Bool Arith ZArith QArith Qround Lia
  Lqa Permutation.
Import ListNotations.

Set Implicit Arguments.

(** ** Python values *)

Inductive exn : Type :=
| IndexError
| ValueError
| TypeError
| AttributeError
| StopIteration
| ZeroDivisionError
| ExternalError (who : string).

Inductive res (A : Type) : Type :=
| Ok (a : A)
| Raise (e : exn).
Arguments Raise {A} e.

(** What [np.log] returns on a float. *)
Inductive npfloat : Type :=
| Fin (q : Q)
| PosInf
| NegInf
| NaN.

Definition isfinite (x : npfloat) : bool :=
  match x with Fin _ => true | _ => false end.

Definition matrix := list (list Q).

Record timing : Type := mkTiming {
  t_feature : Q;
  t_load : Q;
  t_network : Q;
  t_decode : Q;
  t_write : Q
}.

(** One element of the list [process_read] returns:
    [(name, seq, score, len(post), (feature, load, network, decode, write))]. *)
Record read_result : Type := mkResult {
  r_name : string;
  r_seq : string;
  r_score : npfloat;
  r_n_ev : nat;
  r_time : timing
}.

(** The three things [process_read] can return. *)
Inductive retval : Type :=
| RetNone
| RetPost (post : matrix)
| RetList (ret : list read_result).

Inductive outcome : Type :=
| Returned (v : retval)
| Raised (e : exn).

(** [class process_attr] *)
Record process_attr : Type := mkPA {
  fast5_files : list string;
  use_opencl : bool;
  vendor : option string;
  device_id : Z
}.

(** [process_attr(ff)]: the defaults of [__init__]. *)
Definition process_attr_cpu (ff : list string) : process_attr :=
  mkPA ff false None 0.

(** [fix_kwargs] of [main], plus the ['window'] key [process_read] adds. *)
Record kwargs : Type := mkKwargs {
  min_len : Z;
  max_len : Z;
  section : string;
  event_detect : bool;
  window : option Z
}.

Definition set_window (w : Z) (k : kwargs) : kwargs :=
  mkKwargs (min_len k) (max_len k) (section k) (event_detect k) (Some w).

(** OpenCL objects, as far as [process_read] looks at them. *)
Record cl_device : Type := mkDevice {
  device_name : string;
  MAX_WORK_GROUP_SIZE : nat
}.

Record cl_platform : Type := mkPlatform {
  platform_NAME : string;
  gpu_devices : list cl_device
}.

Record cl_context : Type := mkContext { ctx_devices : list cl_device }.
Record cl_queue : Type := mkQueue { queue_ctx : cl_context }.

(** ** Numbers *)

Definition __ETA__ : Q := 1 # (10 ^ 300).

Definition Qltb (x y : Q) : bool := negb (Qle_bool y x).

Definition Qsum (l : list Q) : Q := fold_right Qplus 0 l.

Definition Qof_nat (n : nat) : Q := inject_Z (Z.of_nat n).

(** ** Strings *)

Definition lower_ascii (c : ascii) : ascii :=
  let n := nat_of_ascii c in
  if (65 <=? n)%nat && (n <=? 90)%nat then ascii_of_nat (n + 32) else c.

Fixpoint lower (s : string) : string :=
  match s with
  | EmptyString => EmptyString
  | String c r => String (lower_ascii c) (lower r)
  end.

(** [sub in s] *)
Fixpoint contains (sub s : string) : bool :=
  prefix sub s ||
  match s with
  | EmptyString => false
  | String _ r => contains sub r
  end.

Fixpoint str_repeat (c : ascii) (n : nat) : string :=
  match n with
  | O => EmptyString
  | S k => String c (str_repeat c k)
  end.

(** [k == 'X'*len(k)] *)
Definition is_bad_kmer (k : string) : bool :=
  String.eqb k (str_repeat "X"%char (String.length k)).

(** ** numpy on a matrix of rows *)

Fixpoint argmax_from (best : Q) (besti i : nat) (l : list Q) : nat :=
  match l with
  | [] => besti
  | x :: r =>
      if Qltb best x then argmax_from x i (S i) r
      else argmax_from best besti (S i) r
  end.

(** [np.argmax] of one row: the first index of the maximum; an empty row
    is a [ValueError]. *)
Definition np_argmax (row : list Q) : option nat :=
  match row with
  | [] => None
  | x :: r => Some (argmax_from x 0 1 r)
  end.

Fixpoint argmax_rows (post : matrix) : res (list nat) :=
  match post with
  | [] => Ok []
  | row :: rest =>
      match np_argmax row with
      | None => Raise ValueError
      | Some i =>
          match argmax_rows rest with
          | Ok l => Ok (i :: l)
          | Raise e => Raise e
          end
      end
  end.

(** The events [process_read] keeps: the most likely state is not the last
    one. *)
Definition called_bad (row : list Q) : bool :=
  match np_argmax row with
  | Some i => (S i =? List.length row)%nat
  | None => false
  end.

Definition kept_events (post : matrix) : matrix :=
  filter (fun row => negb (called_bad row)) post.

(** [post.shape[1]] *)
Definition shape1 (post : matrix) : nat :=
  match post with
  | [] => 0
  | row :: _ => List.length row
  end.

(** [a[mask]] for a boolean mask over the first axis. *)
Fixpoint mask_rows (A : Type) (a : list A) (mask : list bool) : list A :=
  match a, mask with
  | x :: a', b :: mask' =>
      if b then x :: mask_rows a' mask' else mask_rows a' mask'
  | _, _ => []
  end.

(** [post[:, :-1]] *)
Definition drop_last_col (post : matrix) : matrix := map (@removelast Q) post.

(** [weights = np.sum(post, axis=1).reshape((-1,1)); post /= weights].
    For a row whose sum is zero numpy divides by zero and gives [nan] or
    [inf] where the division of [Q] gives 0: the value of such a row is
    outside of what the rationals model, and the theorems that use the
    value of the division carry the hypothesis that keeps the sum away
    from zero (a proper posterior matrix). *)
Definition normalise_row (row : list Q) : list Q :=
  map (fun p => p / Qsum row) row.

Definition normalise (post : matrix) : matrix := map normalise_row post.

(** [min_prob + (1.0 - min_prob) * post] *)
Definition floor_cell (min_prob p : Q) : Q := min_prob + (1 - min_prob) * p.

Definition floor_post (min_prob : Q) (post : matrix) : matrix :=
  map (map (floor_cell min_prob)) post.

(** [l[x] = v] on a list that has index [x]. *)
Fixpoint set_nth (A : Type) (l : list A) (x : nat) (v : A) : list A :=
  match l, x with
  | [], _ => []
  | _ :: r, O => v :: r
  | a :: r, S k => a :: set_nth r k v
  end.

(** ** The monad of [process_read]

    A computation reads the clock (the state is the number of readings made
    so far) and either goes on with a value or leaves [process_read], by a
    [return] or by an exception nobody catches. *)

Inductive step (A : Type) : Type :=
| Next (a : A) (tick : nat)
| Exit (o : outcome).
Arguments Exit {A} o.

Definition M (A : Type) : Type := nat -> step A.

Definition ret (A : Type) (a : A) : M A := fun t => Next a t.

Definition bind (A B : Type) (m : M A) (k : A -> M B) : M B :=
  fun t =>
    match m t with
    | Next a t' => k a t'
    | Exit o => Exit o
    end.

Definition py_return (A : Type) (v : retval) : M A :=
  fun _ => Exit (Returned v).
Arguments py_return {A} v.

Definition raise (A : Type) (e : exn) : M A := fun _ => Exit (Raised e).
Arguments raise {A} e.

Definition lift (A : Type) (r : res A) : M A :=
  match r with
  | Ok a => ret a
  | Raise e => raise e
  end.

(** [l[x]] for [x] of an [xrange] *)
Definition index (A : Type) (l : list A) (x : nat) : M A :=
  match nth_error l x with
  | Some a => ret a
  | None => raise IndexError
  end.

(** [l[i]] for any integer: a negative index counts from the end. *)
Definition py_nth (A : Type) (l : list A) (i : Z) : option A :=
  let len := Z.of_nat (List.length l) in
  if (0 <=? i)%Z then nth_error l (Z.to_nat i)
  else if (0 <=? len + i)%Z then nth_error l (Z.to_nat (len + i))
  else None.

Definition index_int (A : Type) (l : list A) (i : Z) : M A :=
  match py_nth l i with
  | Some a => ret a
  | None => raise IndexError
  end.

Notation "x <- m ;; k" := (bind m (fun x => k))
  (at level 61, m at next level, right associativity).
Notation "' pat <- m ;; k" :=
  (bind m (fun x => match x with pat => k end))
  (at level 61, pat pattern, m at next level, right associativity).

(** [for a in l: s = body(s, a)] *)
Fixpoint for_each (A S : Type) (body : S -> A -> M S) (l : list A) (s : S)
  : M S :=
  match l with
  | [] => ret s
  | a :: r => s' <- body s a ;; for_each body r s'
  end.

(** [[f(i) for i in l]] where [f] may raise. *)
Fixpoint map_M (A B : Type) (f : A -> M B) (l : list A) : M (list B) :=
  match l with
  | [] => ret []
  | a :: r => b <- f a ;; bs <- map_M f r ;; ret (b :: bs)
  end.

Definition run (m : M retval) : outcome :=
  match m 0%nat with
  | Next v _ => Returned v
  | Exit o => o
  end.

(** ** Predicates on computations *)

(** Computations that do not read the clock. *)
Definition pure (A : Type) (m : M A) : Prop :=
  forall t a t', m t = Next a t' -> t' = t.

(** Computations whose exits all satisfy [P]. *)
Definition exits (A : Type) (P : outcome -> Prop) (m : M A) : Prop :=
  forall t o, m t = Exit o -> P o.

(** The outcome of a unit that gives no result: [return None] or an
    exception. *)
Definition no_result (o : outcome) : Prop :=
  o = Returned RetNone \/ exists e, o = Raised e.

Definition not_a_list (o : outcome) : Prop :=
  forall r, o <> Returned (RetList r).

(** ** [process_read] *)

Record feat_state (features events : Type) : Type := mkFeat {
  features_list : list features;
  events_list : list events;
  name_list : list string;
  feature_time_list : list Q;
  network_time_list : list Q;
  post_list : list matrix
}.

Record post_state : Type := mkPost {
  ps_post_list : list matrix;
  trans_list : list (list npfloat);
  good_events_list : list (list bool)
}.

Section ProcessRead.

Variables features events network : Type.

(** The readings of [timeit.default_timer] in this invocation. *)
Variable clock : nat -> Q.

(** [np.load(modelfile).item()] and the two [meta] entries used. *)
Variable np_load : string -> res network.
Variable meta_window : network -> Z.
Variable meta_kmers : network -> list string.

(** [nanonet.features.make_basecall_input_multi((fast5,), **kwargs)]:
    what the generator yields, or the exception it dies of. *)
Variable make_basecall_input_multi :
  string -> kwargs -> res (list (string * features * events)).
Variable astype : features -> features.

(** [network.run(features)] and [network.run(features_list, ctx, queues)]. *)
Variable network_run : network -> features -> res matrix.
Variable network_run_opencl :
  network -> list features -> cl_context -> list cl_queue ->
  res (list matrix).

Variable cl_get_platforms : list cl_platform.

(** [nanonet.decoding] *)
Variable estimate_transitions : matrix -> option (list Q) -> res (list Q).
Variable decode_profile :
  matrix -> list npfloat -> res (npfloat * list nat).
Variable decode_profile_opencl :
  cl_context -> list cl_queue -> list matrix -> list (list npfloat) ->
  nat -> res (list npfloat * list (list nat)).

(** The finite value of [np.log] on a positive number. *)
Variable ln : Q -> Q.

Variable kmers_to_sequence : list string -> res string.

(** Lines 236-268: the annotated event table and the fastq record are
    written to the file [fast5]; the answer is the ['read_id'] attribute
    when the file has one. *)
Variable write_events_table :
  string -> events -> list bool -> matrix -> list string -> list nat ->
  string -> res (option string).

(** Feature preparation gives a read for the file. *)
Definition prepared (kw : kwargs) (f : string) : Prop :=
  exists x rest, make_basecall_input_multi f kw = Ok (x :: rest).

Definition default_timer : M Q := fun t => Next (clock t) (S t).

(** [np.log(x)] *)
Definition np_log (x : Q) : npfloat :=
  if Qltb 0 x then Fin (ln x)
  else if Qeq_bool x 0 then NegInf
  else NaN.

(** [np.log(__ETA__ + trans)] *)
Definition log_trans (trans : list Q) : list npfloat :=
  map (fun p => np_log (__ETA__ + p)) trans.

(** Lines 131-151, one turn of the loop over [fast5_list]. *)
Definition feature_step (net : network) (kw : kwargs)
    (write_events opencl : bool)
    (st : feat_state features events) (fast5 : string)
  : M (feat_state features events) :=
  t1 <- default_timer ;;
  match make_basecall_input_multi fast5 kw with
  | Ok ((name, feats, evs) :: _) =>
      let evl := if write_events then events_list st ++ [evs]
                 else events_list st in
      let fl := features_list st ++ [astype feats] in
      let nl := name_list st ++ [name] in
      t2 <- default_timer ;;
      let ftl := feature_time_list st ++ [t2 - t1] in
      if opencl then
        ret (mkFeat fl evl nl ftl (network_time_list st) (post_list st))
      else
        post <- lift (network_run net (astype feats)) ;;
        t3 <- default_timer ;;
        ret (mkFeat fl evl nl ftl
               (network_time_list st ++ [t3 - t2])
               (post_list st ++ [post]))
  | Ok [] => py_return RetNone
  | Raise _ => py_return RetNone
  end.

(** Line 158: the platforms with a GPU whose name contains the vendor. *)
Fixpoint matching_platforms (v : option string) (ps : list cl_platform)
  : res (list cl_platform) :=
  match ps with
  | [] => Ok []
  | p :: rest =>
      match gpu_devices p with
      | [] => matching_platforms v rest
      | _ :: _ =>
          match v with
          | None => Raise AttributeError
          | Some vn =>
              match matching_platforms v rest with
              | Ok l =>
                  if contains (lower vn) (lower (platform_NAME p))
                  then Ok (p :: l) else Ok l
              | Raise e => Raise e
              end
          end
      end
  end.

Record cl_state : Type := mkCl {
  ctx : option cl_context;
  queue_list : list cl_queue;
  max_workgroup_size : nat
}.

(** Lines 153-169.  Creating the context and the queues is taken to
    succeed. *)
Definition opencl_stage (net : network) (pa : process_attr)
    (st : feat_state features events)
  : M (cl_state * feat_state features events) :=
  t2 <- default_timer ;;
  if use_opencl pa then
    platforms <- lift (matching_platforms (vendor pa) cl_get_platforms) ;;
    platform <- index platforms 0 ;;
    device <- index_int (gpu_devices platform) (device_id pa) ;;
    let c := mkContext [device] in
    let ql := map (fun _ => mkQueue c)
                  (seq 0 (List.length (features_list st))) in
    pl <- lift (network_run_opencl net (features_list st) c ql) ;;
    t3 <- default_timer ;;
    let n := List.length (features_list st) in
    let ntl := network_time_list st ++
               map (fun _ => (t3 - t2) / Qof_nat n) (seq 0 n) in
    ret (mkCl (Some c) ql (MAX_WORK_GROUP_SIZE device),
         mkFeat (features_list st) (events_list st) (name_list st)
                (feature_time_list st) ntl pl)
  else
    ret (mkCl None [] 256, st).

(** Lines 183-189: strip the events called as the bad k-mer and the
    column of the bad k-mer. *)
Definition strip_bad (post : matrix) : M (matrix * list bool) :=
  let bad_kmer := (Z.of_nat (shape1 post) - 1)%Z in
  max_call <- lift (argmax_rows post) ;;
  let good_events :=
    map (fun i => negb (Z.of_nat i =? bad_kmer)%Z) max_call in
  ret (drop_last_col (mask_rows post good_events), good_events).

(** Lines 177-199, one turn of the loop over [xrange(len(fast5_list))]. *)
Definition post_step (net : network) (min_prob : Q)
    (trans_copy : option (list Q)) (post_only : bool)
    (st : post_state) (x : nat) : M post_state :=
  post <- index (ps_post_list st) x ;;
  let kmers := meta_kmers net in
  lastk <- index kmers (List.length kmers - 1) ;;
  '(post, gel) <-
    (if is_bad_kmer lastk then
       '(p, ge) <- strip_bad post ;;
       ret (p, good_events_list st ++ [ge])
     else ret (post, good_events_list st)) ;;
  let post := normalise post in
  if post_only then py_return (RetPost post)
  else
    let post := floor_post min_prob post in
    let pl := set_nth (ps_post_list st) x post in
    tr <- lift (estimate_transitions post trans_copy) ;;
    ret (mkPost pl (trans_list st ++ [log_trans tr]) gel).

(** Lines 201-207. *)
Definition decode_cpu_step (pl : list matrix) (tl : list (list npfloat))
    (st : list (option npfloat) * list (option (list nat))) (x : nat)
  : M (list (option npfloat) * list (option (list nat))) :=
  p <- index pl x ;;
  t <- index tl x ;;
  '(sc, states) <- lift (decode_profile p t) ;;
  ret (set_nth (fst st) x (Some sc), set_nth (snd st) x (Some states)).

Definition decode_stage (opencl : bool) (n : nat) (cs : cl_state)
    (pl : list matrix) (tl : list (list npfloat))
  : M (list (option npfloat) * list (option (list nat))) :=
  if opencl then
    c <- match ctx cs with
         | Some c => ret c
         | None => raise TypeError
         end ;;
    '(scores, states) <-
      lift (decode_profile_opencl c (queue_list cs) pl tl
              (max_workgroup_size cs)) ;;
    ret (map (@Some _) scores, map (@Some _) states)
  else
    for_each (decode_cpu_step pl tl) (seq 0 n)
             (repeat None n, repeat None n).

(** [o] where [o] is a list entry that may still be [None]. *)
Definition assigned (A : Type) (o : option A) : M A :=
  match o with
  | Some a => ret a
  | None => raise TypeError
  end.

(** Lines 210-216, one turn. *)
Definition basecall_step (kmers : list string)
    (states_list : list (option (list nat)))
    (st : list (list string) * list string) (x : nat)
  : M (list (list string) * list string) :=
  so <- index states_list x ;;
  states <- assigned so ;;
  kmer_path <- map_M (index kmers) states ;;
  sq <- lift (kmers_to_sequence kmer_path) ;;
  ret (fst st ++ [kmer_path], snd st ++ [sq]).

(** Lines 226-271, one turn. *)
Definition write_step (fast5 : string) (load_time : Q)
    (fs : feat_state features events) (ps : post_state)
    (scores : list (option npfloat))
    (states_list : list (option (list nat)))
    (kmer_path_list : list (list string)) (seq_list : list string)
    (decode_time_list : list Q)
    (r : list read_result) (x : nat) : M (list read_result) :=
  t4 <- default_timer ;;
  evs <- index (events_list fs) x ;;
  name <- index (name_list fs) x ;;
  post <- index (ps_post_list ps) x ;;
  kmer_path <- index kmer_path_list x ;;
  sq <- index seq_list x ;;
  so <- index states_list x ;;
  sco <- index scores x ;;
  good_events <- index (good_events_list ps) x ;;
  states <- assigned so ;;
  rid <- lift (write_events_table fast5 evs good_events post kmer_path
                 states sq) ;;
  let name := match rid with Some n => n | None => name end in
  t5 <- default_timer ;;
  let write_time := t5 - t4 in
  ft <- index (feature_time_list fs) x ;;
  nt <- index (network_time_list fs) x ;;
  dt <- index decode_time_list x ;;
  sc <- assigned sco ;;
  ret (r ++ [mkResult name sq sc (List.length post)
               (mkTiming ft load_time nt dt write_time)]).

(** Lines 227-268 of the same turn on their own: the lookups and the
    writer.  When the writer has come back, the Fastq record of read [x]
    (lines 266-268: its name and its sequence) is in the file [fast5],
    whatever happens to the turn afterwards. *)
Definition write_record (fast5 : string)
    (fs : feat_state features events) (ps : post_state)
    (scores : list (option npfloat))
    (states_list : list (option (list nat)))
    (kmer_path_list : list (list string)) (seq_list : list string)
    (x : nat) : M (string * string * string) :=
  t4 <- default_timer ;;
  evs <- index (events_list fs) x ;;
  name <- index (name_list fs) x ;;
  post <- index (ps_post_list ps) x ;;
  kmer_path <- index kmer_path_list x ;;
  sq <- index seq_list x ;;
  so <- index states_list x ;;
  sco <- index scores x ;;
  good_events <- index (good_events_list ps) x ;;
  states <- assigned so ;;
  rid <- lift (write_events_table fast5 evs good_events post kmer_path
                 states sq) ;;
  let name := match rid with Some n => n | None => name end in
  ret (fast5, name, sq).

(** The Fastq records in the file [fast5] when the loop of lines 226-271
    is left, by its end or by an exception: one for every turn whose
    writer came back, up to the turn that leaves the loop. *)
Fixpoint fastq_trace (fast5 : string) (load_time : Q)
    (fs : feat_state features events) (ps : post_state)
    (scores : list (option npfloat))
    (states_list : list (option (list nat)))
    (kmer_path_list : list (list string)) (seq_list : list string)
    (decode_time_list : list Q)
    (xs : list nat) (r : list read_result) (t : nat)
  : list (string * string * string) :=
  match xs with
  | [] => []
  | x :: xs' =>
      match write_record fast5 fs ps scores states_list kmer_path_list
              seq_list x t with
      | Exit _ => []
      | Next record _ =>
          record ::
          match write_step fast5 load_time fs ps scores states_list
                  kmer_path_list seq_list decode_time_list r x t with
          | Next r' t' =>
              fastq_trace fast5 load_time fs ps scores states_list
                kmer_path_list seq_list decode_time_list xs' r' t'
          | Exit _ => []
          end
      end
  end.

Definition empty_feat : feat_state features events :=
  mkFeat [] [] [] [] [] [].

(** What lines 172-221 leave behind for the rest of the function. *)
Record decoded : Type := mkDecoded {
  d_post : post_state;
  score_list : list (option npfloat);
  states_list : list (option (list nat));
  kmer_path_list : list (list string);
  seq_list : list string;
  decode_time_list : list Q
}.

(** Lines 114-169: the model is loaded, the features of every read are
    prepared and the network is run. *)
Definition run_network (modelfile : string) (pa : process_attr)
    (write_events : bool) (kw : kwargs)
  : M (Q * network * cl_state * feat_state features events) :=
  t0 <- default_timer ;;
  net <- lift (np_load modelfile) ;;
  t1 <- default_timer ;;
  let load_time := t1 - t0 in
  let kw := set_window (meta_window net) kw in
  fs <- for_each (feature_step net kw write_events (use_opencl pa))
                 (fast5_files pa) empty_feat ;;
  '(cs, fs) <- opencl_stage net pa fs ;;
  ret (load_time, net, cs, fs).

(** Lines 172-221: the posteriors are prepared, the reads decoded and
    the basecalls formed. *)
Definition decode_reads (pa : process_attr) (min_prob : Q)
    (trans : option (list Q)) (post_only : bool) (net : network)
    (cs : cl_state) (fs : feat_state features events) : M decoded :=
  let n := List.length (fast5_files pa) in
  t3 <- default_timer ;;
  ps <- for_each (post_step net min_prob trans post_only) (seq 0 n)
                 (mkPost (post_list fs) [] []) ;;
  '(scores, states) <-
    decode_stage (use_opencl pa) n cs (ps_post_list ps) (trans_list ps) ;;
  '(kmer_paths, seqs) <-
    for_each (basecall_step (meta_kmers net) states) (seq 0 n) ([], []) ;;
  t4 <- default_timer ;;
  let decode_time := t4 - t3 in
  ret (mkDecoded ps scores states kmer_paths seqs
         (map (fun _ => decode_time / Qof_nat n) (seq 0 n))).

(** Lines 223-273. *)
Definition write_reads (pa : process_attr) (write_events : bool)
    (load_time : Q) (fs : feat_state features events) (d : decoded)
  : M retval :=
  let n := List.length (fast5_files pa) in
  if write_events then
    r <- for_each (write_step (last (fast5_files pa) EmptyString)
                     load_time fs (d_post d) (score_list d)
                     (states_list d) (kmer_path_list d) (seq_list d)
                     (decode_time_list d))
                  (seq 0 n) [] ;;
    ret (RetList r)
  else ret (RetList []).

Definition process_read_body (modelfile : string) (pa : process_attr)
    (min_prob : Q) (trans : option (list Q))
    (post_only write_events : bool) (kw : kwargs) : M retval :=
  '(load_time, net, cs, fs) <- run_network modelfile pa write_events kw ;;
  d <- decode_reads pa min_prob trans post_only net cs fs ;;
  write_reads pa write_events load_time fs d.

Definition process_read (modelfile : string) (pa : process_attr)
    (min_prob : Q) (trans : option (list Q))
    (post_only write_events : bool) (kw : kwargs) : outcome :=
  run (process_read_body modelfile pa min_prob trans post_only
         write_events kw).

(** The Fastq records [process_read] has put into the fast5 file of the
    unit by the time it is left, whichever way: nothing is written before
    the loop of lines 226-271. *)
Definition fastq_written (modelfile : string) (pa : process_attr)
    (min_prob : Q) (trans : option (list Q))
    (post_only write_events : bool) (kw : kwargs)
  : list (string * string * string) :=
  match run_network modelfile pa write_events kw 0%nat with
  | Exit _ => []
  | Next (load_time, net, cs, fs) t =>
      match decode_reads pa min_prob trans post_only net cs fs t with
      | Exit _ => []
      | Next d t' =>
          if write_events then
            fastq_trace (last (fast5_files pa) EmptyString) load_time fs
              (d_post d) (score_list d) (states_list d) (kmer_path_list d)
              (seq_list d) (decode_time_list d)
              (seq 0 (List.length (fast5_files pa))) [] t'
          else []
      end
  end.

(** *** The ways a unit fails before it writes *)

(** Feature preparation raises, or yields nothing, for a read of the
    unit. *)
Definition preparation_fails (kw : kwargs) (pa : process_attr) : Prop :=
  exists f, In f (fast5_files pa) /\
    forall w, ~ prepared (set_window w kw) f.

(** Network inference raises [e]: on the CPU [network.run] on the
    features of one read of the unit; on the accelerator
    [network.run(features_list, ctx, queue_list)] on the features of all
    its reads, with the context and the queues of lines 157-165. *)
Definition network_fails (modelfile : string) (kw : kwargs)
    (write_events : bool) (pa : process_attr) (e : exn) : Prop :=
  exists net,
    np_load modelfile = Ok net /\
    let kw' := set_window (meta_window net) kw in
    if use_opencl pa then
      exists fs t p rest device,
        for_each (feature_step net kw' write_events true) (fast5_files pa)
                 empty_feat 2%nat = Next fs t /\
        matching_platforms (vendor pa) cl_get_platforms = Ok (p :: rest) /\
        py_nth (gpu_devices p) (device_id pa) = Some device /\
        network_run_opencl net (features_list fs) (mkContext [device])
          (map (fun _ => mkQueue (mkContext [device]))
               (seq 0 (List.length (features_list fs)))) = Raise e
    else
      exists f name feats evs l,
        In f (fast5_files pa) /\
        make_basecall_input_multi f kw' = Ok ((name, feats, evs) :: l) /\
        network_run net (astype feats) = Raise e.

(** The decoder raises [e]: lines 114-199 are through and have left the
    posteriors and the transitions [ps]; on the CPU [decode_profile]
    raises on those of one read of the unit, on the accelerator
    [decode_profile_opencl] on those of all its reads. *)
Definition decode_fails (modelfile : string) (pa : process_attr)
    (min_prob : Q) (trans : option (list Q)) (write_events : bool)
    (kw : kwargs) (e : exn) : Prop :=
  exists load_time net cs fs t ps,
    run_network modelfile pa write_events kw 0%nat =
      Next (load_time, net, cs, fs) t /\
    for_each (post_step net min_prob trans false)
             (seq 0 (List.length (fast5_files pa)))
             (mkPost (post_list fs) [] []) (S t) = Next ps (S t) /\
    if use_opencl pa then
      exists c,
        ctx cs = Some c /\
        decode_profile_opencl c (queue_list cs) (ps_post_list ps)
          (trans_list ps) (max_workgroup_size cs) = Raise e
    else
      exists x post tl,
        (x < List.length (fast5_files pa))%nat /\
        nth_error (ps_post_list ps) x = Some post /\
        nth_error (trans_list ps) x = Some tl /\
        decode_profile post tl = Raise e.

End ProcessRead.

(** ** [main]: planning the units *)

(** The parsed command line ([--watch] not given). *)
Record args : Type := mkArgs {
  input : string;
  model : string;
  section_arg : option string;
  arg_min_len : Z;
  arg_max_len : Z;
  arg_event_detect : bool;
  jobs : Z;
  opencl : bool;
  opencl_input_files : Z;
  list_platforms : bool;
  platforms : option (list string)
}.

(** [s.split(sep)] *)
Fixpoint split_on (sep : ascii) (s : string) : list string :=
  match s with
  | EmptyString => [EmptyString]
  | String c r =>
      if Ascii.eqb c sep then EmptyString :: split_on sep r
      else
        match split_on sep r with
        | h :: t => String c h :: t
        | [] => [String c EmptyString]
        end
  end.

(** [l[x] = v], an [IndexError] past the end. *)
Definition set_item (A : Type) (l : list A) (x : nat) (v : A) : res (list A) :=
  if (x <? List.length l)%nat then Ok (set_nth l x v) else Raise IndexError.

Fixpoint set_items (A : Type) (l : list A) (xs : list nat) (v : A)
  : res (list A) :=
  match xs with
  | [] => Ok l
  | x :: r =>
      match set_item l x v with
      | Ok l' => set_items l' r v
      | Raise e => Raise e
      end
  end.

(** Lines 302-305. *)
Definition files_pattern (a : args) : res (list Z) :=
  let pattern := repeat 1%Z (Z.to_nat (jobs a)) in
  if opencl a then
    match platforms a with
    | None => Raise TypeError
    | Some ps =>
        set_items pattern (seq 0 (List.length ps)) (opencl_input_files a)
    end
  else Ok pattern.

Section Planner.

(** The builtin [int] on a string. *)
Variable py_int : string -> option Z.

(** Lines 317-321: the unit made of the [i]-th group [ff]. *)
Definition plan_unit (a : args) (i : nat) (ff : list string)
  : res process_attr :=
  if opencl a then
    if (jobs a =? 0)%Z then Raise ZeroDivisionError
    else
      let slot := (Z.of_nat i mod jobs a)%Z in
      match platforms a with
      | None => Raise TypeError
      | Some ps =>
          if (0 <=? slot)%Z && (slot <? Z.of_nat (List.length ps))%Z then
            match py_nth ps slot with
            | None => Raise IndexError
            | Some entry =>
                match split_on ":"%char entry with
                | [v; d] =>
                    match py_int d with
                    | Some id => Ok (mkPA ff true (Some v) id)
                    | None => Raise ValueError
                    end
                | _ => Raise ValueError
                end
            end
          else Ok (process_attr_cpu ff)
      end
  else Ok (process_attr_cpu ff).

(** Lines 315-321: [for i, ff in enumerate(fast5_files)], from index [i]. *)
Fixpoint plan_units (a : args) (i : nat) (groups : list (list string))
  : res (list process_attr) :=
  match groups with
  | [] => Ok []
  | ff :: rest =>
      match plan_unit a i ff with
      | Raise e => Raise e
      | Ok pa =>
          match plan_units a (S i) rest with
          | Raise e => Raise e
          | Ok l => Ok (pa :: l)
          end
      end
  end.

(** An entry [VENDOR:DEVICE] that [split(':')] and [int] accept. *)
Definition well_formed (entry : string) : Prop :=
  exists v d id, split_on ":"%char entry = [v; d] /\ py_int d = Some id.

(** The configured devices: none without [--opencl]. *)
Definition configured (a : args) (ps : list string) : Prop :=
  if opencl a then platforms a = Some ps else ps = [].

(** What becomes of the [i]-th group. *)
Definition planned (a : args) (ps : list string) (i : nat)
    (ff : list string) (pa : process_attr) : Prop :=
  let slot := (Z.of_nat i mod jobs a)%Z in
  if (slot <? Z.of_nat (List.length ps))%Z then
    exists entry v d id,
      nth_error ps (Z.to_nat slot) = Some entry /\
      split_on ":"%char entry = [v; d] /\ py_int d = Some id /\
      pa = mkPA ff true (Some v) id
  else pa = process_attr_cpu ff.

(** [nanonet.fast5.iterate_fast5(args.input, ..., files_group_pattern)]:
    the groups of files it yields. *)
Variable iterate_fast5 : string -> list Z -> list (list string).

(** Lines 302-321: the pattern and the planned units. *)
Definition plan (a : args) : res (list Z * list process_attr) :=
  match files_pattern a with
  | Raise e => Raise e
  | Ok pattern =>
      match plan_units a 0 (iterate_fast5 (input a) pattern) with
      | Raise e => Raise e
      | Ok pa_list => Ok (pattern, pa_list)
      end
  end.

End Planner.

(** ** [main]: running the units and the summary *)

(** Modelled from the spec: [nanonet.util.tang_imap], the bounded
    parallel-map primitive of section 6, is not among the sources.  It gives
    one output per input, in the order of the inputs, and isolates the
    exception of an item: the item that raises yields [None]. *)
Definition tang_imap (A : Type) (function : A -> outcome) (items : list A)
  : list retval :=
  map (fun a =>
         match function a with
         | Returned v => v
         | Raised _ => RetNone
         end) items.

(** The state of the loop of lines 324-338. *)
Record tally : Type := mkTally {
  fasta : list (string * string);
  n_reads : nat;
  n_bases : nat;
  n_events : nat;
  timings : list Q
}.

Definition tally0 : tally := mkTally [] 0 0 0 [0; 0; 0; 0; 0].

Definition time_tuple (t : timing) : list Q :=
  [t_feature t; t_load t; t_network t; t_decode t; t_write t].

(** [[x + y for x, y in zip(timings, time)]] *)
Definition add_timings (ts time : list Q) : list Q :=
  map (fun xy => fst xy + snd xy) (combine ts time).

(** Lines 333-338. *)
Definition tally_result (s : tally) (r : read_result) : tally :=
  mkTally (fasta s ++ [(r_name r, r_seq r)])
          (S (n_reads s))
          (n_bases s + String.length (r_seq r))
          (n_events s + r_n_ev r)
          (add_timings (timings s) (time_tuple (r_time r))).

(** Lines 329-338.  A posterior matrix cannot be unpacked as results; it
    does not come back from [process_read] when [post_only] is off. *)
Fixpoint tally_units (s : tally) (rets : list retval) : res tally :=
  match rets with
  | [] => Ok s
  | RetNone :: rest => tally_units s rest
  | RetList results :: rest =>
      tally_units (fold_left tally_result results s) rest
  | RetPost _ :: _ => Raise ValueError
  end.

Record profiling : Type := mkProfiling {
  p_feature : Q;
  p_load : Q;
  p_network : Q;
  p_network_kb : Q;
  p_network_kev : Q;
  p_decoding : Q;
  p_decoding_kb : Q;
  p_decoding_kev : Q;
  p_events_writing : Q
}.

(** What is written to [stderr] after the loop. *)
Record summary : Type := mkSummary {
  basecalled_reads : nat;
  basecalled_bases : nat;
  basecalled_events : nat;
  wall_time : Q;
  profile : option profiling
}.

(** [n/1000/t]: an integer division, then a float division. *)
Definition per_kilo (n : nat) (t : Q) : res Q :=
  if Qeq_bool t 0 then Raise ZeroDivisionError
  else Ok (inject_Z (Z.of_nat n / 1000) / t).

(** Lines 341-360. *)
Definition profiling_of (jobs : Z) (s : tally) : res profiling :=
  match timings s with
  | [feature; load; network; decoding; events_writing] =>
      if (jobs =? 0)%Z then Raise ZeroDivisionError
      else
        let j := inject_Z jobs in
        let feature := feature / j in
        let load := load / j in
        let network := network / j in
        let decoding := decoding / j in
        let events_writing := events_writing / j in
        match per_kilo (n_bases s) network, per_kilo (n_events s) network,
              per_kilo (n_bases s) decoding, per_kilo (n_events s) decoding
        with
        | Ok nkb, Ok nkev, Ok dkb, Ok dkev =>
            Ok (mkProfiling feature load network nkb nkev
                  decoding dkb dkev events_writing)
        | _, _, _, _ => Raise ZeroDivisionError
        end
  | _ => Raise ValueError
  end.

(** Line 340: the counts and the wall time, written to [stderr] before
    the profile is computed. *)
Record basecalled : Type := mkBasecalled {
  b_reads : nat;
  b_bases : nat;
  b_events : nat;
  b_wall : Q
}.

Definition basecalled_line (wall : Q) (s : tally) : basecalled :=
  mkBasecalled (n_reads s) (n_bases s) (n_events s) wall.

(** Lines 340-360 when they run to their end: the whole text.  When the
    profile raises, the line of [basecalled_line] is on [stderr]
    already. *)
Definition summarise (jobs : Z) (wall : Q) (s : tally) : res summary :=
  if (0 <? n_reads s)%nat then
    match profiling_of jobs s with
    | Ok p =>
        Ok (mkSummary (n_reads s) (n_bases s) (n_events s) wall (Some p))
    | Raise e => Raise e
    end
  else Ok (mkSummary (n_reads s) (n_bases s) (n_events s) wall None).

(** The results a unit hands to the loop. *)
Definition results_of (v : retval) : list read_result :=
  match v with
  | RetList r => r
  | _ => []
  end.

Definition name_seq (r : read_result) : string * string :=
  (r_name r, r_seq r).

Definition is_matrix (v : retval) : bool :=
  match v with RetPost _ => true | _ => false end.

(** The units the loop skipped. *)
Definition skipped (rets : list retval) : nat :=
  List.length (filter (fun v => match v with RetNone => true | _ => false end)
                 rets).

(** What [main] writes to [stderr] for the values the units gave. *)
Definition report (jobs : Z) (wall : Q) (rets : list retval) : res summary :=
  match tally_units tally0 rets with
  | Ok s => summarise jobs wall s
  | Raise e => Raise e
  end.

(** How [main] ends: by [sys.exit], by an exception before the loop is
    through, by an exception of the profile (the fasta records and line
    340 are written), or by its end. *)
Inductive main_outcome : Type :=
| Exited (code : Z)
| Crashed (e : exn)
| Crashed_in_profile (out : list (string * string)) (b : basecalled)
    (e : exn)
| Finished (out : list (string * string)) (s : summary).

Section Main.

Variables features events network : Type.

(** The timer readings seen by the worker that handles a unit, and the
    two readings of [main] around the loop. *)
Variable clock_of : process_attr -> nat -> Q.
Variable wall_t0 wall_t1 : Q.

Variable np_load : string -> res network.
Variable meta_window : network -> Z.
Variable meta_kmers : network -> list string.
Variable meta_section : network -> option string.
Variable make_basecall_input_multi :
  string -> kwargs -> res (list (string * features * events)).
Variable astype : features -> features.
Variable network_run : network -> features -> res matrix.
Variable network_run_opencl :
  network -> list features -> cl_context -> list cl_queue ->
  res (list matrix).
Variable cl_get_platforms : list cl_platform.
Variable estimate_transitions : matrix -> option (list Q) -> res (list Q).
Variable decode_profile :
  matrix -> list npfloat -> res (npfloat * list nat).
Variable decode_profile_opencl :
  cl_context -> list cl_queue -> list matrix -> list (list npfloat) ->
  nat -> res (list npfloat * list (list nat)).
Variable ln : Q -> Q.
Variable kmers_to_sequence : list string -> res string.
Variable write_events_table :
  string -> events -> list bool -> matrix -> list string -> list nat ->
  string -> res (option string).
Variable py_int : string -> option Z.
Variable iterate_fast5 : string -> list Z -> list (list string).

(** [process_read] as [tang_imap] calls it: [fix_args], [fix_kwargs] and
    the defaults [min_prob=1e-5, trans=None, post_only=False,
    write_events=True]. *)
Definition worker (modelfile : string) (kw : kwargs) (pa : process_attr)
  : outcome :=
  process_read (clock_of pa) np_load meta_window meta_kmers
    make_basecall_input_multi astype network_run network_run_opencl
    cl_get_platforms estimate_transitions decode_profile
    decode_profile_opencl ln kmers_to_sequence write_events_table
    modelfile pa (1 # 100000) None false true kw.

(** What the loop writes for one unit. *)
Definition written (modelfile : string) (kw : kwargs) (pa : process_attr)
  : list (string * string) :=
  match worker modelfile kw pa with
  | Returned (RetList r) => map name_seq r
  | _ => []
  end.

(** The Fastq records the worker has put into the fast5 file of a
    unit. *)
Definition fastq_of (modelfile : string) (kw : kwargs) (pa : process_attr)
  : list (string * string * string) :=
  fastq_written (clock_of pa) np_load meta_window meta_kmers
    make_basecall_input_multi astype network_run network_run_opencl
    cl_get_platforms estimate_transitions decode_profile
    decode_profile_opencl ln kmers_to_sequence write_events_table
    modelfile pa (1 # 100000) None false true kw.

(** A unit fails: feature preparation, network inference or the decoder
    raises for it. *)
Definition unit_fails (modelfile : string) (kw : kwargs) (u : process_attr)
  : Prop :=
  preparation_fails make_basecall_input_multi kw u
  \/ (exists e,
        network_fails (clock_of u) np_load meta_window
          make_basecall_input_multi astype
          network_run network_run_opencl cl_get_platforms modelfile kw true
          u e)
  \/ (exists e,
        decode_fails (clock_of u) np_load meta_window meta_kmers
          make_basecall_input_multi astype network_run network_run_opencl
          cl_get_platforms estimate_transitions decode_profile
          decode_profile_opencl ln modelfile u (1 # 100000) None true kw e).

(** Lines 323-338. *)
Definition execute (modelfile : string) (kw : kwargs)
    (pa_list : list process_attr) : res tally :=
  tally_units tally0 (tang_imap (worker modelfile kw) pa_list).

(** Lines 285-290. *)
Definition find_section (a : args) : option string :=
  match section_arg a with
  | Some s => Some s
  | None =>
      match np_load (model a) with
      | Ok net => meta_section net
      | Raise _ => None
      end
  end.

Definition main (a : args) : main_outcome :=
  if list_platforms a then Exited 0
  else
    match find_section a with
    | None => Exited 1
    | Some sec =>
        let kw := mkKwargs (arg_min_len a) (arg_max_len a) sec
                    (arg_event_detect a) None in
        match plan py_int iterate_fast5 a with
        | Raise e => Crashed e
        | Ok (_, pa_list) =>
            match execute (model a) kw pa_list with
            | Raise e => Crashed e
            | Ok s =>
                let wall := wall_t1 - wall_t0 in
                match summarise (jobs a) wall s with
                | Raise e =>
                    Crashed_in_profile (fasta s) (basecalled_line wall s) e
                | Ok sm => Finished (fasta s) sm
                end
            end
        end
    end.

End Main.

(** ** The profile decoders of [nanonet.decoding]

    [nanonet/decoding.py] is not among the sources: the two decoders are
    modelled from sections 3, 4.2 and 4.3 of the specification. *)

Module Decoding.

(** Modelled from the spec: [nanonet.decoding] is missing; the three moves
    of section 3, in the order in which section 4.2 prefers them in a
    tie. *)
Inductive move : Type := Stay | Step | Skip.

(** Modelled from the spec: [nanonet.decoding] is missing; the place of a
    move in the transition model (stay, step, skip). *)
Definition move_index (m : move) : nat :=
  match m with Stay => 0 | Step => 1 | Skip => 2 end.

(** Modelled from the spec: [nanonet.decoding] is missing; the overlap rule
    of section 3: the last [k - d] symbols of [a] are the first [k - d] of
    [b]. *)
Definition overlaps (d : nat) (a b : string) : bool :=
  let k := String.length a in
  String.eqb (substring d (k - d) a) (substring 0 (k - d) b).

(** Modelled from the spec: [nanonet.decoding] is missing; the states [b]
    can be entered from, by a step ([d = 1]) or a skip
    ([d = 2]), in the order of the table. *)
Definition sources (kmers : list string) (d : nat) (b : string) : list nat :=
  filter (fun i => overlaps d (nth i kmers EmptyString) b)
         (seq 0 (List.length kmers)).

(** Modelled from the spec: [nanonet.decoding] is missing; the legal
    predecessors of state [s]: stay, then steps, then skips. *)
Definition predecessors (kmers : list string) (s : nat)
  : list (move * nat) :=
  let b := nth s kmers EmptyString in
  (Stay, s) :: map (pair Step) (sources kmers 1 b)
            ++ map (pair Skip) (sources kmers 2 b).

Section Profile.

(** Scores, with the operations the recurrence needs. *)
Variable score : Type.
Variable slog : Q -> score.
Variable sadd : score -> score -> score.
Variable sgtb : score -> score -> bool.
Variable kmers : list string.

(** Modelled from the spec: [nanonet.decoding] is missing; the first
    maximum of a list of scored candidates (the tie-break of 4.2). *)
Fixpoint first_max (A : Type) (cur : score * A) (l : list (score * A))
  : score * A :=
  match l with
  | [] => cur
  | c :: r => if sgtb (fst c) (fst cur) then first_max c r
              else first_max cur r
  end.

(** Modelled from the spec: [nanonet.decoding] is missing; one cell of the
    recurrence of section 4.2:
    [best[t][s] = log(post[t][s]) + max (best[t-1][s'] + log trans)],
    with the predecessor that gives the maximum. *)
Definition dp_cell (trans prev : list score) (s : nat) (p : Q)
  : score * nat :=
  let cand mv :=
    (sadd (nth (snd mv) prev (slog 0))
          (nth (move_index (fst mv)) trans (slog 0)), snd mv) in
  let best := first_max (cand (Stay, s))
                        (map cand (tl (predecessors kmers s))) in
  (sadd (slog p) (fst best), snd best).

(** Modelled from the spec: [nanonet.decoding] is missing; the cells of
    one event, from state [s] on. *)
Fixpoint dp_cells (trans prev : list score) (s : nat) (row : list Q)
  : list (score * nat) :=
  match row with
  | [] => []
  | p :: r => dp_cell trans prev s p :: dp_cells trans prev (S s) r
  end.

(** Modelled from the spec: [nanonet.decoding] is missing; the state of one
    read's table: the events still to do, the scores
    of the last event done, the back-pointers so far (last first). *)
Record table : Type := mkTable {
  todo : matrix;
  best : list score;
  back : list (list nat);
  ltrans : list score
}.

(** Modelled from the spec: [nanonet.decoding] is missing; the
    initialisation of section 4.2,
    [best[0][s] = log(post[0][s])]; no event is an error. *)
Definition start (post : matrix) (trans : list score) : res table :=
  match post with
  | [] => Raise ValueError
  | row :: rest => Ok (mkTable rest (map slog row) [] trans)
  end.

(** Modelled from the spec: [nanonet.decoding] is missing; one event of one
    read, by the recurrence. *)
Definition advance (t : table) : table :=
  match todo t with
  | [] => t
  | row :: rest =>
      let cells := dp_cells (ltrans t) (best t) 0 row in
      mkTable rest (map fst cells) (map snd cells :: back t) (ltrans t)
  end.


(** Modelled from the spec: [nanonet.decoding] is missing; all the events
    of one read, one after the other. *)
Fixpoint forward (rows : matrix) (t : table) : table :=
  match rows with
  | [] => t
  | _ :: r => forward r (advance t)
  end.

(** Modelled from the spec: [nanonet.decoding] is missing; the first state
    of the best final score. *)
Fixpoint arg_first_max (cur : score * nat) (i : nat) (l : list score)
  : score * nat :=
  match l with
  | [] => cur
  | x :: r => if sgtb x (fst cur) then arg_first_max (x, i) (S i) r
              else arg_first_max cur (S i) r
  end.

(** Modelled from the spec: [nanonet.decoding] is missing; the
    back-pointers followed from state [s]. *)
Fixpoint trace (back : list (list nat)) (s : nat) (acc : list nat)
  : list nat :=
  match back with
  | [] => s :: acc
  | bp :: older => trace older (nth s bp 0%nat) (s :: acc)
  end.

(** Modelled from the spec: [nanonet.decoding] is missing; the termination
    of section 4.2, the best final
    score and the path traced back from its state. *)
Definition finish (t : table) : res (score * list nat) :=
  match best t with
  | [] => Raise ValueError
  | x :: r =>
      let top := arg_first_max (x, 0%nat) 1 r in
      Ok (fst top, trace (back t) (snd top) [])
  end.

(** Modelled from the spec: [nanonet.decoding.decode_profile] is missing;
    the sequential decoder of section 4.2,
    [decode(posteriors, transitions) -> (Score, StatePath)]. *)
Definition decode (post : matrix) (trans : list score)
  : res (score * list nat) :=
  match start post trans with
  | Raise e => Raise e
  | Ok t => finish (forward (todo t) t)
  end.

(** Modelled from the spec: [nanonet.decoding] is missing; one launch on
    the accelerator: every read of the batch that is
    started does its next event. *)
Definition launch (batch : list (res table)) : list (res table) :=
  map (fun r => match r with
                | Ok t => Ok (advance t)
                | Raise e => Raise e
                end) batch.

(** Modelled from the spec: [nanonet.decoding] is missing; [n] launches
    one after the other. *)
Fixpoint launches (n : nat) (batch : list (res table))
  : list (res table) :=
  match n with
  | O => batch
  | S k => launches k (launch batch)
  end.

(** Modelled from the spec: [nanonet.decoding] is missing; the tables of
    the reads of a batch, each with its own transition model. *)
Fixpoint start_batch (posts : list matrix) (transs : list (list score))
  : list (res table) :=
  match posts, transs with
  | p :: ps, t :: ts => start p t :: start_batch ps ts
  | _, _ => []
  end.

(** Modelled from the spec: [nanonet.decoding] is missing; the number of
    events of the longest read of the batch. *)
Definition max_events (posts : list matrix) : nat :=
  fold_right (fun p m => Nat.max (List.length p) m) 0%nat posts.

(** Modelled from the spec: [nanonet.decoding.decode_profile_opencl] is
    missing; the batched decoder of section 4.3,
    [decode_batch(list_of_posteriors, list_of_transitions)]: the same
    recurrence, the tables of all the reads advanced together, the
    results index-aligned with the input. *)
Definition decode_batch (posts : list matrix)
    (transs : list (list score)) : list (res (score * list nat)) :=
  map (fun r => match r with
                | Ok t => finish t
                | Raise e => Raise e
                end)
      (launches (max_events posts) (start_batch posts transs)).

(** Modelled from the spec: [nanonet.decoding] is missing; the results of
    a batch as [decode_profile_opencl] hands them to
    [process_read]: the two lists, or the first error. *)
Fixpoint unzip_results (rs : list (res (score * list nat)))
  : res (list score * list (list nat)) :=
  match rs with
  | [] => Ok ([], [])
  | Raise e :: _ => Raise e
  | Ok (sc, path) :: rest =>
      match unzip_results rest with
      | Ok (scs, paths) => Ok (sc :: scs, path :: paths)
      | Raise e => Raise e
      end
  end.

End Profile.

(** Modelled from the spec: [nanonet.decoding] is missing; the sum of two
    scores as floats add. *)
Definition fadd (x y : npfloat) : npfloat :=
  match x, y with
  | NaN, _ | _, NaN => NaN
  | PosInf, NegInf | NegInf, PosInf => NaN
  | PosInf, _ | _, PosInf => PosInf
  | NegInf, _ | _, NegInf => NegInf
  | Fin a, Fin b => Fin (a + b)
  end.

(** Modelled from the spec: [nanonet.decoding] is missing; [x > y] as
    floats compare. *)
Definition fgtb (x y : npfloat) : bool :=
  match x, y with
  | NaN, _ | _, NaN => false
  | PosInf, PosInf => false
  | PosInf, _ => true
  | _, PosInf => false
  | NegInf, _ => false
  | Fin _, NegInf => true
  | Fin a, Fin b => Qltb b a
  end.

Section Float.

Variable ln : Q -> Q.
Variable kmers : list string.

(** Modelled from the spec: [nanonet.decoding.decode_profile] is missing;
    [decode_profile(post, trans=trans, log=False)] is the decoder of
    section 4.2 on float scores. *)
Definition decode_profile (post : matrix) (trans : list npfloat)
  : res (npfloat * list nat) :=
  decode (np_log ln) fadd fgtb kmers post trans.

(** Modelled from the spec: [nanonet.decoding.decode_profile_opencl] is
    missing; it is the decoder of section 4.3 on float scores:
    [decode_profile_opencl(ctx, queue_list, post_list,
    trans_list=trans_list, log=False, max_workgroup_size=...)] *)
Definition decode_profile_opencl (c : cl_context) (ql : list cl_queue)
    (post_list : list matrix) (trans_list : list (list npfloat))
    (max_workgroup_size : nat)
  : res (list npfloat * list (list nat)) :=
  unzip_results
    (decode_batch (np_log ln) fadd fgtb kmers post_list trans_list).

End Float.

End Decoding.

(** ** A small run, for the examples *)

Module Sample.

#[local] Open Scope string_scope.

(** Two bases, k-mers of length two and the bad k-mer. *)
Definition kmers : list string := ["AA"; "AC"; "CA"; "CC"; "XX"].

Definition postA : matrix :=
  [[7 # 10; 1 # 10; 1 # 10; 1 # 20; 1 # 20];
   [1 # 10; 1 # 10; 1 # 10; 1 # 10; 6 # 10];
   [1 # 10; 6 # 10; 1 # 10; 1 # 10; 1 # 10];
   [1 # 20; 1 # 20; 8 # 10; 1 # 20; 1 # 20]].

Definition postB : matrix :=
  [[1 # 10; 1 # 10; 1 # 10; 13 # 20; 1 # 20];
   [1 # 10; 1 # 10; 6 # 10; 1 # 10; 1 # 10]].

(** The features of a read are its posteriors already; the events are
    their number. *)
Definition make_basecall_input_multi (f : string) (kw : kwargs)
  : res (list (string * matrix * nat)) :=
  if String.eqb f "a.fast5" then Ok [("a", postA, 4%nat)]
  else if String.eqb f "b.fast5" then Ok [("b", postB, 2%nat)]
  else if String.eqb f "short.fast5" then Ok []
  else Raise (ExternalError "features").

Definition np_load (modelfile : string) : res unit := Ok tt.
Definition meta_window (net : unit) : Z := 3%Z.
Definition meta_kmers (net : unit) : list string := kmers.
Definition astype (x : matrix) : matrix := x.
Definition network_run (net : unit) (x : matrix) : res matrix := Ok x.
Definition network_run_opencl (net : unit) (xs : list matrix)
    (c : cl_context) (ql : list cl_queue) : res (list matrix) := Ok xs.

Definition cl_get_platforms : list cl_platform :=
  [mkPlatform "Intel CPU runtime" [];
   mkPlatform "NVIDIA CUDA" [mkDevice "gpu0" 1024]].

Definition estimate_transitions (post : matrix) (trans : option (list Q))
  : res (list Q) :=
  match trans with
  | Some t => Ok t
  | None => Ok [9 # 10; 8 # 100; 2 # 100]
  end.

(** A coarse rational stand-in for the logarithm: hundredths, rounded
    down, less one. *)
Definition ln (q : Q) : Q := inject_Z (Qfloor (100 * q) - 100) / 100.

Definition kmers_to_sequence (path : list string) : res string :=
  Ok (String.concat "" path).

Definition write_events_table (fast5 : string) (evs : nat)
    (good : list bool) (post : matrix) (path : list string)
    (states : list nat) (sq : string) : res (option string) := Ok None.

(** The k-th reading of the timer is k squared. *)
Definition clock (k : nat) : Q := inject_Z (Z.of_nat (k * k)).

Definition kw : kwargs := mkKwargs 500 15000 "template" true None.

Definition min_prob : Q := 1 # 100000.

(** A decoder that always fails. *)
Definition no_decoder (post : matrix) (trans : list npfloat)
  : res (npfloat * list nat) := Raise (ExternalError "decode").

Definition process_read_with
    (decode : matrix -> list npfloat -> res (npfloat * list nat))
    (pa : process_attr) (post_only write_events : bool) : outcome :=
  process_read clock np_load meta_window meta_kmers
    make_basecall_input_multi astype network_run network_run_opencl
    cl_get_platforms estimate_transitions decode
    (Decoding.decode_profile_opencl ln kmers) ln kmers_to_sequence
    write_events_table "model.npy" pa min_prob None post_only write_events
    kw.

Definition process_read (pa : process_attr) (post_only write_events : bool)
  : outcome :=
  process_read_with (Decoding.decode_profile ln kmers) pa post_only
    write_events.

Definition cpu_unit : process_attr :=
  process_attr_cpu ["a.fast5"; "b.fast5"].
Definition nvidia_unit : process_attr :=
  mkPA ["a.fast5"; "b.fast5"] true (Some "nvidia") 0.
Definition amd_unit : process_attr :=
  mkPA ["a.fast5"; "b.fast5"] true (Some "amd") 0.
Definition broken_unit : process_attr :=
  process_attr_cpu ["c.fast5"].

(** The list a unit returns, empty when it returns none. *)
Definition results (o : outcome) : list read_result :=
  match o with
  | Returned (RetList r) => r
  | _ => []
  end.

(** The state after lines 114-169 of a unit. *)
Definition network_done (pa : process_attr) (write_events : bool)
  : step (Q * unit * cl_state * feat_state matrix nat) :=
  run_network clock np_load meta_window make_basecall_input_multi astype
    network_run network_run_opencl cl_get_platforms "model.npy" pa
    write_events kw 0%nat.

Definition value (A : Type) (d : A) (s : step A) : A :=
  match s with
  | Next a _ => a
  | Exit _ => d
  end.

Definition ticks (A : Type) (s : step A) : nat :=
  match s with
  | Next _ t => t
  | Exit _ => 0
  end.

Definition no_state : Q * unit * cl_state * feat_state matrix nat :=
  (0, tt, mkCl None [] 0, empty_feat matrix nat).

(** The loop of lines 176-199 on the two reads. *)
Definition post_loop : step post_state :=
  for_each (post_step meta_kmers estimate_transitions ln tt min_prob None
              false)
           (seq 0 2) (mkPost [postA; postB] [] []) 0%nat.

(** The command line of two devices and four jobs, and of two devices
    and one job. *)
Definition args_four_jobs : args :=
  mkArgs "reads" "model.npy" (Some "template") 500 15000 true 4 true 3
         false (Some ["nvidia:0"; "amd:1"]).

Definition args_one_job : args :=
  mkArgs "reads" "model.npy" (Some "template") 500 15000 true 1 true 3
         false (Some ["nvidia:0"; "amd:1"]).

Fixpoint digits (s : string) (acc : Z) : option Z :=
  match s with
  | EmptyString => Some acc
  | String c r =>
      let n := nat_of_ascii c in
      if (48 <=? n)%nat && (n <=? 57)%nat
      then digits r (10 * acc + Z.of_nat (n - 48))%Z
      else None
  end.

(** [int(s)] on a string of decimal digits.  Python's [int] also takes a
    sign and blanks around the digits; the examples only read ["0"] and
    ["1"] with it. *)
Definition py_int (s : string) : option Z :=
  match s with
  | EmptyString => None
  | _ => digits s 0%Z
  end.

(** Groups of files cut off a list, their sizes taken from the pattern
    again and again. *)
Fixpoint chunk (fuel : nat) (pattern cur : list Z) (files : list string)
  : list (list string) :=
  match fuel, files with
  | O, _ => []
  | _, [] => []
  | S k, _ =>
      match cur with
      | [] => chunk k pattern pattern files
      | n :: cur' =>
          firstn (Z.to_nat n) files ::
          chunk k pattern cur' (skipn (Z.to_nat n) files)
      end
  end.

Definition files : list string :=
  ["r01"; "r02"; "r03"; "r04"; "r05"; "r06"; "r07"; "r08"; "r09"; "r10";
   "r11"; "r12"].

Definition iterate_fast5 (path : string) (pattern : list Z)
  : list (list string) :=
  chunk 40 pattern pattern files.

Definition clock_of (pa : process_attr) : nat -> Q := clock.

Definition worker : process_attr -> outcome :=
  worker clock_of np_load meta_window meta_kmers make_basecall_input_multi
    astype network_run network_run_opencl cl_get_platforms
    estimate_transitions (Decoding.decode_profile ln kmers)
    (Decoding.decode_profile_opencl ln kmers) ln kmers_to_sequence
    write_events_table "model.npy" kw.

Definition execute : list process_attr -> res tally :=
  execute clock_of np_load meta_window meta_kmers make_basecall_input_multi
    astype network_run network_run_opencl cl_get_platforms
    estimate_transitions (Decoding.decode_profile ln kmers)
    (Decoding.decode_profile_opencl ln kmers) ln kmers_to_sequence
    write_events_table "model.npy" kw.

Definition written : process_attr -> list (string * string) :=
  written clock_of np_load meta_window meta_kmers make_basecall_input_multi
    astype network_run network_run_opencl cl_get_platforms
    estimate_transitions (Decoding.decode_profile ln kmers)
    (Decoding.decode_profile_opencl ln kmers) ln kmers_to_sequence
    write_events_table "model.npy" kw.

Definition unit_a : process_attr := process_attr_cpu ["a.fast5"].
Definition unit_b : process_attr := process_attr_cpu ["b.fast5"].

(** The state after lines 172-221 of a unit. *)
Definition decode_done (pa : process_attr) (write_events : bool)
  : step decoded :=
  let st := value no_state (network_done pa write_events) in
  decode_reads clock meta_kmers estimate_transitions
    (Decoding.decode_profile ln kmers)
    (Decoding.decode_profile_opencl ln kmers) ln kmers_to_sequence pa
    min_prob None false (snd (fst (fst st))) (snd (fst st)) (snd st)
    (ticks (network_done pa write_events)).

Definition no_decoded : decoded :=
  mkDecoded (mkPost [] [] []) [] [] [] [] [].

(** The transition model logged, and the posteriors of the two reads
    prepared. *)
Definition logged : list npfloat :=
  log_trans ln [9 # 10; 8 # 100; 2 # 100].


(** A result for the examples. *)
Definition a_result : read_result :=
  mkResult "read1" "ACGT" (Fin 0) 4 (mkTiming 1 1 1 1 1).

End Sample.

(** ** Further notions for the properties *)

(** How often [c] occurs in [s]. *)
Fixpoint occurrences (c : ascii) (s : string) : nat :=
  match s with
  | EmptyString => 0
  | String x r => (if Ascii.eqb x c then 1 else 0) + occurrences c r
  end.

(** [p.get_devices(device_type=cl.device_type.GPU)] is not empty. *)
Definition has_gpu (p : cl_platform) : bool :=
  match gpu_devices p with
  | [] => false
  | _ :: _ => true
  end.


Section ReadOk.

Variables features events network : Type.
Variable make_basecall_input_multi :
  string -> kwargs -> res (list (string * features * events)).
Variable astype : features -> features.
Variable network_run : network -> features -> res matrix.

(** The turn of the loop of lines 131-151 for the file [g] goes through:
    its features are prepared and, on the CPU, the network runs on
    them. *)
Definition read_ok (oc : bool) (net : network) (kw : kwargs) (g : string)
  : Prop :=
  exists name feats evs l,
    make_basecall_input_multi g kw = Ok ((name, feats, evs) :: l) /\
    (oc = false -> exists post, network_run net (astype feats) = Ok post).

End ReadOk.


(** ** More small runs, for the examples of the further properties *)

Module Cases.

#[local] Open Scope string_scope.

(** A unit whose second file cannot be prepared, and a unit with no
    file. *)
Definition mixed_unit : process_attr :=
  process_attr_cpu ["a.fast5"; "c.fast5"; "b.fast5"].
Definition empty_unit : process_attr := process_attr_cpu [].

(** A network that fails on a read of two events. *)
Definition picky_network (net : unit) (x : matrix) : res matrix :=
  if (List.length x =? 2)%nat then Raise (ExternalError "network")
  else Ok x.

(** A table of k-mers that does not end in the bad k-mer. *)
Definition plain_kmers (net : unit) : list string :=
  ["AA"; "AC"; "CA"; "CC"; "CG"].

(** A writer that finds a read id in the file, and one that only knows
    the file [b.fast5]. *)
Definition write_with_id (fast5 : string) (evs : nat) (good : list bool)
    (post : matrix) (path : list string) (states : list nat) (sq : string)
  : res (option string) := Ok (Some ("id of " ++ fast5)).

Definition write_b_only (fast5 : string) (evs : nat) (good : list bool)
    (post : matrix) (path : list string) (states : list nat) (sq : string)
  : res (option string) :=
  if String.eqb fast5 "b.fast5" then Ok None
  else Raise (ExternalError "write").

(** [process_read] on the sample run, with the table of k-mers, the
    network and the writer of one's choice. *)
Definition process_read_at (kmers_of : unit -> list string)
    (run : unit -> matrix -> res matrix)
    (writer : string -> nat -> list bool -> matrix -> list string ->
              list nat -> string -> res (option string))
    (pa : process_attr) (post_only write_events : bool) : outcome :=
  process_read Sample.clock Sample.np_load Sample.meta_window kmers_of
    Sample.make_basecall_input_multi Sample.astype run
    Sample.network_run_opencl Sample.cl_get_platforms
    Sample.estimate_transitions
    (Decoding.decode_profile Sample.ln (kmers_of tt))
    (Decoding.decode_profile_opencl Sample.ln (kmers_of tt)) Sample.ln
    Sample.kmers_to_sequence writer "model.npy" pa Sample.min_prob None
    post_only write_events Sample.kw.

(** The state after lines 172-221 of a unit, with the plain table. *)
Definition plain_decode_done (pa : process_attr) : step decoded :=
  let st := Sample.value Sample.no_state (Sample.network_done pa true) in
  decode_reads Sample.clock plain_kmers Sample.estimate_transitions
    (Decoding.decode_profile Sample.ln (plain_kmers tt))
    (Decoding.decode_profile_opencl Sample.ln (plain_kmers tt)) Sample.ln
    Sample.kmers_to_sequence pa Sample.min_prob None false
    (snd (fst (fst st))) (snd (fst st)) (snd st)
    (Sample.ticks (Sample.network_done pa true)).

(** A decoder and a writer that fail on a read of two events. *)
Definition picky_decoder (post : matrix) (trans : list npfloat)
  : res (npfloat * list nat) :=
  if (List.length post =? 2)%nat then Raise (ExternalError "decode")
  else Decoding.decode_profile Sample.ln Sample.kmers post trans.

Definition write_long_only (fast5 : string) (evs : nat) (good : list bool)
    (post : matrix) (path : list string) (states : list nat) (sq : string)
  : res (option string) :=
  if (evs =? 2)%nat then Raise (ExternalError "write") else Ok None.

(** The worker of [main], what the loop makes of its values and what it
    has put into the file of a unit, with the network, the decoder and
    the writer of one's choice. *)
Definition worker_with (run : unit -> matrix -> res matrix)
    (decode : matrix -> list npfloat -> res (npfloat * list nat))
    (writer : string -> nat -> list bool -> matrix -> list string ->
              list nat -> string -> res (option string))
  : process_attr -> outcome :=
  worker Sample.clock_of Sample.np_load Sample.meta_window Sample.meta_kmers
    Sample.make_basecall_input_multi Sample.astype run
    Sample.network_run_opencl Sample.cl_get_platforms
    Sample.estimate_transitions decode
    (Decoding.decode_profile_opencl Sample.ln Sample.kmers) Sample.ln
    Sample.kmers_to_sequence writer "model.npy" Sample.kw.

Definition execute_with (run : unit -> matrix -> res matrix)
    (decode : matrix -> list npfloat -> res (npfloat * list nat))
    (writer : string -> nat -> list bool -> matrix -> list string ->
              list nat -> string -> res (option string))
  : list process_attr -> res tally :=
  execute Sample.clock_of Sample.np_load Sample.meta_window
    Sample.meta_kmers Sample.make_basecall_input_multi Sample.astype run
    Sample.network_run_opencl Sample.cl_get_platforms
    Sample.estimate_transitions decode
    (Decoding.decode_profile_opencl Sample.ln Sample.kmers) Sample.ln
    Sample.kmers_to_sequence writer "model.npy" Sample.kw.

Definition fastq_with (run : unit -> matrix -> res matrix)
    (decode : matrix -> list npfloat -> res (npfloat * list nat))
    (writer : string -> nat -> list bool -> matrix -> list string ->
              list nat -> string -> res (option string))
  : process_attr -> list (string * string * string) :=
  fastq_of Sample.clock_of Sample.np_load Sample.meta_window
    Sample.meta_kmers Sample.make_basecall_input_multi Sample.astype run
    Sample.network_run_opencl Sample.cl_get_platforms
    Sample.estimate_transitions decode
    (Decoding.decode_profile_opencl Sample.ln Sample.kmers) Sample.ln
    Sample.kmers_to_sequence writer "model.npy" Sample.kw.

(** The loop of lines 176-199 of a unit, after its network stage. *)
Definition post_loop_of (pa : process_attr) : step post_state :=
  let st := Sample.network_done pa true in
  for_each (post_step Sample.meta_kmers Sample.estimate_transitions
              Sample.ln tt (1 # 100000) None false)
           (seq 0 (List.length (fast5_files pa)))
           (mkPost (post_list (snd (Sample.value Sample.no_state st))) [] [])
           (S (Sample.ticks st)).

(** Units on the accelerator that ask for the last device of the
    platform, and for a second device it does not have. *)
Definition last_device_unit : process_attr :=
  mkPA ["a.fast5"; "b.fast5"] true (Some "nvidia") (-1).
Definition far_device_unit : process_attr :=
  mkPA ["a.fast5"; "b.fast5"] true (Some "nvidia") 1.

(** Command lines: no [--opencl]; an entry with two colons in the second
    slot. *)
Definition args_cpu : args :=
  mkArgs "reads" "model.npy" (Some "template") 500 15000 true 3 false 3
         false (Some ["nvidia"]).

Definition args_bad_entry : args :=
  mkArgs "reads" "model.npy" (Some "template") 500 15000 true 4 true 3
         false (Some ["nvidia:0"; "amd:1:2"]).

(** What three units gave back, and a tally of a short run. *)
Definition b_result : read_result :=
  mkResult "read2" "ACGTTGCA" (Fin 0) 9 (mkTiming 2 1 (1 # 2) 3 1).

Definition c_result : read_result :=
  mkResult "read3" "GG" (Fin 0) 3 (mkTiming 1 1 (1 # 3) 1 2).

Definition returned : list retval :=
  [RetList [Sample.a_result; b_result]; RetNone; RetList [c_result]].

Definition returned_late : list retval :=
  [RetList [c_result]; RetList [Sample.a_result; b_result]; RetNone].

Definition tallied (rets : list retval) : tally :=
  match tally_units tally0 rets with
  | Ok s => s
  | Raise _ => tally0
  end.

Definition summary_of (r : res summary) : summary :=
  match r with
  | Ok sm => sm
  | Raise _ => mkSummary 0 0 0 0 None
  end.

Definition profile_of (sm : summary) : profiling :=
  match profile sm with
  | Some p => p
  | None => mkProfiling 0 0 0 0 0 0 0 0 0
  end.

End Cases.



(** * Properties *)

Unset Implicit Arguments.

(** ** The monad *)

Lemma bind_Next (A B : Type) (m : M A) (k : A -> M B) t b t' :
  bind m k t = Next b t' ->
  exists a t1, m t = Next a t1 /\ k a t1 = Next b t'.
Proof.
  unfold bind. destruct (m t) as [a t1|o]; [eauto | discriminate].
Qed.

Lemma bind_Exit (A B : Type) (m : M A) (k : A -> M B) t o :
  bind m k t = Exit o ->
  m t = Exit o \/ exists a t1, m t = Next a t1 /\ k a t1 = Exit o.
Proof.
  unfold bind. destruct (m t) as [a t1|o'].
  - intros H. right. exists a, t1. auto.
  - intros H. inversion H. auto.
Qed.

Lemma bind_eq_Next (A B : Type) (m : M A) (k : A -> M B) t a t1 :
  m t = Next a t1 -> bind m k t = k a t1.
Proof. unfold bind. now intros ->. Qed.

Lemma bind_eq_Exit (A B : Type) (m : M A) (k : A -> M B) t o :
  m t = Exit o -> bind m k t = Exit o.
Proof. unfold bind. now intros ->. Qed.

Lemma lift_Next (A : Type) (r : res A) t a t' :
  lift r t = Next a t' -> r = Ok a /\ t' = t.
Proof.
  destruct r; cbn; unfold ret, raise; intros H; inversion H; auto.
Qed.

Lemma index_Next (A : Type) (l : list A) x t a t' :
  index l x t = Next a t' -> nth_error l x = Some a /\ t' = t.
Proof.
  unfold index. destruct (nth_error l x); unfold ret, raise;
    intros H; inversion H; auto.
Qed.

Lemma index_int_Next (A : Type) (l : list A) i t a t' :
  index_int l i t = Next a t' -> py_nth l i = Some a /\ t' = t.
Proof.
  unfold index_int. destruct (py_nth l i); unfold ret, raise;
    intros H; inversion H; auto.
Qed.

Lemma assigned_Next (A : Type) (o : option A) t a t' :
  assigned o t = Next a t' -> o = Some a /\ t' = t.
Proof.
  destruct o; cbn; unfold ret, raise; intros H; inversion H; auto.
Qed.

Lemma ret_Next (A : Type) (a b : A) t t' :
  ret a t = Next b t' -> a = b /\ t' = t.
Proof. unfold ret. intros H; inversion H; auto. Qed.

(** Take a successful run apart, one [bind] after the other. *)
Ltac inv_run H :=
  lazymatch type of H with
  | bind _ _ _ = Next _ _ =>
      let a := fresh "a" in
      let t1 := fresh "t" in
      let H1 := fresh "Hm" in
      let H2 := fresh "Hk" in
      apply bind_Next in H; destruct H as (a & t1 & H1 & H2);
      inv_run H1; cbv beta in H2; inv_run H2
  | lift _ _ = Next _ _ =>
      let E := fresh "E" in
      apply lift_Next in H; destruct H as [E ?]; subst
  | index _ _ _ = Next _ _ =>
      let E := fresh "E" in
      apply index_Next in H; destruct H as [E ?]; subst
  | index_int _ _ _ = Next _ _ =>
      let E := fresh "E" in
      apply index_int_Next in H; destruct H as [E ?]; subst
  | assigned _ _ = Next _ _ =>
      let E := fresh "E" in
      apply assigned_Next in H; destruct H as [E ?]; subst
  | ret _ _ = Next _ _ =>
      let E := fresh "E" in
      apply ret_Next in H; destruct H as [E ?]; subst;
      try (inversion E; subst; clear E)
  | default_timer _ _ = Next _ _ =>
      unfold default_timer in H; inversion H; subst; clear H
  | (match ?p with (_, _) => _ end) _ = Next _ _ =>
      destruct p; inv_run H
  | _ => idtac
  end.

Lemma no_result_raised e : no_result (Raised e).
Proof. right; eauto. Qed.

Lemma no_result_none : no_result (Returned RetNone).
Proof. now left. Qed.

#[local] Hint Resolve no_result_raised no_result_none : core.

Lemma lift_Exit (A : Type) (r : res A) t o :
  lift r t = Exit o -> exists e, r = Raise e /\ o = Raised e.
Proof.
  destruct r; cbn; unfold ret, raise; intros H; inversion H; eauto.
Qed.

Lemma index_Exit (A : Type) (l : list A) x t o :
  index l x t = Exit o -> nth_error l x = None /\ o = Raised IndexError.
Proof.
  unfold index. destruct (nth_error l x); unfold ret, raise;
    intros H; inversion H; auto.
Qed.

Lemma for_each_app (A S : Type) (body : S -> A -> M S) l1 l2 s :
  forall t, for_each body (l1 ++ l2) s t =
            bind (for_each body l1 s) (for_each body l2) t.
Proof.
  revert s. induction l1 as [|a l1 IH]; intros s t; cbn.
  - reflexivity.
  - unfold bind. destruct (body s a t) as [s' t1|o]; [|reflexivity].
    rewrite IH. reflexivity.
Qed.

(** ** numpy on rows of rationals *)

Lemma Qltb_true x y : Qltb x y = true -> x < y.
Proof.
  unfold Qltb. intros H. apply negb_true_iff in H.
  apply Qnot_le_lt. intros Hle. apply Qle_bool_iff in Hle. congruence.
Qed.

Lemma Qltb_false x y : Qltb x y = false -> y <= x.
Proof.
  unfold Qltb. intros H. apply negb_false_iff in H.
  now apply Qle_bool_iff.
Qed.

(** [argmax_from] returns the position of a maximum. *)
Lemma argmax_from_spec l : forall best besti i,
  exists m,
    (argmax_from best besti i l = besti /\ m = best \/
     exists k, argmax_from best besti i l = (i + k)%nat /\
               nth_error l k = Some m) /\
    best <= m /\ Forall (fun y => y <= m) l.
Proof.
  induction l as [|x l IH]; intros best besti i; cbn [argmax_from].
  - exists best. split; [left; auto|]. split; [apply Qle_refl|constructor].
  - destruct (Qltb best x) eqn:E.
    + apply Qltb_true in E.
      destruct (IH x i (S i)) as (m & Hpos & Hle & Hall).
      exists m. split; [|split].
      * right. destruct Hpos as [[-> ->]|(k & -> & Hk)].
        -- exists 0%nat. split; [lia|reflexivity].
        -- exists (S k). split; [lia|exact Hk].
      * apply Qle_trans with x; [now apply Qlt_le_weak|exact Hle].
      * constructor; assumption.
    + apply Qltb_false in E.
      destruct (IH best besti (S i)) as (m & Hpos & Hle & Hall).
      exists m. split; [|split].
      * destruct Hpos as [[-> ->]|(k & -> & Hk)].
        -- left; auto.
        -- right. exists (S k). split; [lia|exact Hk].
      * exact Hle.
      * constructor; [|assumption]. now apply Qle_trans with best.
Qed.

Lemma np_argmax_spec row i :
  np_argmax row = Some i ->
  exists m, nth_error row i = Some m /\ Forall (fun y => y <= m) row.
Proof.
  destruct row as [|x r]; cbn [np_argmax]; [discriminate|].
  intros H. inversion H; subst; clear H.
  destruct (argmax_from_spec r x 0%nat 1%nat) as (m & Hpos & Hle & Hall).
  exists m. split.
  - destruct Hpos as [[-> ->]|(k & -> & Hk)]; [reflexivity|exact Hk].
  - constructor; assumption.
Qed.

Lemma Qsum_cons x l : Qsum (x :: l) = x + Qsum l.
Proof. reflexivity. Qed.

Lemma Qsum_nonneg l : Forall (fun p => 0 <= p) l -> 0 <= Qsum l.
Proof.
  induction 1 as [|x l Hx _ IH].
  - apply Qle_refl.
  - rewrite Qsum_cons. lra.
Qed.

Lemma Qsum_ge_nth l : Forall (fun p => 0 <= p) l ->
  forall j m, nth_error l j = Some m -> m <= Qsum l.
Proof.
  induction 1 as [|x l Hx Hl IH]; intros [|j] m Hj; cbn in Hj;
    try discriminate; rewrite Qsum_cons.
  - inversion Hj; subst. pose proof (Qsum_nonneg l Hl). lra.
  - specialize (IH j m Hj). lra.
Qed.

Lemma Qsum_le_zero l m :
  m <= 0 -> Forall (fun p => 0 <= p) l -> Forall (fun y => y <= m) l ->
  Qsum l == 0.
Proof.
  intros Hm. induction 1 as [|x l Hx _ IH]; intros Hall.
  - reflexivity.
  - inversion Hall; subst. rewrite Qsum_cons, IH by assumption. lra.
Qed.

Lemma nth_error_removelast (A : Type) (l : list A) : forall j,
  (S j < List.length l)%nat -> nth_error (removelast l) j = nth_error l j.
Proof.
  induction l as [|a l IH]; intros j Hj; [cbn in Hj; lia|].
  destruct l as [|b l]; [cbn in Hj; lia|].
  destruct j as [|j]; [reflexivity|].
  cbn [removelast nth_error]. apply IH. cbn in Hj |- *. lia.
Qed.

Lemma Forall_removelast (A : Type) (P : A -> Prop) (l : list A) :
  Forall P l -> Forall P (removelast l).
Proof.
  induction 1 as [|a l Ha Hl IH]; [constructor|].
  destruct l as [|b l]; [constructor|].
  cbn [removelast]. constructor; assumption.
Qed.

(** A proper posterior row that is not called as the last state keeps a
    positive weight when its last column is dropped. *)
Lemma kept_row_weight row :
  Forall (fun p => 0 <= p) row -> Qsum row == 1 -> called_bad row = false ->
  0 < Qsum (removelast row).
Proof.
  intros Hpos Hsum Hbad. unfold called_bad in Hbad.
  destruct (np_argmax row) as [i|] eqn:E.
  - destruct (np_argmax_spec row i E) as (m & Hi & Hmax).
    assert (Hm : 0 < m).
    { apply Qnot_le_lt. intros Hle.
      pose proof (Qsum_le_zero row m Hle Hpos Hmax) as Hz.
      rewrite Hz in Hsum. discriminate Hsum. }
    assert (Hlt : (i < List.length row)%nat)
      by (apply nth_error_Some; congruence).
    apply Nat.eqb_neq in Hbad.
    assert (Hr : nth_error (removelast row) i = Some m)
      by (rewrite nth_error_removelast by lia; exact Hi).
    apply Qlt_le_trans with m; [exact Hm|].
    eapply Qsum_ge_nth; [|exact Hr]. now apply Forall_removelast.
  - destruct row; [|discriminate E]. cbn in Hsum. discriminate Hsum.
Qed.

Lemma Qsum_scale l w :
  ~ w == 0 -> Qsum (map (fun p => p / w) l) == Qsum l / w.
Proof.
  intros Hw. induction l as [|x l IH].
  - cbn. field. exact Hw.
  - cbn [map]. rewrite !Qsum_cons, IH. field. exact Hw.
Qed.

Lemma normalise_row_sum row : ~ Qsum row == 0 -> Qsum (normalise_row row) == 1.
Proof.
  intros Hw. unfold normalise_row. rewrite Qsum_scale by exact Hw.
  field. exact Hw.
Qed.

(** The mask computed from the calls selects the kept events. *)
Lemma mask_is_filter K post :
  (1 <= K)%nat -> Forall (fun row => List.length row = K) post ->
  exists max_call,
    argmax_rows post = Ok max_call /\
    map (fun i => negb (Z.of_nat i =? Z.of_nat K - 1)%Z) max_call =
      map (fun row => negb (called_bad row)) post /\
    mask_rows post (map (fun row => negb (called_bad row)) post) =
      kept_events post.
Proof.
  intros HK. induction 1 as [|row post Hrow Hpost IH].
  - exists []. repeat split.
  - destruct IH as (mc & E & Hmask & Hfilt).
    destruct row as [|x r]; [cbn in Hrow; lia|].
    cbn [argmax_rows np_argmax]. rewrite E.
    eexists. split; [reflexivity|]. split.
    + cbn [map]. f_equal; [|exact Hmask].
      unfold called_bad. cbn [np_argmax]. f_equal.
      rewrite Hrow.
      destruct (Nat.eqb_spec (S (argmax_from x 0 1 r)) K);
        destruct (Z.eqb_spec (Z.of_nat (argmax_from x 0 1 r))
                    (Z.of_nat K - 1)); try reflexivity; lia.
    + cbn [map mask_rows]. unfold kept_events in *. cbn [filter].
      rewrite Hfilt. reflexivity.
Qed.

(** ** Lists updated in place *)

Lemma length_set_nth (A : Type) (l : list A) : forall x v,
  List.length (set_nth l x v) = List.length l.
Proof.
  induction l as [|a l IH]; intros [|x] v; cbn; auto.
Qed.

Lemma nth_error_set_nth_eq (A : Type) (l : list A) : forall x v,
  (x < List.length l)%nat -> nth_error (set_nth l x v) x = Some v.
Proof.
  induction l as [|a l IH]; intros [|x] v Hx; cbn in *; try lia; auto.
  apply IH. lia.
Qed.

Lemma nth_error_set_nth_neq (A : Type) (l : list A) : forall x y v,
  x <> y -> nth_error (set_nth l x v) y = nth_error l y.
Proof.
  induction l as [|a l IH]; intros [|x] [|y] v Hxy; cbn; auto; try lia.
Qed.

(** ** The logarithm of a floored probability *)

Lemma ETA_pos : 0 < __ETA__.
Proof. reflexivity. Qed.

Lemma Qltb_pos x : 0 < x -> Qltb 0 x = true.
Proof.
  intros Hx. unfold Qltb. apply negb_true_iff.
  destruct (Qle_bool x 0) eqn:E; [|reflexivity].
  apply Qle_bool_iff in E. lra.
Qed.


Lemma pure_ret (A : Type) (a : A) : pure (ret a).
Proof. intros t b t' H. now apply ret_Next in H. Qed.

Lemma pure_lift (A : Type) (r : res A) : pure (lift r).
Proof. intros t b t' H. now apply lift_Next in H. Qed.

Lemma pure_index (A : Type) (l : list A) x : pure (index l x).
Proof. intros t b t' H. now apply index_Next in H. Qed.

Lemma pure_index_int (A : Type) (l : list A) i : pure (index_int l i).
Proof. intros t b t' H. now apply index_int_Next in H. Qed.

Lemma pure_assigned (A : Type) (o : option A) : pure (assigned o).
Proof. intros t b t' H. now apply assigned_Next in H. Qed.

Lemma pure_bind (A B : Type) (m : M A) (k : A -> M B) :
  pure m -> (forall a, pure (k a)) -> pure (bind m k).
Proof.
  intros Hm Hk t b t' H. apply bind_Next in H.
  destruct H as (a & t1 & H1 & H2).
  apply Hm in H1. apply Hk in H2. congruence.
Qed.

Lemma pure_exit (A : Type) (o : outcome) : pure (fun _ => @Exit A o).
Proof. intros t b t' H. discriminate. Qed.

Lemma pure_for_each (A S : Type) (body : S -> A -> M S) l :
  (forall s a, pure (body s a)) -> forall s, pure (for_each body l s).
Proof.
  intros Hb. induction l as [|a l IH]; intros s; cbn.
  - apply pure_ret.
  - apply pure_bind; auto.
Qed.

Lemma pure_map_M (A B : Type) (f : A -> M B) l :
  (forall a, pure (f a)) -> pure (map_M f l).
Proof.
  intros Hf. induction l as [|a l IH]; cbn.
  - apply pure_ret.
  - apply pure_bind; auto. intros b.
    apply pure_bind; auto. intros bs. apply pure_ret.
Qed.


Lemma pure_raise (A : Type) e : pure (@raise A e).
Proof. intros t a t' H. discriminate. Qed.

Lemma pure_return (A : Type) v : pure (@py_return A v).
Proof. intros t a t' H. discriminate. Qed.

Ltac pure_tac :=
  repeat first
    [ apply pure_ret | apply pure_lift | apply pure_index
    | apply pure_index_int | apply pure_assigned | apply pure_exit | apply pure_raise
    | apply pure_return
    | apply pure_bind; [|intros ?]
    | apply pure_for_each; intros ? ?
    | apply pure_map_M; intros ?
    | match goal with
      | |- pure (match ?x with _ => _ end) => destruct x
      | |- pure (if ?x then _ else _) => destruct x
      end ].

Lemma exits_ret (A : Type) P (a : A) : exits P (ret a).
Proof. intros t o H. discriminate. Qed.

Lemma exits_lift (A : Type) (P : outcome -> Prop) (r : res A) :
  (forall e, P (Raised e)) -> exits P (lift r).
Proof.
  intros HP t o H. apply lift_Exit in H. destruct H as (e & _ & ->). auto.
Qed.

Lemma exits_index (A : Type) (P : outcome -> Prop) (l : list A) x :
  (forall e, P (Raised e)) -> exits P (index l x).
Proof. intros HP t o H. apply index_Exit in H. destruct H as [_ ->]. auto. Qed.

Lemma exits_index_int (A : Type) (P : outcome -> Prop) (l : list A) i :
  (forall e, P (Raised e)) -> exits P (index_int l i).
Proof.
  intros HP t o H. unfold index_int in H.
  destruct (py_nth l i); unfold ret, raise in H; inversion H. auto.
Qed.

Lemma exits_assigned (A : Type) (P : outcome -> Prop) (o : option A) :
  (forall e, P (Raised e)) -> exits P (assigned o).
Proof.
  intros HP t o' H. destruct o; cbn in H; unfold ret, raise in H;
    inversion H. auto.
Qed.

Lemma exits_raise (A : Type) (P : outcome -> Prop) e :
  (forall e, P (Raised e)) -> exits P (@raise A e).
Proof. intros HP t o H. inversion H. auto. Qed.

Lemma exits_return (A : Type) (P : outcome -> Prop) v :
  P (Returned v) -> exits P (@py_return A v).
Proof. intros HP t o H. inversion H. auto. Qed.

Lemma exits_bind (A B : Type) P (m : M A) (k : A -> M B) :
  exits P m -> (forall a, exits P (k a)) -> exits P (bind m k).
Proof.
  intros Hm Hk t o H. apply bind_Exit in H.
  destruct H as [H|(a & t1 & _ & H)]; [eapply Hm | eapply Hk]; eauto.
Qed.

Lemma exits_for_each (A S : Type) P (body : S -> A -> M S) l :
  (forall s a, exits P (body s a)) -> forall s, exits P (for_each body l s).
Proof.
  intros Hb. induction l as [|a l IH]; intros s; cbn.
  - apply exits_ret.
  - apply exits_bind; auto.
Qed.

Lemma exits_map_M (A B : Type) P (f : A -> M B) l :
  (forall a, exits P (f a)) -> exits P (map_M f l).
Proof.
  intros Hf. induction l as [|a l IH]; cbn.
  - apply exits_ret.
  - apply exits_bind; auto. intros b.
    apply exits_bind; auto. intros bs. apply exits_ret.
Qed.

Lemma exits_timer clock P : exits P (default_timer clock).
Proof. intros t o H. discriminate. Qed.

(** [HP] proves [P (Raised e)] for every [e]. *)
Ltac exits_tac HP :=
  repeat first
    [ apply exits_ret | apply exits_timer
    | apply exits_lift; exact HP | apply exits_index; exact HP
    | apply exits_index_int; exact HP
    | apply exits_assigned; exact HP | apply exits_raise; exact HP
    | apply exits_bind; [|intros ?]
    | apply exits_for_each; intros ? ?
    | apply exits_map_M; intros ?
    | match goal with
      | |- exits _ (match ?x with _ => _ end) => destruct x
      | |- exits _ (if ?x then _ else _) => destruct x
      end ].

Section ProcessReadFacts.

Variables features events network : Type.
Variable clock : nat -> Q.
Variable np_load : string -> res network.
Variable meta_window : network -> Z.
Variable meta_kmers : network -> list string.
Variable make_basecall_input_multi :
  string -> kwargs -> res (list (string * features * events)).
Variable astype : features -> features.
Variable network_run : network -> features -> res matrix.
Variable network_run_opencl :
  network -> list features -> cl_context -> list cl_queue ->
  res (list matrix).
Variable cl_get_platforms : list cl_platform.
Variable estimate_transitions : matrix -> option (list Q) -> res (list Q).
Variable decode_profile :
  matrix -> list npfloat -> res (npfloat * list nat).
Variable decode_profile_opencl :
  cl_context -> list cl_queue -> list matrix -> list (list npfloat) ->
  nat -> res (list npfloat * list (list nat)).
Variable ln : Q -> Q.
Variable kmers_to_sequence : list string -> res string.
Variable write_events_table :
  string -> events -> list bool -> matrix -> list string -> list nat ->
  string -> res (option string).

Let feature_step' :=
  feature_step clock make_basecall_input_multi astype network_run.
Let run_network' :=
  run_network clock np_load meta_window make_basecall_input_multi astype
    network_run network_run_opencl cl_get_platforms.
Let decode_reads' :=
  decode_reads (features:=features) (events:=events) clock meta_kmers
    estimate_transitions decode_profile decode_profile_opencl ln
    kmers_to_sequence.
Let process_read' :=
  process_read clock np_load meta_window meta_kmers
    make_basecall_input_multi astype network_run network_run_opencl
    cl_get_platforms estimate_transitions decode_profile
    decode_profile_opencl ln kmers_to_sequence write_events_table.
Let prepared' := prepared make_basecall_input_multi.

(** *** The loop over the files *)

(** The loop leaves [process_read] only by [return None] or by an
    exception of the network. *)
Lemma feature_step_exit net kw we oc st f t o :
  feature_step' net kw we oc st f t = Exit o -> no_result o.
Proof.
  unfold feature_step', feature_step, bind, default_timer.
  destruct (make_basecall_input_multi f kw) as [[|[[name feats] evs] l]|e];
    cbn; try (intros H; inversion H; now auto).
  destruct oc; [discriminate|].
  destruct (network_run net (astype feats)); cbn;
    intros H; inversion H; auto.
Qed.

Lemma feature_loop_exit net kw we oc l : forall st t o,
  for_each (feature_step' net kw we oc) l st t = Exit o -> no_result o.
Proof.
  induction l as [|f l IH]; intros st t o H; cbn in H.
  - discriminate.
  - apply bind_Exit in H. destruct H as [H|(st' & t1 & _ & H)].
    + eapply feature_step_exit; eauto.
    + eapply IH; eauto.
Qed.

Lemma feature_step_next net kw we oc st f t st' t' :
  feature_step' net kw we oc st f t = Next st' t' ->
  t' = (t + (if oc then 2 else 3))%nat /\
  List.length (features_list st') = S (List.length (features_list st)) /\
  List.length (name_list st') = S (List.length (name_list st)) /\
  feature_time_list st' =
    feature_time_list st ++ [clock (t + 1) - clock t] /\
  (we = true ->
   List.length (events_list st') = S (List.length (events_list st))) /\
  (if oc then network_time_list st' = network_time_list st /\
              post_list st' = post_list st
   else network_time_list st' =
          network_time_list st ++ [clock (t + 2) - clock (t + 1)] /\
        List.length (post_list st') = S (List.length (post_list st))).
Proof.
  unfold feature_step', feature_step, bind, default_timer.
  destruct (make_basecall_input_multi f kw) as [[|[[name feats] evs] l]|e];
    cbn; try discriminate.
  replace (t + 1)%nat with (S t) by lia.
  replace (t + 2)%nat with (S (S t)) by lia.
  destruct oc.
  - intros H. apply ret_Next in H. destruct H as [<- ->]. cbn.
    rewrite !length_app. cbn.
    repeat split; try lia. intros ->. rewrite length_app. cbn. lia.
  - destruct (network_run net (astype feats)) as [post|e]; cbn;
      [|discriminate].
    intros H. inversion H; subst; clear H. cbn.
    rewrite !length_app. cbn.
    repeat split; try lia. intros ->. rewrite length_app. cbn. lia.
Qed.

Lemma feature_loop_next net kw we oc l : forall st t st' t',
  for_each (feature_step' net kw we oc) l st t = Next st' t' ->
  t' = (t + (if oc then 2 else 3) * List.length l)%nat /\
  List.length (features_list st') =
    (List.length (features_list st) + List.length l)%nat /\
  List.length (name_list st') =
    (List.length (name_list st) + List.length l)%nat /\
  List.length (feature_time_list st') =
    (List.length (feature_time_list st) + List.length l)%nat /\
  (we = true ->
   List.length (events_list st') =
     (List.length (events_list st) + List.length l)%nat) /\
  (if oc then network_time_list st' = network_time_list st /\
              post_list st' = post_list st
   else network_time_list st' =
          network_time_list st ++
          map (fun x => clock (t + 3 * x + 2) - clock (t + 3 * x + 1))
              (seq 0 (List.length l)) /\
        List.length (post_list st') =
          (List.length (post_list st) + List.length l)%nat).
Proof.
  induction l as [|f l IH]; intros st t st' t' H; cbn [for_each] in H.
  - apply ret_Next in H. destruct H as [<- ->]. cbn.
    repeat split; try lia. destruct oc; cbn.
    + auto.
    + rewrite app_nil_r. auto.
  - apply bind_Next in H. destruct H as (s1 & t1 & H1 & H2).
    apply feature_step_next in H1.
    destruct H1 as (-> & Hf & Hn & Hft & Hev & Hnet).
    apply IH in H2. destruct H2 as (-> & Hf' & Hn' & Hft' & Hev' & Hnet').
    cbn [List.length]. rewrite Hf', Hn', Hft', Hf, Hn, Hft.
    rewrite length_app. cbn [List.length].
    split; [destruct oc; lia|].
    split; [lia|]. split; [lia|]. split; [lia|].
    split.
    + intros Hw. rewrite (Hev' Hw), (Hev Hw). lia.
    + destruct oc.
      * destruct Hnet as [E1 E2]. destruct Hnet' as [E3 E4].
        split; congruence.
      * destruct Hnet as [Hn1 Hp1]. destruct Hnet' as [Hn2 Hp2].
        rewrite Hn2, Hn1, Hp2, Hp1. split; [|lia].
        rewrite <- app_assoc. f_equal. cbn [seq map app].
        f_equal.
        { f_equal; f_equal; lia. }
        rewrite <- seq_shift, map_map. apply map_ext. intros x.
        f_equal; f_equal; lia.
Qed.

Lemma feature_loop_opencl_ok net kw we l : forall st t,
  (forall f, In f l -> prepared' kw f) ->
  exists st',
    for_each (feature_step' net kw we true) l st t =
    Next st' (t + 2 * List.length l).
Proof.
  induction l as [|f l IH]; intros st t Hok; cbn [for_each].
  - exists st. unfold ret. f_equal. cbn. lia.
  - destruct (Hok f (or_introl eq_refl)) as ([[name feats] evs] & rest & E).
    unfold bind at 1. unfold feature_step', feature_step at 1.
    unfold bind, default_timer. rewrite E. unfold ret.
    edestruct IH as [st' E'].
    { intros g Hg. apply Hok. now right. }
    exists st'. unfold feature_step' in E'. rewrite E'. f_equal.
    cbn [List.length]. lia.
Qed.

Lemma opencl_stage_no_platform net pa
    (st : feat_state features events) t :
  use_opencl pa = true ->
  matching_platforms (vendor pa) cl_get_platforms = Ok [] ->
  opencl_stage clock network_run_opencl cl_get_platforms net pa st t =
  Exit (Raised IndexError).
Proof.
  intros Ho Hm. unfold opencl_stage, bind, default_timer.
  rewrite Ho, Hm. reflexivity.
Qed.

Lemma run_network_no_platform modelfile pa we kw t :
  use_opencl pa = true ->
  matching_platforms (vendor pa) cl_get_platforms = Ok [] ->
  exists o,
    run_network' modelfile pa we kw t = Exit o /\ no_result o /\
    (forall net, np_load modelfile = Ok net ->
       (forall f, In f (fast5_files pa) ->
          prepared' (set_window (meta_window net) kw) f) ->
       o = Raised IndexError).
Proof.
  intros Ho Hm. unfold run_network', run_network.
  unfold bind at 1. unfold default_timer at 1.
  unfold bind at 1. destruct (np_load modelfile) as [net|e]; cbn [lift].
  2:{ unfold raise. eexists; split; [reflexivity|]. split; auto.
      intros net E; discriminate. }
  unfold ret at 1. unfold bind at 1. unfold default_timer at 1.
  unfold bind at 1.
  destruct (for_each
              (feature_step clock make_basecall_input_multi astype
                 network_run net (set_window (meta_window net) kw) we
                 (use_opencl pa)) (fast5_files pa)
              (empty_feat features events) (S (S t))) as [fs t1|o] eqn:E.
  - unfold bind at 1.
    rewrite (opencl_stage_no_platform net pa fs t1 Ho Hm).
    eexists; split; [reflexivity|]. split; auto.
  - exists o. split; [reflexivity|]. split.
    + eapply feature_loop_exit. exact E.
    + intros net' En Hok. inversion En; subst net'.
      rewrite Ho in E.
      destruct (feature_loop_opencl_ok net _ we (fast5_files pa)
                  (empty_feat features events) (S (S t)) Hok) as [st' E'].
      unfold feature_step' in E'. rewrite E' in E. discriminate.
Qed.

(** C6.  A unit that uses the accelerator and finds no GPU platform whose
    name contains the vendor never comes back with a result: it stops
    with an exception or with the [None] of a failed feature preparation,
    and when the model loads and the features of every read are prepared
    it raises [IndexError].  The CPU decoder is not a fallback. *)
Theorem no_platform_raises modelfile pa min_prob trans post_only
    write_events kw :
  use_opencl pa = true ->
  matching_platforms (vendor pa) cl_get_platforms = Ok [] ->
  no_result (process_read' modelfile pa min_prob trans post_only
               write_events kw) /\
  (forall net, np_load modelfile = Ok net ->
     (forall f, In f (fast5_files pa) ->
        prepared' (set_window (meta_window net) kw) f) ->
     process_read' modelfile pa min_prob trans post_only write_events kw
     = Raised IndexError).
Proof.
  intros Ho Hm.
  destruct (run_network_no_platform modelfile pa write_events kw 0 Ho Hm)
    as (o & E & Hno & Hraise).
  unfold process_read', process_read, run, process_read_body.
  unfold run_network' in E.
  rewrite (bind_eq_Exit _ _ _ _ _ _ E).
  split; [exact Hno|]. intros net En Hok. eapply Hraise; eauto.
Qed.

(** *** The stages after the network *)

Lemma pure_post_step net min_prob trans post_only st x :
  pure (post_step meta_kmers estimate_transitions ln net min_prob trans
          post_only st x).
Proof. unfold post_step, strip_bad. pure_tac. Qed.

Lemma pure_decode_stage oc n cs pl tl :
  pure (decode_stage decode_profile decode_profile_opencl oc n cs pl tl).
Proof. unfold decode_stage, decode_cpu_step. pure_tac. Qed.

Lemma pure_basecall_step kmers states st x :
  pure (basecall_step kmers_to_sequence kmers states st x).
Proof. unfold basecall_step. pure_tac. Qed.

Lemma opencl_stage_next net pa (st : feat_state features events) t cs st'
    t' :
  opencl_stage clock network_run_opencl cl_get_platforms net pa st t =
  Next (cs, st') t' ->
  if use_opencl pa then
    t' = (t + 2)%nat /\
    network_time_list st' =
      network_time_list st ++
      map (fun _ => (clock (t + 1) - clock t) /
                    Qof_nat (List.length (features_list st)))
          (seq 0 (List.length (features_list st))) /\
    events_list st' = events_list st /\
    name_list st' = name_list st /\
    feature_time_list st' = feature_time_list st
  else t' = (t + 1)%nat /\ st' = st.
Proof.
  unfold opencl_stage. intros H.
  apply bind_Next in H. destruct H as (t2 & t1 & H1 & H2).
  unfold default_timer in H1. inversion H1; subst; clear H1.
  destruct (use_opencl pa).
  - inv_run H2. cbn.
    replace (t + 1)%nat with (S t) by lia.
    repeat split; auto. lia.
  - apply ret_Next in H2. destruct H2 as [E ->]. inversion E; subst.
    split; [lia|reflexivity].
Qed.

Let write_step' := write_step (features:=features) clock write_events_table.

Lemma write_step_next fast5 load_time fs ps scores states kps sqs dtl r x
    t r' t' :
  write_step' fast5 load_time fs ps scores states kps sqs dtl r x t =
  Next r' t' ->
  exists res,
    r' = r ++ [res] /\
    nth_error (network_time_list fs) x = Some (t_network (r_time res)) /\
    nth_error dtl x = Some (t_decode (r_time res)) /\
    nth_error sqs x = Some (r_seq res) /\
    t_load (r_time res) = load_time.
Proof.
  unfold write_step', write_step. intros H. inv_run H.
  eexists. split; [reflexivity|]. cbn. auto.
Qed.

Lemma write_loop_next fast5 load_time fs ps scores states kps sqs dtl k :
  forall a r t r' t',
    for_each (write_step' fast5 load_time fs ps scores states kps sqs dtl)
             (seq a k) r t = Next r' t' ->
    exists new,
      r' = r ++ new /\ List.length new = k /\
      forall j res, nth_error new j = Some res ->
        nth_error (network_time_list fs) (a + j) =
          Some (t_network (r_time res)) /\
        nth_error dtl (a + j) = Some (t_decode (r_time res)) /\
        nth_error sqs (a + j) = Some (r_seq res) /\
        t_load (r_time res) = load_time.
Proof.
  induction k as [|k IH]; intros a r t r' t' H; cbn [seq for_each] in H.
  - apply ret_Next in H. destruct H as [<- _]. exists [].
    rewrite app_nil_r. split; [reflexivity|]. split; [reflexivity|].
    intros [|j] res Hj; discriminate.
  - apply bind_Next in H. destruct H as (r1 & t1 & H1 & H2).
    apply write_step_next in H1. destruct H1 as (res & -> & Hres).
    apply IH in H2. destruct H2 as (new & -> & Hlen & Hnew).
    exists (res :: new). rewrite <- app_assoc. split; [reflexivity|].
    split; [cbn; lia|].
    intros [|j] res' Hj; cbn in Hj.
    + inversion Hj; subst. rewrite Nat.add_0_r. exact Hres.
    + replace (a + S j)%nat with (S a + j)%nat by lia. auto.
Qed.

Lemma decode_reads_next pa min_prob trans post_only net cs fs t d t' :
  decode_reads' pa min_prob trans post_only net cs fs t = Next d t' ->
  t' = (t + 2)%nat /\
  decode_time_list d =
    map (fun _ => (clock (t + 1) - clock t) /
                  Qof_nat (List.length (fast5_files pa)))
        (seq 0 (List.length (fast5_files pa))).
Proof.
  unfold decode_reads', decode_reads. intros H.
  apply bind_Next in H. destruct H as (t3 & t1 & H1 & H).
  unfold default_timer in H1. inversion H1; subst; clear H1.
  apply bind_Next in H. destruct H as (ps & t1 & H1 & H).
  apply (pure_for_each _ _ _ _
           (pure_post_step net min_prob trans post_only)) in H1.
  subst t1.
  apply bind_Next in H. destruct H as ([scores states] & t1 & H1 & H).
  pose proof (pure_decode_stage _ _ _ _ _ _ _ _ H1). subst t1. clear H1.
  apply bind_Next in H. destruct H as ([kps sqs] & t1 & H1 & H).
  apply (pure_for_each _ _ _ _
           (pure_basecall_step (meta_kmers net) states)) in H1.
  subst t1.
  inv_run H. cbn. replace (t + 1)%nat with (S t) by lia.
  split; [lia|reflexivity].
Qed.

Lemma run_network_next modelfile pa we kw t load_time net cs fs t' :
  run_network' modelfile pa we kw t = Next (load_time, net, cs, fs) t' ->
  let n := List.length (fast5_files pa) in
  np_load modelfile = Ok net /\
  load_time = clock (t + 1) - clock t /\
  t' = (if use_opencl pa then t + 2 * n + 4 else t + 3 * n + 3)%nat /\
  network_time_list fs =
    (if use_opencl pa then
       map (fun _ => (clock (t + 2 * n + 3) - clock (t + 2 * n + 2)) /
                     Qof_nat n) (seq 0 n)
     else
       map (fun x => clock (t + 3 * x + 4) - clock (t + 3 * x + 3))
           (seq 0 n)).
Proof.
  intros H n. unfold run_network', run_network in H.
  apply bind_Next in H. destruct H as (t0 & t1 & H1 & H).
  unfold default_timer in H1. inversion H1; subst; clear H1.
  apply bind_Next in H. destruct H as (net' & t1 & H1 & H).
  apply lift_Next in H1. destruct H1 as [En ->].
  apply bind_Next in H. destruct H as (t1' & t1 & H1 & H).
  unfold default_timer in H1. inversion H1; subst; clear H1.
  apply bind_Next in H. destruct H as (fs0 & t1 & H1 & H).
  apply feature_loop_next in H1.
  destruct H1 as (-> & Hfl & _ & _ & _ & Hnet).
  apply bind_Next in H. destruct H as ([cs' fs'] & t2 & H1 & H).
  apply opencl_stage_next in H1.
  apply ret_Next in H. destruct H as [E ->]. inversion E; subst; clear E.
  fold n in Hnet, Hfl |- *. cbn [empty_feat features_list List.length
    network_time_list post_list] in Hfl, Hnet.
  replace (t + 1)%nat with (S t) by lia.
  split; [exact En|]. split; [reflexivity|].
  destruct (use_opencl pa).
  - destruct H1 as (-> & Hn & _). destruct Hnet as [Hn0 _].
    split; [lia|]. rewrite Hn, Hn0, Hfl. cbn [app Nat.add].
    apply map_ext. intros _. f_equal. f_equal; f_equal; lia.
  - destruct H1 as (-> & ->). destruct Hnet as [Hn0 _].
    split; [lia|]. rewrite Hn0. cbn [app].
    apply map_ext. intros x. f_equal; f_equal; lia.
Qed.

(** *** How [process_read] ends *)

Let process_read_body' :=
  process_read_body clock np_load meta_window meta_kmers
    make_basecall_input_multi astype network_run network_run_opencl
    cl_get_platforms estimate_transitions decode_profile
    decode_profile_opencl ln kmers_to_sequence write_events_table.

(** A list of results is only returned by the last line. *)
Lemma body_exits_not_list modelfile pa min_prob trans post_only
    write_events kw :
  exits not_a_list
    (process_read_body' modelfile pa min_prob trans post_only write_events
       kw).
Proof.
  assert (HP : forall e, not_a_list (Raised e))
    by (intros e r; discriminate).
  unfold process_read_body', process_read_body, run_network, decode_reads,
    write_reads, feature_step, opencl_stage, post_step, strip_bad,
    decode_stage, decode_cpu_step, basecall_step, write_step.
  exits_tac HP; apply exits_return; intros r; discriminate.
Qed.

Lemma process_read_list modelfile pa min_prob trans post_only write_events
    kw r :
  process_read' modelfile pa min_prob trans post_only write_events kw =
  Returned (RetList r) ->
  exists t,
    process_read_body' modelfile pa min_prob trans post_only write_events
      kw 0%nat = Next (RetList r) t.
Proof.
  unfold process_read', process_read, run. fold process_read_body'.
  destruct (process_read_body' modelfile pa min_prob trans post_only
              write_events kw 0%nat) as [v t|o] eqn:E.
  - intros H. inversion H; subst. eauto.
  - intros ->. apply body_exits_not_list in E. now destruct (E r).
Qed.

(** C10, as amended.  In the list a unit returns, the decode time of every
    read is the time measured once for the whole unit, from the reading
    before the posteriors are prepared to the reading after the basecalls
    are formed, divided by the number of reads.  The network time of every
    read is the unit's time divided by the number of reads when the unit
    uses the accelerator; on the CPU it is measured for each read, between
    the two readings around its own [network.run]. *)
Theorem per_read_times modelfile pa min_prob trans post_only kw ret :
  process_read' modelfile pa min_prob trans post_only true kw =
  Returned (RetList ret) ->
  let n := List.length (fast5_files pa) in
  List.length ret = n /\
  forall x r, nth_error ret x = Some r ->
    (if use_opencl pa then
       t_decode (r_time r) =
         (clock (2 * n + 5) - clock (2 * n + 4)) / Qof_nat n /\
       t_network (r_time r) =
         (clock (2 * n + 3) - clock (2 * n + 2)) / Qof_nat n
     else
       t_decode (r_time r) =
         (clock (3 * n + 4) - clock (3 * n + 3)) / Qof_nat n /\
       t_network (r_time r) = clock (3 * x + 4) - clock (3 * x + 3)).
Proof.
  intros H n. apply process_read_list in H. destruct H as [t H].
  unfold process_read_body', process_read_body in H.
  apply bind_Next in H.
  destruct H as ([[[load_time net] cs] fs] & t1 & H1 & H).
  apply run_network_next in H1. fold n in H1. cbn [Nat.add] in H1.
  destruct H1 as (_ & _ & -> & Hnet).
  apply bind_Next in H. destruct H as (d & t2 & H1 & H).
  apply decode_reads_next in H1. fold n in H1.
  destruct H1 as (-> & Hdec).
  unfold write_reads in H. fold n in H.
  apply bind_Next in H. destruct H as (r0 & t3 & H1 & H).
  apply ret_Next in H. destruct H as [E _]. inversion E; subst r0; clear E.
  apply write_loop_next in H1.
  destruct H1 as (new & E & Hlen & Hnew). cbn [app] in E. subst new.
  split; [exact Hlen|].
  intros x r Hx. destruct (Hnew x r Hx) as (Hn & Hd & _).
  cbn [Nat.add] in Hn, Hd.
  assert (Hxn : (x < n)%nat)
    by (rewrite <- Hlen; apply nth_error_Some; congruence).
  rewrite Hnet in Hn. rewrite Hdec in Hd.
  destruct (use_opencl pa).
  - rewrite nth_error_map, nth_error_seq in Hn, Hd.
    destruct (Nat.ltb_spec x n); [|lia]. cbn in Hn, Hd.
    inversion Hn. inversion Hd. split.
    + f_equal. f_equal; f_equal; lia.
    + reflexivity.
  - rewrite nth_error_map, nth_error_seq in Hn, Hd.
    destruct (Nat.ltb_spec x n); [|lia]. cbn in Hn, Hd.
    inversion Hn. inversion Hd. split.
    + f_equal. f_equal; f_equal; lia.
    + reflexivity.
Qed.

(** *** The posteriors before decoding *)

Let post_step' := post_step meta_kmers estimate_transitions ln.

Lemma index_ok (A : Type) (l : list A) x a t :
  nth_error l x = Some a -> index l x t = Next a t.
Proof. unfold index. now intros ->. Qed.

Lemma last_kmer_ok init (lastk : string) t :
  index (init ++ [lastk]) (List.length (init ++ [lastk]) - 1) t =
  Next lastk t.
Proof.
  apply index_ok. rewrite length_app. cbn [List.length].
  replace (List.length init + 1 - 1)%nat with (List.length init) by lia.
  rewrite nth_error_app2 by lia. now rewrite Nat.sub_diag.
Qed.

Lemma strip_bad_ok K post t :
  (1 <= K)%nat -> Forall (fun row => List.length row = K) post ->
  strip_bad post t =
  Next (drop_last_col (kept_events post),
        map (fun row => negb (called_bad row)) post) t.
Proof.
  intros HK Hrect.
  destruct (mask_is_filter K post HK Hrect) as (mc & E & Hmask & Hfilt).
  unfold strip_bad, bind. rewrite E. cbn [lift]. unfold ret.
  assert (Hshape : post = [] \/ shape1 post = K).
  { destruct Hrect as [|row rest Hrow _]; [now left|now right]. }
  destruct Hshape as [-> | ->].
  - cbn in E. inversion E; subst. reflexivity.
  - rewrite Hmask, Hfilt. reflexivity.
Qed.

Lemma renormalised_rows K post :
  Forall (fun row => List.length row = K) post ->
  Forall (fun row => Forall (fun p => 0 <= p) row /\ Qsum row == 1) post ->
  Forall (fun row => Qsum row == 1 /\ List.length row = (K - 1)%nat)
         (normalise (drop_last_col (kept_events post))).
Proof.
  intros Hrect Hpost. unfold normalise, drop_last_col, kept_events.
  induction post as [|row post IH]; [constructor|].
  inversion Hrect as [|? ? Hlen Hrect']; subst.
  inversion Hpost as [|? ? [Hpos Hsum] Hpost']; subst.
  cbn [filter]. destruct (called_bad row) eqn:Hbad; cbn [negb map].
  - now apply IH.
  - constructor; [|now apply IH]. split.
    + apply normalise_row_sum.
      pose proof (kept_row_weight row Hpos Hsum Hbad) as Hw.
      intros Hz. rewrite Hz in Hw. discriminate Hw.
    + unfold normalise_row.
      rewrite length_map, removelast_firstn_len, length_firstn. lia.
Qed.

(** C2.  When the table of k-mers ends in the k-mer of [X]s, one turn of
    the loop replaces the posterior matrix of the read by this one: the
    events whose most likely state is the last one are removed, the last
    column is dropped, every row is divided by its sum and every cell [p]
    becomes [min_prob + (1 - min_prob) * p].  On a proper posterior matrix
    (cells not negative, rows of sum one) every row has sum one after the
    division. *)
Theorem posterior_prepared net min_prob trans st x post K init lastk tr t :
  nth_error (ps_post_list st) x = Some post ->
  meta_kmers net = init ++ [lastk] ->
  is_bad_kmer lastk = true ->
  (1 <= K)%nat ->
  Forall (fun row => List.length row = K) post ->
  Forall (fun row => Forall (fun p => 0 <= p) row /\ Qsum row == 1) post ->
  let renormalised := normalise (drop_last_col (kept_events post)) in
  let prepared_post :=
    map (map (fun p => min_prob + (1 - min_prob) * p)) renormalised in
  estimate_transitions prepared_post trans = Ok tr ->
  post_step' net min_prob trans false st x t =
    Next (mkPost (set_nth (ps_post_list st) x prepared_post)
            (trans_list st ++ [log_trans ln tr])
            (good_events_list st ++
             [map (fun row => negb (called_bad row)) post])) t /\
  Forall (fun row => Qsum row == 1 /\ List.length row = (K - 1)%nat)
         renormalised.
Proof.
  intros Hx Hk Hbad HK Hrect Hpost renormalised prepared_post Htr.
  split; [|now apply renormalised_rows].
  unfold post_step', post_step.
  rewrite (bind_eq_Next _ _ _ _ _ _ _ (index_ok _ _ _ _ t Hx)).
  rewrite Hk.
  rewrite (bind_eq_Next _ _ _ _ _ _ _ (last_kmer_ok init lastk t)).
  rewrite Hbad.
  unfold bind at 1. unfold bind at 1.
  rewrite (strip_bad_ok K post t HK Hrect). unfold ret at 1.
  fold renormalised. unfold floor_post, floor_cell. fold prepared_post.
  unfold bind. rewrite Htr. reflexivity.
Qed.

(** *** The transition model *)

Lemma log_floored p : 0 <= p -> np_log ln (__ETA__ + p) = Fin (ln (__ETA__ + p)).
Proof.
  intros Hp. unfold np_log. rewrite Qltb_pos; [reflexivity|].
  pose proof ETA_pos. lra.
Qed.

Lemma log_trans_finite tr :
  Forall (fun p => 0 <= p) tr ->
  Forall (fun v => isfinite v = true) (log_trans ln tr).
Proof.
  unfold log_trans. induction 1 as [|p tr Hp _ IH]; cbn [map]; constructor.
  - now rewrite log_floored.
  - exact IH.
Qed.

Lemma post_step_next net min_prob trans post_only st x t st' t' :
  post_step' net min_prob trans post_only st x t = Next st' t' ->
  (x < List.length (ps_post_list st))%nat /\
  exists post tr,
    ps_post_list st' = set_nth (ps_post_list st) x post /\
    estimate_transitions post trans = Ok tr /\
    trans_list st' = trans_list st ++ [log_trans ln tr].
Proof.
  unfold post_step', post_step. intros H.
  apply bind_Next in H. destruct H as (post0 & t1 & H1 & H).
  apply index_Next in H1. destruct H1 as [Hx ->].
  apply bind_Next in H. destruct H as (lastk & t1 & _ & H).
  apply bind_Next in H. destruct H as ([post1 gel] & t2 & _ & H).
  destruct post_only; [discriminate H|].
  apply bind_Next in H. destruct H as (tr & t3 & H1 & H).
  apply lift_Next in H1. destruct H1 as [Htr ->].
  apply ret_Next in H. destruct H as [<- _]. cbn.
  split; [apply nth_error_Some; congruence|].
  eexists _, tr. split; [reflexivity|]. split; [exact Htr|reflexivity].
Qed.

Lemma post_loop_next net min_prob trans post_only k : forall a st t st' t',
  for_each (post_step' net min_prob trans post_only) (seq a k) st t =
  Next st' t' ->
  List.length (ps_post_list st') = List.length (ps_post_list st) /\
  (forall i, (i < a)%nat ->
     nth_error (ps_post_list st') i = nth_error (ps_post_list st) i) /\
  exists new,
    trans_list st' = trans_list st ++ new /\ List.length new = k /\
    forall j tl, nth_error new j = Some tl ->
      exists post tr,
        nth_error (ps_post_list st') (a + j) = Some post /\
        estimate_transitions post trans = Ok tr /\
        tl = log_trans ln tr.
Proof.
  induction k as [|k IH]; intros a st t st' t' H; cbn [seq for_each] in H.
  - apply ret_Next in H. destruct H as [<- _].
    split; [reflexivity|]. split; [reflexivity|].
    exists []. rewrite app_nil_r. split; [reflexivity|].
    split; [reflexivity|]. intros [|j] tl Hj; discriminate.
  - apply bind_Next in H. destruct H as (st1 & t1 & H1 & H2).
    apply post_step_next in H1.
    destruct H1 as (Ha & post & tr & Hpl & Htr & Htl).
    apply IH in H2. destruct H2 as (Hlen & Hkeep & new & Hnew & Hk & Hall).
    rewrite Hpl in Hlen, Hkeep. rewrite length_set_nth in Hlen.
    split; [exact Hlen|]. split.
    + intros i Hi. rewrite Hkeep by lia.
      apply nth_error_set_nth_neq. lia.
    + exists (log_trans ln tr :: new). rewrite Hnew, Htl, <- app_assoc.
      split; [reflexivity|]. split; [cbn; lia|].
      intros [|j] tl Hj; cbn in Hj.
      * inversion Hj; subst tl. exists post, tr.
        rewrite Nat.add_0_r, Hkeep by lia.
        rewrite nth_error_set_nth_eq by exact Ha. auto.
      * replace (a + S j)%nat with (S a + j)%nat by lia. auto.
Qed.

(** C7.  After the loop over the reads of a unit, the transition model of
    each read, which is what the decoder is given, is
    [log(1e-300 + p)] taken once of each component [p] of what
    [estimate_transitions] returned for the prepared posteriors of that
    read and the [trans] argument.  Where the components are not negative
    the logarithms are finite. *)
Theorem transitions_logged_once net min_prob trans post_only n pl t ps t' :
  for_each (post_step' net min_prob trans post_only) (seq 0 n)
           (mkPost pl [] []) t = Next ps t' ->
  List.length (trans_list ps) = n /\
  forall x tl, nth_error (trans_list ps) x = Some tl ->
    exists post tr,
      nth_error (ps_post_list ps) x = Some post /\
      estimate_transitions post trans = Ok tr /\
      tl = map (fun p => np_log ln (__ETA__ + p)) tr /\
      (Forall (fun p => 0 <= p) tr ->
       tl = map (fun p => Fin (ln (__ETA__ + p))) tr /\
       Forall (fun v => isfinite v = true) tl).
Proof.
  intros H. apply post_loop_next in H.
  destruct H as (_ & _ & new & Hnew & Hlen & Hall).
  cbn [trans_list app] in Hnew. rewrite Hnew.
  split; [exact Hlen|].
  intros x tl Hx. destruct (Hall x tl Hx) as (post & tr & Hp & Htr & ->).
  exists post, tr. repeat split; auto.
  - unfold log_trans. apply map_ext_in. intros p Hin.
    apply log_floored. rewrite Forall_forall in H. auto.
  - now apply log_trans_finite.
Qed.

(** *** [post_only] *)

Lemma post_step_post_only net min_prob trans st x post K init lastk t :
  nth_error (ps_post_list st) x = Some post ->
  meta_kmers net = init ++ [lastk] ->
  (1 <= K)%nat ->
  Forall (fun row => List.length row = K) post ->
  post_step' net min_prob trans true st x t =
  Exit (Returned
          (RetPost (normalise (if is_bad_kmer lastk
                               then drop_last_col (kept_events post)
                               else post)))).
Proof.
  intros Hx Hk HK Hrect. unfold post_step', post_step.
  rewrite (bind_eq_Next _ _ _ _ _ _ _ (index_ok _ _ _ _ t Hx)).
  rewrite Hk.
  rewrite (bind_eq_Next _ _ _ _ _ _ _ (last_kmer_ok init lastk t)).
  destruct (is_bad_kmer lastk).
  - unfold bind at 1. unfold bind at 1.
    rewrite (strip_bad_ok K post t HK Hrect). reflexivity.
  - reflexivity.
Qed.

(** What is left of a proper posterior matrix after the stripping has no
    row of sum zero. *)
Lemma stripped_rows_weight post (bad : bool) :
  Forall (fun row => Forall (fun p => 0 <= p) row /\ Qsum row == 1) post ->
  Forall (fun row => ~ Qsum row == 0)
         (if bad then drop_last_col (kept_events post) else post).
Proof.
  intros Hpost. destruct bad.
  - unfold drop_last_col, kept_events.
    induction Hpost as [|row post [Hpos Hsum] _ IH]; [constructor|].
    cbn [filter]. destruct (called_bad row) eqn:Hbad; cbn [negb map].
    + exact IH.
    + constructor; [|exact IH].
      pose proof (kept_row_weight row Hpos Hsum Hbad) as Hw.
      intros E. rewrite E in Hw. discriminate Hw.
  - induction Hpost as [|row post [_ Hsum] _ IH]; constructor; [|exact IH].
    rewrite Hsum. discriminate.
Qed.

(** C8, as amended.  With [post_only] set, once the model is loaded and
    the features are prepared and the network has run for every read of a
    unit that is not empty, [process_read] returns one matrix, made of the
    posterior matrix of the first read alone (a proper one: no negative
    cell, rows of sum one): the events and the column of the bad k-mer
    stripped when the table has one, every row divided by its sum, which is
    not zero, so that every row sums to one, and no flooring by [min_prob].
    The posteriors of the other reads and the decoder have no part in the
    matrix: it is the same for every decoder, also one that raises. *)
Theorem post_only_first_read modelfile pa min_prob trans write_events kw
    load_time net cs fs t post0 rest K init lastk :
  run_network' modelfile pa write_events kw 0%nat =
    Next (load_time, net, cs, fs) t ->
  fast5_files pa <> [] ->
  post_list fs = post0 :: rest ->
  meta_kmers net = init ++ [lastk] ->
  (1 <= K)%nat ->
  Forall (fun row => List.length row = K) post0 ->
  Forall (fun row => Forall (fun p => 0 <= p) row /\ Qsum row == 1) post0 ->
  let stripped :=
    if is_bad_kmer lastk then drop_last_col (kept_events post0) else post0 in
  exists returned,
    process_read' modelfile pa min_prob trans true write_events kw =
      Returned (RetPost returned) /\
    Forall2 (fun row row0 =>
               ~ Qsum row0 == 0 /\ row = map (fun p => p / Qsum row0) row0)
            returned stripped /\
    Forall (fun row => Qsum row == 1) returned.
Proof.
  intros Hrun Hne Hpl Hk HK Hrect Hproper stripped.
  assert (Hw : Forall (fun row => ~ Qsum row == 0) stripped)
    by exact (stripped_rows_weight post0 (is_bad_kmer lastk) Hproper).
  exists (normalise stripped). split; [|split].
  - unfold process_read', process_read, run, process_read_body.
    unfold run_network' in Hrun.
    rewrite (bind_eq_Next _ _ _ _ _ _ _ Hrun).
    unfold decode_reads. unfold bind at 1. unfold bind at 1.
    unfold default_timer at 1. unfold bind at 1.
    destruct (fast5_files pa) as [|f l]; [congruence|].
    cbn [List.length seq for_each]. unfold bind at 1.
    fold post_step'.
    rewrite (post_step_post_only net min_prob trans _ 0%nat post0 K init
               lastk _); auto.
    cbn [ps_post_list]. rewrite Hpl. reflexivity.
  - clearbody stripped. unfold normalise.
    induction Hw as [|row0 l Hrow _ IH]; cbn [map].
    + constructor.
    + constructor; [|exact IH]. split; [exact Hrow|reflexivity].
  - clearbody stripped. unfold normalise.
    induction Hw as [|row0 l Hrow _ IH]; cbn [map].
    + constructor.
    + constructor; [|exact IH]. now apply normalise_row_sum.
Qed.

(** *** [write_events] *)

(** C9.  With [write_events] off, a unit whose reads are all prepared, run
    through the network and decoded returns the empty list: no name,
    sequence, score, number of events or time comes back for any of its
    reads, and the loop of [main] counts nothing for it. *)
Theorem no_events_no_results modelfile pa min_prob trans post_only kw
    load_time net cs fs t d t' :
  run_network' modelfile pa false kw 0%nat =
    Next (load_time, net, cs, fs) t ->
  decode_reads' pa min_prob trans post_only net cs fs t = Next d t' ->
  process_read' modelfile pa min_prob trans post_only false kw =
    Returned (RetList []) /\
  forall s, tally_units s [RetList []] = Ok s.
Proof.
  intros Hrun Hdec. split; [|reflexivity].
  unfold process_read', process_read, run, process_read_body.
  unfold run_network' in Hrun. unfold decode_reads' in Hdec.
  rewrite (bind_eq_Next _ _ _ _ _ _ _ Hrun).
  rewrite (bind_eq_Next _ _ _ _ _ _ _ Hdec).
  reflexivity.
Qed.

(** Whatever happens to the unit, a list that comes back is empty. *)
Lemma no_events_empty modelfile pa min_prob trans post_only kw r :
  process_read' modelfile pa min_prob trans post_only false kw =
    Returned (RetList r) ->
  r = [].
Proof.
  intros H. apply process_read_list in H. destruct H as [t H].
  unfold process_read_body', process_read_body in H.
  apply bind_Next in H.
  destruct H as ([[[load_time net] cs] fs] & t1 & _ & H).
  apply bind_Next in H. destruct H as (d & t2 & _ & H).
  unfold write_reads in H. apply ret_Next in H. destruct H as [E _].
  now inversion E.
Qed.

(** *** Units that fail *)

Lemma feature_step_prepared net kw we oc st f t st' t' :
  feature_step' net kw we oc st f t = Next st' t' -> prepared' kw f.
Proof.
  unfold feature_step', feature_step, bind, default_timer, prepared',
  prepared.
  destruct (make_basecall_input_multi f kw) as [[|x l]|e];
    cbn; try discriminate. eauto.
Qed.

Lemma feature_loop_fails net kw we oc f l : forall st t,
  In f l -> ~ prepared' kw f ->
  exists o, for_each (feature_step' net kw we oc) l st t = Exit o.
Proof.
  induction l as [|a l IH]; intros st t Hin Hf; [destruct Hin|].
  cbn [for_each]. unfold bind.
  destruct (feature_step' net kw we oc st a t) as [st1 t1|o] eqn:E;
    [|eauto].
  destruct Hin as [->|Hin].
  - apply feature_step_prepared in E. contradiction.
  - apply IH; assumption.
Qed.

(** Without [post_only], [process_read] is left early only by [return None]
    or by an exception. *)
Lemma body_exits_no_result modelfile pa min_prob trans write_events kw :
  exits no_result
    (process_read_body' modelfile pa min_prob trans false write_events kw).
Proof.
  assert (HP : forall e, no_result (Raised e)) by auto.
  unfold process_read_body', process_read_body, run_network, decode_reads,
    write_reads, feature_step, opencl_stage, post_step, strip_bad,
    decode_stage, decode_cpu_step, basecall_step, write_step.
  cbv iota.
  exits_tac HP; apply exits_return; auto.
Qed.

Lemma process_read_cases modelfile pa min_prob trans write_events kw :
  no_result (process_read' modelfile pa min_prob trans false write_events kw)
  \/ exists r,
       process_read' modelfile pa min_prob trans false write_events kw =
       Returned (RetList r).
Proof.
  unfold process_read', process_read, run. fold process_read_body'.
  destruct (process_read_body' modelfile pa min_prob trans false
              write_events kw 0%nat) as [v t|o] eqn:E.
  - unfold process_read_body', process_read_body in E.
    apply bind_Next in E.
    destruct E as ([[[load_time net] cs] fs] & t1 & _ & E).
    apply bind_Next in E. destruct E as (d & t2 & _ & E).
    unfold write_reads in E. destruct write_events.
    + apply bind_Next in E. destruct E as (r & t3 & _ & E).
      apply ret_Next in E. destruct E as [<- _]. eauto.
    + apply ret_Next in E. destruct E as [<- _]. eauto.
  - left. eapply body_exits_no_result. exact E.
Qed.

(** When the features of one of its reads cannot be prepared, the unit
    gives no result. *)
Lemma failed_prep_no_result modelfile pa min_prob trans post_only
    write_events kw f :
  In f (fast5_files pa) ->
  (forall w, ~ prepared' (set_window w kw) f) ->
  no_result (process_read' modelfile pa min_prob trans post_only
               write_events kw).
Proof.
  intros Hin Hf.
  unfold process_read', process_read, run, process_read_body, run_network.
  unfold bind at 1. unfold bind at 1. unfold default_timer at 1.
  unfold bind at 1. destruct (np_load modelfile) as [net|e]; cbn [lift].
  2:{ unfold raise. auto. }
  unfold ret at 1. unfold bind at 1. unfold default_timer at 1.
  unfold bind at 1.
  destruct (feature_loop_fails net (set_window (meta_window net) kw)
              write_events (use_opencl pa) f (fast5_files pa)
              (empty_feat features events) 2%nat Hin (Hf _)) as [o E].
  unfold feature_step' in E. rewrite E.
  eapply feature_loop_exit. exact E.
Qed.

(** An exception of the network on the CPU leaves [process_read]. *)
Lemma network_error_raised modelfile f min_prob trans post_only write_events
    kw net name feats evs l e :
  np_load modelfile = Ok net ->
  make_basecall_input_multi f (set_window (meta_window net) kw) =
    Ok ((name, feats, evs) :: l) ->
  network_run net (astype feats) = Raise e ->
  process_read' modelfile (process_attr_cpu [f]) min_prob trans post_only
    write_events kw = Raised e.
Proof.
  intros Hn Hf He.
  unfold process_read', process_read, run, process_read_body, run_network.
  unfold bind at 1. unfold bind at 1. unfold default_timer at 1.
  unfold bind at 1. rewrite Hn. cbn [lift]. unfold ret at 1.
  unfold bind at 1. unfold default_timer at 1.
  unfold bind at 1. cbn [process_attr_cpu fast5_files use_opencl for_each].
  unfold bind at 1. unfold feature_step at 1.
  unfold bind at 1. unfold default_timer at 1. rewrite Hf.
  unfold bind at 1. unfold default_timer at 1.
  unfold bind at 1. rewrite He. reflexivity.
Qed.

(** *** The ways a unit fails before it writes *)

Let preparation_fails' := preparation_fails make_basecall_input_multi.
Let network_fails' :=
  network_fails clock np_load meta_window make_basecall_input_multi astype
    network_run network_run_opencl cl_get_platforms.
Let decode_fails' :=
  decode_fails clock np_load meta_window meta_kmers
    make_basecall_input_multi astype network_run network_run_opencl
    cl_get_platforms estimate_transitions decode_profile
    decode_profile_opencl ln.
Let fastq_written' :=
  fastq_written clock np_load meta_window meta_kmers
    make_basecall_input_multi astype network_run network_run_opencl
    cl_get_platforms estimate_transitions decode_profile
    decode_profile_opencl ln kmers_to_sequence write_events_table.
Let write_record' :=
  write_record (features:=features) clock write_events_table.

(** A unit that is left in lines 114-169 has written nothing. *)
Lemma network_exit_decides modelfile pa min_prob trans post_only we kw o :
  run_network' modelfile pa we kw 0%nat = Exit o ->
  process_read' modelfile pa min_prob trans post_only we kw = o /\
  fastq_written' modelfile pa min_prob trans post_only we kw = [].
Proof.
  intros E. unfold run_network' in E.
  unfold process_read', process_read, run, process_read_body,
    fastq_written', fastq_written.
  rewrite (bind_eq_Exit _ _ _ _ _ _ E), E. auto.
Qed.

(** So has a unit that is left in lines 172-221. *)
Lemma decode_exit_decides modelfile pa min_prob trans post_only we kw
    load_time net cs fs t o :
  run_network' modelfile pa we kw 0%nat = Next (load_time, net, cs, fs) t ->
  decode_reads' pa min_prob trans post_only net cs fs t = Exit o ->
  process_read' modelfile pa min_prob trans post_only we kw = o /\
  fastq_written' modelfile pa min_prob trans post_only we kw = [].
Proof.
  intros Hrun Hdec. unfold run_network' in Hrun.
  unfold decode_reads' in Hdec.
  unfold process_read', process_read, run, process_read_body,
    fastq_written', fastq_written.
  rewrite (bind_eq_Next _ _ _ _ _ _ _ Hrun), Hrun.
  rewrite (bind_eq_Exit _ _ _ _ _ _ Hdec), Hdec. auto.
Qed.

Lemma preparation_fails_exit modelfile pa we kw :
  preparation_fails' kw pa ->
  exists o, run_network' modelfile pa we kw 0%nat = Exit o /\ no_result o.
Proof.
  intros (f & Hin & Hf). unfold run_network', run_network.
  unfold bind at 1. unfold default_timer at 1.
  unfold bind at 1. destruct (np_load modelfile) as [net|e]; cbn [lift].
  2:{ unfold raise. eexists. split; [reflexivity|auto]. }
  unfold ret at 1. unfold bind at 1. unfold default_timer at 1.
  unfold bind at 1.
  destruct (feature_loop_fails net (set_window (meta_window net) kw)
              we (use_opencl pa) f (fast5_files pa)
              (empty_feat features events) 2%nat Hin (Hf _)) as [o E].
  unfold feature_step' in E. rewrite E.
  exists o. split; [reflexivity|]. eapply feature_loop_exit. exact E.
Qed.

(** An exception of the network on the CPU leaves the turn of its read. *)
Lemma feature_step_network_raises net kw we st f t name feats evs l e :
  make_basecall_input_multi f kw = Ok ((name, feats, evs) :: l) ->
  network_run net (astype feats) = Raise e ->
  feature_step' net kw we false st f t = Exit (Raised e).
Proof.
  intros Hf He. unfold feature_step', feature_step.
  unfold bind at 1. unfold default_timer at 1. rewrite Hf.
  unfold bind at 1. unfold default_timer at 1.
  unfold bind at 1. rewrite He. reflexivity.
Qed.

Lemma feature_loop_network_fails net kw we f name feats evs l0 e l :
  forall st t,
    In f l ->
    make_basecall_input_multi f kw = Ok ((name, feats, evs) :: l0) ->
    network_run net (astype feats) = Raise e ->
    exists o, for_each (feature_step' net kw we false) l st t = Exit o.
Proof.
  induction l as [|a l IH]; intros st t Hin Hf He; [destruct Hin|].
  cbn [for_each]. unfold bind.
  destruct (feature_step' net kw we false st a t) as [st1 t1|o] eqn:E;
    [|eauto].
  destruct Hin as [->|Hin].
  - rewrite (feature_step_network_raises net kw we st f t name feats evs l0
               e Hf He) in E.
    discriminate E.
  - apply IH; assumption.
Qed.

Lemma network_fails_exit modelfile pa we kw e :
  network_fails' modelfile kw we pa e ->
  exists o, run_network' modelfile pa we kw 0%nat = Exit o /\ no_result o.
Proof.
  intros (net & Hn & H). unfold run_network', run_network.
  unfold bind at 1. unfold default_timer at 1.
  unfold bind at 1. rewrite Hn. cbn [lift].
  unfold ret at 1. unfold bind at 1. unfold default_timer at 1.
  unfold bind at 1. cbv zeta in H.
  destruct (use_opencl pa) eqn:Ho.
  - destruct H as (fs & t & p & rest & device & Hloop & Hm & Hd & He).
    rewrite Hloop. unfold bind at 1.
    assert (Hs : opencl_stage clock network_run_opencl cl_get_platforms net
                   pa fs t = Exit (Raised e)).
    { unfold opencl_stage. rewrite Ho, Hm.
      unfold bind at 1. unfold default_timer at 1.
      unfold bind at 1. cbn [lift]. unfold ret at 1.
      unfold bind at 1. unfold index at 1. cbn [nth_error].
      unfold ret at 1. unfold bind at 1. unfold index_int. rewrite Hd.
      unfold ret at 1. unfold bind at 1. rewrite He. reflexivity. }
    rewrite Hs. eexists. split; [reflexivity|auto].
  - destruct H as (f & name & feats & evs & l & Hin & Hf & He).
    destruct (feature_loop_network_fails net
                (set_window (meta_window net) kw) we f name feats evs l e
                (fast5_files pa) (empty_feat features events) 2%nat Hin Hf
                He) as [o E].
    unfold feature_step' in E. rewrite E.
    exists o. split; [reflexivity|]. eapply feature_loop_exit. exact E.
Qed.

(** The turn of a read in the CPU decoder is only left by an exception. *)
Lemma decode_cpu_step_exit pl tl st x t o :
  decode_cpu_step decode_profile pl tl st x t = Exit o ->
  exists e, o = Raised e.
Proof.
  assert (HP : forall e, (fun o => exists e', o = Raised e') (Raised e))
    by eauto.
  revert t o.
  change (exits (fun o => exists e', o = Raised e')
                (decode_cpu_step decode_profile pl tl st x)).
  unfold decode_cpu_step. exits_tac HP.
Qed.

(** An exception of [decode_profile] on one read leaves the loop of lines
    206-207: by that exception, or by the one of an earlier read. *)
Lemma decode_cpu_loop_fails pl tl x post tr e l : forall st t,
  In x l ->
  nth_error pl x = Some post ->
  nth_error tl x = Some tr ->
  decode_profile post tr = Raise e ->
  exists e',
    for_each (decode_cpu_step decode_profile pl tl) l st t =
    Exit (Raised e').
Proof.
  induction l as [|a l IH]; intros st t Hin Hp Ht He; [destruct Hin|].
  cbn [for_each]. unfold bind.
  destruct (decode_cpu_step decode_profile pl tl st a t) as [st1 t1|o] eqn:E.
  - destruct Hin as [->|Hin]; [|now apply IH].
    exfalso. unfold decode_cpu_step in E.
    rewrite (bind_eq_Next _ _ _ _ _ _ _ (index_ok _ _ _ _ t Hp)) in E.
    rewrite (bind_eq_Next _ _ _ _ _ _ _ (index_ok _ _ _ _ t Ht)) in E.
    unfold bind at 1 in E. rewrite He in E. discriminate E.
  - apply decode_cpu_step_exit in E. destruct E as [e' ->]. eauto.
Qed.

Lemma decode_fails_exit modelfile pa min_prob trans we kw e :
  decode_fails' modelfile pa min_prob trans we kw e ->
  exists load_time net cs fs t e',
    run_network' modelfile pa we kw 0%nat =
      Next (load_time, net, cs, fs) t /\
    decode_reads' pa min_prob trans false net cs fs t = Exit (Raised e').
Proof.
  intros (load_time & net & cs & fs & t & ps & Hrun & Hloop & H).
  assert (Hstage : exists e',
    decode_stage decode_profile decode_profile_opencl (use_opencl pa)
      (List.length (fast5_files pa)) cs (ps_post_list ps) (trans_list ps)
      (S t) = Exit (Raised e')).
  { unfold decode_stage. destruct (use_opencl pa).
    - destruct H as (c & Hc & He). exists e. rewrite Hc.
      unfold bind at 1. unfold ret at 1. unfold bind at 1. rewrite He.
      reflexivity.
    - destruct H as (x & post & tl & Hx & Hp & Ht & He).
      apply (decode_cpu_loop_fails _ _ x post tl e); auto.
      apply in_seq. lia. }
  destruct Hstage as [e' Hstage].
  exists load_time, net, cs, fs, t, e'. split; [exact Hrun|].
  unfold decode_reads', decode_reads.
  unfold bind at 1. unfold default_timer at 1.
  rewrite (bind_eq_Next _ _ _ _ _ _ _ Hloop).
  rewrite (bind_eq_Exit _ _ _ _ _ _ Hstage). reflexivity.
Qed.

(** *** What a unit has written *)

Lemma write_step_record fast5 load_time fs ps scores states kps sqs dtl r x
    t r' t' :
  write_step' fast5 load_time fs ps scores states kps sqs dtl r x t =
  Next r' t' ->
  exists res,
    r' = r ++ [res] /\
    write_record' fast5 fs ps scores states kps sqs x t =
    Next (fast5, r_name res, r_seq res) (S t).
Proof.
  unfold write_step', write_step. intros H. inv_run H.
  eexists. split; [reflexivity|]. cbn [r_name r_seq].
  unfold write_record', write_record, bind, default_timer, index, assigned.
  repeat match goal with
         | E : nth_error ?l ?i = Some _ |- context [nth_error ?l ?i] =>
             rewrite E; unfold ret at 1
         end.
  cbv [ret].
  match goal with
  | E : write_events_table _ _ _ _ _ _ _ = Ok _ |- _ => rewrite E
  end.
  reflexivity.
Qed.

(** When the loop of lines 226-271 runs to its end, the file has the
    record of every result, in their order. *)
Lemma fastq_trace_loop fast5 load_time fs ps scores states kps sqs dtl k :
  forall a r t r' t',
    for_each (write_step' fast5 load_time fs ps scores states kps sqs dtl)
             (seq a k) r t = Next r' t' ->
    exists new,
      r' = r ++ new /\
      fastq_trace clock write_events_table fast5 load_time fs ps scores
        states kps sqs dtl (seq a k) r t =
      map (fun res => (fast5, r_name res, r_seq res)) new.
Proof.
  induction k as [|k IH]; intros a r t r' t' H; cbn [seq for_each] in H.
  - apply ret_Next in H. destruct H as [<- _]. exists [].
    rewrite app_nil_r. split; reflexivity.
  - apply bind_Next in H. destruct H as (r1 & t1 & H1 & H2).
    pose proof (write_step_record _ _ _ _ _ _ _ _ _ _ _ _ _ _ H1)
      as (res & -> & Hrec).
    destruct (IH _ _ _ _ _ H2) as (new & -> & Htrace).
    exists (res :: new). rewrite <- app_assoc. split; [reflexivity|].
    cbn [seq fastq_trace map].
    unfold write_record' in Hrec. rewrite Hrec.
    unfold write_step' in H1. rewrite H1. f_equal. exact Htrace.
Qed.

(** The unit that returns a list has written the Fastq record of every
    result of the list, in the last file of the unit. *)
Lemma fastq_written_list modelfile pa min_prob trans post_only kw ret :
  process_read' modelfile pa min_prob trans post_only true kw =
    Returned (RetList ret) ->
  fastq_written' modelfile pa min_prob trans post_only true kw =
  map (fun r => (last (fast5_files pa) EmptyString, r_name r, r_seq r)) ret.
Proof.
  intros H. apply process_read_list in H. destruct H as [t H].
  unfold process_read_body', process_read_body in H.
  apply bind_Next in H.
  destruct H as ([[[load_time net] cs] fs] & t1 & Hrun & H).
  apply bind_Next in H. destruct H as (d & t2 & Hdec & H).
  unfold write_reads in H.
  apply bind_Next in H. destruct H as (r & t3 & Hloop & H).
  apply ret_Next in H. destruct H as [E _]. inversion E; subst r; clear E.
  unfold fastq_written', fastq_written. rewrite Hrun, Hdec.
  fold write_step' in Hloop.
  destruct (fastq_trace_loop _ _ _ _ _ _ _ _ _ _ _ _ _ _ _ Hloop)
    as (new & E & Htrace).
  cbn [app] in E. subst new. exact Htrace.
Qed.


End ProcessReadFacts.

(** ** The loop of [main] *)

Lemma tally_units_fold rets : forall s,
  forallb (fun v => negb (is_matrix v)) rets = true ->
  tally_units s rets =
  Ok (fold_left tally_result (flat_map results_of rets) s).
Proof.
  induction rets as [|v rets IH]; intros s H; [reflexivity|].
  cbn [forallb] in H. apply andb_true_iff in H. destruct H as [Hv H].
  destruct v as [|m|r]; cbn [tally_units flat_map results_of app].
  - now apply IH.
  - discriminate Hv.
  - rewrite fold_left_app. now apply IH.
Qed.

Lemma tally_fasta rs : forall s,
  fasta (fold_left tally_result rs s) = fasta s ++ map name_seq rs.
Proof.
  induction rs as [|r rs IH]; intros s; cbn [fold_left map].
  - now rewrite app_nil_r.
  - rewrite IH. cbn [tally_result fasta]. now rewrite <- app_assoc.
Qed.

Lemma tally_n_reads rs : forall s,
  n_reads (fold_left tally_result rs s) = (n_reads s + List.length rs)%nat.
Proof.
  induction rs as [|r rs IH]; intros s; cbn [fold_left List.length].
  - lia.
  - rewrite IH. cbn [tally_result n_reads]. lia.
Qed.

Lemma tally_n_bases rs : forall s,
  n_bases (fold_left tally_result rs s) =
  (n_bases s + list_sum (map (fun r => String.length (r_seq r)) rs))%nat.
Proof.
  induction rs as [|r rs IH]; intros s; cbn [fold_left].
  - cbn. lia.
  - rewrite IH. cbn [tally_result n_bases]. unfold list_sum.
    cbn [map fold_right]. lia.
Qed.

Lemma tally_n_events rs : forall s,
  n_events (fold_left tally_result rs s) =
  (n_events s + list_sum (map r_n_ev rs))%nat.
Proof.
  induction rs as [|r rs IH]; intros s; cbn [fold_left].
  - cbn. lia.
  - rewrite IH. cbn [tally_result n_events]. unfold list_sum.
    cbn [map fold_right]. lia.
Qed.

(** The five totals are the sums of the five times of the results. *)
Lemma tally_timings rs : forall s a b c d e,
  timings s = [a; b; c; d; e] ->
  exists a' b' c' d' e',
    timings (fold_left tally_result rs s) = [a'; b'; c'; d'; e'] /\
    a' == a + Qsum (map (fun r => t_feature (r_time r)) rs) /\
    b' == b + Qsum (map (fun r => t_load (r_time r)) rs) /\
    c' == c + Qsum (map (fun r => t_network (r_time r)) rs) /\
    d' == d + Qsum (map (fun r => t_decode (r_time r)) rs) /\
    e' == e + Qsum (map (fun r => t_write (r_time r)) rs).
Proof.
  induction rs as [|r rs IH]; intros s a b c d e Hs; cbn [fold_left map].
  - exists a, b, c, d, e. split; [exact Hs|]. cbn. repeat split; lra.
  - edestruct (IH (tally_result s r)) as (a' & b' & c' & d' & e' & E & H).
    { cbn [tally_result timings]. rewrite Hs. reflexivity. }
    exists a', b', c', d', e'. split; [exact E|].
    rewrite !Qsum_cons. cbn [fst snd] in H.
    destruct H as (Ha & Hb & Hc & Hd & He).
    repeat split; lra.
Qed.

Lemma Qeq_bool_false x : ~ x == 0 -> Qeq_bool x 0 = false.
Proof.
  intros H. destruct (Qeq_bool x 0) eqn:E; [|reflexivity].
  apply Qeq_bool_iff in E. contradiction.
Qed.

Lemma Qdiv_nonzero x j : ~ x == 0 -> ~ j == 0 -> ~ x / j == 0.
Proof.
  intros Hx Hj H. apply Hx.
  assert (E : x == x / j * j) by (field; exact Hj).
  rewrite E, H. lra.
Qed.

Lemma inject_Z_nonzero j : j <> 0%Z -> ~ inject_Z j == 0.
Proof.
  intros Hj H. apply Hj. unfold Qeq in H. cbn in H. lia.
Qed.


Section MainFacts.

Variables features events network : Type.
Variable clock_of : process_attr -> nat -> Q.
Variable np_load : string -> res network.
Variable meta_window : network -> Z.
Variable meta_kmers : network -> list string.
Variable make_basecall_input_multi :
  string -> kwargs -> res (list (string * features * events)).
Variable astype : features -> features.
Variable network_run : network -> features -> res matrix.
Variable network_run_opencl :
  network -> list features -> cl_context -> list cl_queue ->
  res (list matrix).
Variable cl_get_platforms : list cl_platform.
Variable estimate_transitions : matrix -> option (list Q) -> res (list Q).
Variable decode_profile :
  matrix -> list npfloat -> res (npfloat * list nat).
Variable decode_profile_opencl :
  cl_context -> list cl_queue -> list matrix -> list (list npfloat) ->
  nat -> res (list npfloat * list (list nat)).
Variable ln : Q -> Q.
Variable kmers_to_sequence : list string -> res string.
Variable write_events_table :
  string -> events -> list bool -> matrix -> list string -> list nat ->
  string -> res (option string).

Let worker' :=
  worker clock_of np_load meta_window meta_kmers make_basecall_input_multi
    astype network_run network_run_opencl cl_get_platforms
    estimate_transitions decode_profile decode_profile_opencl ln
    kmers_to_sequence write_events_table.
Let execute' :=
  execute clock_of np_load meta_window meta_kmers make_basecall_input_multi
    astype network_run network_run_opencl cl_get_platforms
    estimate_transitions decode_profile decode_profile_opencl ln
    kmers_to_sequence write_events_table.
Let written' :=
  written clock_of np_load meta_window meta_kmers make_basecall_input_multi
    astype network_run network_run_opencl cl_get_platforms
    estimate_transitions decode_profile decode_profile_opencl ln
    kmers_to_sequence write_events_table.
Let unit_fails' :=
  unit_fails clock_of np_load meta_window meta_kmers
    make_basecall_input_multi astype network_run network_run_opencl
    cl_get_platforms estimate_transitions decode_profile
    decode_profile_opencl ln.
Let fastq_of' :=
  fastq_of clock_of np_load meta_window meta_kmers make_basecall_input_multi
    astype network_run network_run_opencl cl_get_platforms
    estimate_transitions decode_profile decode_profile_opencl ln
    kmers_to_sequence write_events_table.

Lemma worker_cases modelfile kw pa :
  no_result (worker' modelfile kw pa) \/
  exists r, worker' modelfile kw pa = Returned (RetList r).
Proof. apply process_read_cases. Qed.

(** A unit for which feature preparation, the network or the decoder
    raises gives no result, and has written nothing into its file. *)
Lemma failed_unit_no_result modelfile kw u :
  unit_fails' modelfile kw u ->
  no_result (worker' modelfile kw u) /\ fastq_of' modelfile kw u = [].
Proof.
  assert (Hexit : forall o,
    run_network (clock_of u) np_load meta_window make_basecall_input_multi
      astype network_run network_run_opencl cl_get_platforms modelfile u
      true kw 0%nat = Exit o ->
    no_result o ->
    no_result (worker' modelfile kw u) /\ fastq_of' modelfile kw u = []).
  { intros o E Ho.
    destruct (network_exit_decides features events network (clock_of u)
                np_load meta_window meta_kmers make_basecall_input_multi
                astype network_run network_run_opencl cl_get_platforms
                estimate_transitions decode_profile decode_profile_opencl
                ln kmers_to_sequence write_events_table modelfile u
                (1 # 100000) None false true kw o E) as [E1 E2].
    unfold worker', worker, fastq_of', fastq_of. rewrite E1, E2. auto. }
  intros [Hp|[[e Hn]|[e Hd]]].
  - destruct (preparation_fails_exit features events network (clock_of u)
                np_load meta_window make_basecall_input_multi astype
                network_run network_run_opencl cl_get_platforms modelfile u
                true kw Hp) as (o & E & Ho).
    eauto.
  - destruct (network_fails_exit features events network (clock_of u)
                np_load meta_window make_basecall_input_multi astype
                network_run network_run_opencl cl_get_platforms modelfile u
                true kw e Hn) as (o & E & Ho).
    eauto.
  - destruct (decode_fails_exit features events network (clock_of u)
                np_load meta_window meta_kmers make_basecall_input_multi
                astype network_run network_run_opencl cl_get_platforms
                estimate_transitions decode_profile decode_profile_opencl
                ln kmers_to_sequence modelfile u (1 # 100000) None true kw
                e Hd)
      as (load_time & net & cs & fs & t & e' & Hrun & Hdec).
    destruct (decode_exit_decides features events network (clock_of u)
                np_load meta_window meta_kmers make_basecall_input_multi
                astype network_run network_run_opencl cl_get_platforms
                estimate_transitions decode_profile decode_profile_opencl
                ln kmers_to_sequence write_events_table modelfile u
                (1 # 100000) None false true kw load_time net cs fs t
                (Raised e') Hrun Hdec) as [E1 E2].
    unfold worker', worker, fastq_of', fastq_of. rewrite E1, E2. auto.
Qed.

Lemma imap_no_matrix modelfile kw pa_list :
  forallb (fun v => negb (is_matrix v))
          (tang_imap (worker' modelfile kw) pa_list) = true.
Proof.
  induction pa_list as [|pa l IH]; [reflexivity|].
  cbn [tang_imap map forallb]. fold (tang_imap (worker' modelfile kw) l).
  rewrite IH, andb_true_r.
  destruct (worker_cases modelfile kw pa) as [[->|[e ->]]|[r ->]];
    reflexivity.
Qed.

Lemma imap_written modelfile kw pa_list :
  map name_seq
      (flat_map results_of (tang_imap (worker' modelfile kw) pa_list)) =
  flat_map (written' modelfile kw) pa_list.
Proof.
  induction pa_list as [|pa l IH]; [reflexivity|].
  cbn [tang_imap map flat_map]. fold (tang_imap (worker' modelfile kw) l).
  rewrite map_app, IH. f_equal. unfold written', written. fold worker'.
  destruct (worker' modelfile kw pa) as [[|m|r]|e]; reflexivity.
Qed.

Lemma execute_fold modelfile kw pa_list :
  execute' modelfile kw pa_list =
  Ok (fold_left tally_result
        (flat_map results_of (tang_imap (worker' modelfile kw) pa_list))
        tally0).
Proof.
  unfold execute', execute. apply tally_units_fold, imap_no_matrix.
Qed.

(** C3.  In a list of planned units, a unit that fails (the preparation of
    the features of one of its reads raises; the network raises, on one
    of its reads on the CPU or on the batch of its reads on the
    accelerator; the decoder raises on the prepared posteriors, again of
    one read or of the batch) yields [None] at its place; the values of
    the other units are the ones they have without it; the loop of [main]
    ends with the same fasta records, counts and times as without the
    failed unit, and the fasta records are those of the units that
    returned results, in the order of the units. *)
Theorem unit_failure_isolated modelfile kw pre u post :
  unit_fails' modelfile kw u ->
  tang_imap (worker' modelfile kw) (pre ++ u :: post) =
    tang_imap (worker' modelfile kw) pre ++
    RetNone :: tang_imap (worker' modelfile kw) post /\
  execute' modelfile kw (pre ++ u :: post) =
    execute' modelfile kw (pre ++ post) /\
  exists s,
    execute' modelfile kw (pre ++ u :: post) = Ok s /\
    fasta s = flat_map (written' modelfile kw) (pre ++ post) /\
    n_reads s = List.length (fasta s).
Proof.
  intros Hu. apply failed_unit_no_result in Hu. destruct Hu as [Hu _].
  assert (Himap : tang_imap (worker' modelfile kw) (pre ++ u :: post) =
                  tang_imap (worker' modelfile kw) pre ++
                  RetNone :: tang_imap (worker' modelfile kw) post).
  { unfold tang_imap. rewrite map_app. cbn [map]. f_equal. f_equal.
    destruct Hu as [->|[e ->]]; reflexivity. }
  assert (Hflat :
    flat_map results_of (tang_imap (worker' modelfile kw) (pre ++ u :: post))
    = flat_map results_of (tang_imap (worker' modelfile kw) (pre ++ post))).
  { rewrite Himap. unfold tang_imap at 3. rewrite map_app.
    rewrite !flat_map_app. reflexivity. }
  split; [exact Himap|]. split.
  - rewrite !execute_fold, Hflat. reflexivity.
  - eexists. split; [apply execute_fold|].
    rewrite Hflat, tally_fasta, tally_n_reads. cbn [tally0 fasta n_reads app].
    rewrite <- imap_written. split; [reflexivity|].
    now rewrite length_map.
Qed.

(** C4, as amended.  After every run, line 340 gives the number of reads,
    bases and events of the results and the wall time, whatever the number
    of jobs.  When at least one read was basecalled, and the number of jobs
    and the totals of the network and decode times are not zero, the
    profile gives, for each of the five stages, the sum of the times of
    the results divided by the number of jobs.  Nothing in either counts
    the units or reads that were skipped.  The fasta records are the names
    and sequences of the results of the units that returned some, in the
    order of the units; a unit for which feature preparation, the network
    or the decoder raises adds no record and has written no Fastq record
    into its fast5 file either, and a unit that returns results has
    written there the Fastq record of every one of them. *)
Theorem run_summary modelfile kw pa_list jobs wall :
  let rs := flat_map results_of (tang_imap (worker' modelfile kw) pa_list) in
  exists s,
    execute' modelfile kw pa_list = Ok s /\
    fasta s = flat_map (written' modelfile kw) pa_list /\
    basecalled_line wall s =
      mkBasecalled (List.length rs)
        (list_sum (map (fun r => String.length (r_seq r)) rs))
        (list_sum (map r_n_ev rs)) wall /\
    (rs <> [] ->
     jobs <> 0%Z ->
     ~ Qsum (map (fun r => t_network (r_time r)) rs) == 0 ->
     ~ Qsum (map (fun r => t_decode (r_time r)) rs) == 0 ->
     exists p,
       summarise jobs wall s =
         Ok (mkSummary (List.length rs)
               (list_sum (map (fun r => String.length (r_seq r)) rs))
               (list_sum (map r_n_ev rs)) wall (Some p)) /\
       p_feature p ==
         Qsum (map (fun r => t_feature (r_time r)) rs) / inject_Z jobs /\
       p_load p ==
         Qsum (map (fun r => t_load (r_time r)) rs) / inject_Z jobs /\
       p_network p ==
         Qsum (map (fun r => t_network (r_time r)) rs) / inject_Z jobs /\
       p_decoding p ==
         Qsum (map (fun r => t_decode (r_time r)) rs) / inject_Z jobs /\
       p_events_writing p ==
         Qsum (map (fun r => t_write (r_time r)) rs) / inject_Z jobs) /\
    (forall u,
       unit_fails' modelfile kw u ->
       written' modelfile kw u = [] /\ fastq_of' modelfile kw u = []) /\
    (forall u ret,
       worker' modelfile kw u = Returned (RetList ret) ->
       written' modelfile kw u = map name_seq ret /\
       fastq_of' modelfile kw u =
       map (fun r => (last (fast5_files u) EmptyString, r_name r, r_seq r))
           ret).
Proof.
  intros rs.
  eexists. split; [apply execute_fold|]. fold rs.
  split; [|split; [|split; [|split]]].
  - rewrite tally_fasta. cbn [tally0 fasta app]. apply imap_written.
  - unfold basecalled_line.
    rewrite tally_n_reads, tally_n_bases, tally_n_events. reflexivity.
  - intros Hrs Hjobs Hnet Hdec.
    destruct (tally_timings rs tally0 0 0 0 0 0 eq_refl)
      as (a & b & c & d & e & Ht & Ha & Hb & Hc & Hd & He).
    rewrite Qplus_0_l in Ha, Hb, Hc, Hd, He.
    pose proof (inject_Z_nonzero jobs Hjobs) as Hj.
    assert (Hc0 : Qeq_bool (c / inject_Z jobs) 0 = false).
    { apply Qeq_bool_false, Qdiv_nonzero; [|exact Hj]. now rewrite Hc. }
    assert (Hd0 : Qeq_bool (d / inject_Z jobs) 0 = false).
    { apply Qeq_bool_false, Qdiv_nonzero; [|exact Hj]. now rewrite Hd. }
    assert (Hlen : (0 <? List.length rs)%nat = true)
      by (destruct rs; [congruence|reflexivity]).
    eexists. split.
    + unfold summarise.
      rewrite tally_n_reads, tally_n_bases, tally_n_events.
      cbn [tally0 n_reads n_bases n_events Nat.add]. rewrite Hlen.
      unfold profiling_of. rewrite Ht.
      destruct (Z.eqb_spec jobs 0) as [|_]; [contradiction|].
      unfold per_kilo. rewrite Hc0, Hd0. reflexivity.
    + cbn [p_feature p_load p_network p_decoding p_events_writing].
      rewrite Ha, Hb, Hc, Hd, He. repeat split; reflexivity.
  - intros u Hu. apply failed_unit_no_result in Hu.
    destruct Hu as [Hu Hq]. split; [|exact Hq].
    unfold written', written. fold worker'.
    destruct Hu as [->|[e ->]]; reflexivity.
  - intros u ret Hret. split.
    + unfold written', written. fold worker'. rewrite Hret. reflexivity.
    + unfold fastq_of', fastq_of.
      apply (fastq_written_list features events network (clock_of u)
               np_load meta_window meta_kmers make_basecall_input_multi
               astype network_run network_run_opencl cl_get_platforms
               estimate_transitions decode_profile decode_profile_opencl
               ln kmers_to_sequence write_events_table modelfile u
               (1 # 100000) None false kw ret).
      exact Hret.
Qed.


End MainFacts.

(** C4, as stated, fails twice.  Two runs, one with no unit skipped and
    one with a unit skipped, write the same summary, so the summary does
    not report how many were skipped.  And a unit that fails can have
    emitted a sequence: when the writer raises on its second read, the
    unit raises and gives no result, but the Fastq record of its first
    read is in its fast5 file. *)
Lemma skipped_hidden_fastq_written :
  (~ exists count : summary -> nat,
       forall jobs wall rets s,
         report jobs wall rets = Ok s -> count s = skipped rets) /\
  Cases.worker_with Sample.network_run
    (Decoding.decode_profile Sample.ln Sample.kmers) Cases.write_long_only
    Sample.cpu_unit = Raised (ExternalError "write") /\
  Cases.fastq_with Sample.network_run
    (Decoding.decode_profile Sample.ln Sample.kmers) Cases.write_long_only
    Sample.cpu_unit = [("b.fast5", "a", "CACACA")]%string.
Proof.
  split; [|split; vm_compute; reflexivity].
  intros [count H].
  assert (E : report 1 1 [RetList [Sample.a_result]] =
              report 1 1 [RetNone; RetList [Sample.a_result]])
    by reflexivity.
  destruct (report 1 1 [RetList [Sample.a_result]]) as [s|e] eqn:E1;
    [|vm_compute in E1; discriminate E1].
  pose proof (H _ _ _ _ E1) as H1.
  pose proof (H _ _ _ _ (eq_sym E)) as H2.
  rewrite H1 in H2. cbn in H2. discriminate H2.
Qed.

(** ** The planner *)

Lemma set_items_seq (A : Type) (v : A) k : forall a (l : list A),
  (a + k <= List.length l)%nat ->
  exists l',
    set_items l (seq a k) v = Ok l' /\
    List.length l' = List.length l /\
    forall i, nth_error l' i =
              if (a <=? i)%nat && (i <? a + k)%nat then Some v
              else nth_error l i.
Proof.
  induction k as [|k IH]; intros a l Hl; cbn [seq set_items].
  - exists l. split; [reflexivity|]. split; [reflexivity|].
    intros i. destruct (Nat.leb_spec a i); destruct (Nat.ltb_spec i (a + 0));
      try reflexivity; lia.
  - unfold set_item. destruct (Nat.ltb_spec a (List.length l)); [|lia].
    destruct (IH (S a) (set_nth l a v)) as (l' & E & Hlen & Hnth).
    { rewrite length_set_nth. lia. }
    exists l'. split; [exact E|]. rewrite Hlen, length_set_nth.
    split; [reflexivity|]. intros i. rewrite Hnth.
    destruct (Nat.leb_spec (S a) i); destruct (Nat.ltb_spec i (S a + k));
      destruct (Nat.leb_spec a i); destruct (Nat.ltb_spec i (a + S k));
      cbn [andb]; try lia; try reflexivity.
    + apply nth_error_set_nth_neq. lia.
    + assert (i = a) by lia. subst i. now apply nth_error_set_nth_eq.
    + apply nth_error_set_nth_neq. lia.
Qed.

Section PlannerFacts.

Variable py_int : string -> option Z.
Variable iterate_fast5 : string -> list Z -> list (list string).

Let well_formed' := well_formed py_int.
Let planned' := planned py_int.

Lemma files_pattern_ok a ps :
  configured a ps ->
  (Z.of_nat (List.length ps) <= jobs a)%Z ->
  exists pattern,
    files_pattern a = Ok pattern /\
    List.length pattern = Z.to_nat (jobs a) /\
    forall s, (s < Z.to_nat (jobs a))%nat ->
      nth_error pattern s =
      Some (if (s <? List.length ps)%nat then opencl_input_files a
            else 1%Z).
Proof.
  unfold configured, files_pattern. intros Hc Hle.
  destruct (opencl a).
  - rewrite Hc.
    destruct (set_items_seq Z (opencl_input_files a) (List.length ps) 0
                (repeat 1%Z (Z.to_nat (jobs a)))) as (l' & E & Hlen & Hnth).
    { rewrite repeat_length. lia. }
    exists l'. split; [exact E|]. rewrite Hlen, repeat_length.
    split; [reflexivity|]. intros s Hs. rewrite Hnth. cbn [Nat.leb andb].
    cbn [Nat.add]. destruct (Nat.ltb_spec s (List.length ps)); [reflexivity|].
    rewrite nth_error_repeat by exact Hs. reflexivity.
  - subst ps. exists (repeat 1%Z (Z.to_nat (jobs a))).
    split; [reflexivity|]. rewrite repeat_length. split; [reflexivity|].
    intros s Hs. cbn. now rewrite nth_error_repeat.
Qed.

Lemma plan_unit_ok a ps i ff :
  (0 < jobs a)%Z ->
  configured a ps ->
  Forall well_formed' ps ->
  exists pa, plan_unit py_int a i ff = Ok pa /\ planned' a ps i ff pa.
Proof.
  intros Hj Hc Hwf. unfold plan_unit, planned', planned, configured in *.
  pose proof (Z.mod_pos_bound (Z.of_nat i) (jobs a) Hj) as Hslot.
  set (slot := (Z.of_nat i mod jobs a)%Z) in *.
  destruct (opencl a).
  - destruct (Z.eqb_spec (jobs a) 0); [lia|]. rewrite Hc.
    destruct (Z.leb_spec 0 slot); [|lia]. cbn [andb].
    destruct (Z.ltb_spec slot (Z.of_nat (List.length ps))).
    + unfold py_nth. destruct (Z.leb_spec 0 slot); [|lia].
      destruct (nth_error ps (Z.to_nat slot)) as [entry|] eqn:E.
      2:{ apply nth_error_None in E. lia. }
      rewrite Forall_forall in Hwf.
      destruct (Hwf entry (nth_error_In _ _ E)) as (v & d & id & Hs & Hi).
      rewrite Hs, Hi. eexists. split; [reflexivity|].
      exists entry, v, d, id. auto.
    + eauto.
  - subst ps. cbn [List.length]. destruct (Z.ltb_spec slot (Z.of_nat 0)).
    + lia.
    + eauto.
Qed.

Lemma plan_units_ok a ps groups :
  (0 < jobs a)%Z ->
  configured a ps ->
  Forall well_formed' ps ->
  forall i, exists pa_list,
    plan_units py_int a i groups = Ok pa_list /\
    List.length pa_list = List.length groups /\
    forall j ff, nth_error groups j = Some ff ->
      exists pa, nth_error pa_list j = Some pa /\
                 planned' a ps (i + j) ff pa.
Proof.
  intros Hj Hc Hwf. induction groups as [|ff groups IH]; intros i.
  - exists []. split; [reflexivity|]. split; [reflexivity|].
    intros [|j] ff Hff; discriminate.
  - cbn [plan_units].
    destruct (plan_unit_ok a ps i ff Hj Hc Hwf) as (pa & E & Hpa).
    rewrite E. destruct (IH (S i)) as (l & El & Hlen & Hl). rewrite El.
    exists (pa :: l). split; [reflexivity|]. split; [cbn; lia|].
    intros [|j] ff' Hff; cbn in Hff.
    + inversion Hff; subst. exists pa. rewrite Nat.add_0_r. auto.
    + destruct (Hl j ff' Hff) as (pa' & Hn & Hp). exists pa'.
      replace (i + S j)%nat with (S i + j)%nat by lia. auto.
Qed.

(** C5, as amended.  With at least one job, entries [VENDOR:DEVICE] that
    are well formed and no more entries than jobs, planning succeeds.
    Units are dealt over the job slots in turn, unit [i] to slot
    [i mod jobs]: a slot below the number of configured devices is a device
    slot, its unit goes to the accelerator with the vendor and device of
    that entry, and the pattern of group sizes handed to [iterate_fast5]
    asks for [opencl_input_files] files there; every other unit is a CPU
    unit, and the pattern asks for one file. *)
Theorem plan_round_robin a ps :
  (0 < jobs a)%Z ->
  configured a ps ->
  (Z.of_nat (List.length ps) <= jobs a)%Z ->
  Forall well_formed' ps ->
  exists pattern pa_list,
    plan py_int iterate_fast5 a = Ok (pattern, pa_list) /\
    List.length pattern = Z.to_nat (jobs a) /\
    List.length pa_list =
      List.length (iterate_fast5 (input a) pattern) /\
    forall i ff, nth_error (iterate_fast5 (input a) pattern) i = Some ff ->
      let slot := (Z.of_nat i mod jobs a)%Z in
      exists pa,
        nth_error pa_list i = Some pa /\ planned' a ps i ff pa /\
        fast5_files pa = ff /\
        use_opencl pa = (slot <? Z.of_nat (List.length ps))%Z /\
        nth_error pattern (Z.to_nat slot) =
          Some (if use_opencl pa then opencl_input_files a else 1%Z).
Proof.
  intros Hj Hc Hle Hwf.
  destruct (files_pattern_ok a ps Hc Hle) as (pattern & Ep & Hlen & Hpat).
  destruct (plan_units_ok a ps (iterate_fast5 (input a) pattern) Hj Hc Hwf
              0%nat) as (pa_list & El & Hlen' & Hl).
  exists pattern, pa_list. unfold plan. rewrite Ep, El.
  split; [reflexivity|]. split; [exact Hlen|]. split; [exact Hlen'|].
  intros i ff Hff. set (slot := (Z.of_nat i mod jobs a)%Z).
  destruct (Hl i ff Hff) as (pa & Hn & Hp).
  cbn [Nat.add] in Hp. exists pa. split; [exact Hn|]. split; [exact Hp|].
  pose proof (Z.mod_pos_bound (Z.of_nat i) (jobs a) Hj) as Hslot.
  fold slot in Hslot. unfold planned', planned in Hp. fold slot in Hp.
  rewrite Hpat by lia.
  destruct (Z.ltb_spec slot (Z.of_nat (List.length ps))).
  - destruct Hp as (entry & v & d & id & _ & _ & _ & ->).
    cbn [fast5_files use_opencl].
    destruct (Nat.ltb_spec (Z.to_nat slot) (List.length ps)); [auto|lia].
  - subst pa. cbn [process_attr_cpu fast5_files use_opencl].
    destruct (Nat.ltb_spec (Z.to_nat slot) (List.length ps)); [lia|auto].
Qed.

End PlannerFacts.

(** ** The batched decoder against the sequential one *)

Lemma set_nth_app (A : Type) (l1 : list A) x l2 v k :
  List.length l1 = k -> set_nth (l1 ++ x :: l2) k v = l1 ++ v :: l2.
Proof.
  intros <-. induction l1 as [|a l1 IH]; cbn; [reflexivity|]. now rewrite IH.
Qed.

Section DecodingFacts.

Import Decoding.

Variable score : Type.
Variable slog : Q -> score.
Variable sadd : score -> score -> score.
Variable sgtb : score -> score -> bool.
Variable kmers : list string.










End DecodingFacts.

Section DecodeStageFacts.

Variable ln : Q -> Q.
Variable kmers : list string.





End DecodeStageFacts.

(** * Examples *)

(** The hypotheses of the theorems above hold on the sample run. *)

Ltac row_ok :=
  repeat first
    [ split
    | apply Forall_nil
    | apply Forall_cons
    | apply Qle_bool_imp_le; reflexivity
    | reflexivity ].


(** C2 on the first sample read: the second event is called as the bad
    k-mer and goes. *)
Lemma posterior_prepared_witness :
  let renormalised := normalise (drop_last_col (kept_events Sample.postA)) in
  post_step Sample.meta_kmers Sample.estimate_transitions Sample.ln tt
    Sample.min_prob None false (mkPost [Sample.postA] [] []) 0 0%nat =
  Next (mkPost
          [map (map (fun p => Sample.min_prob + (1 - Sample.min_prob) * p))
               renormalised]
          [Sample.logged] [[true; false; true; true]]) 0%nat /\
  Forall (fun row => Qsum row == 1 /\ List.length row = 4%nat) renormalised.
Proof.
  apply (posterior_prepared unit Sample.meta_kmers
           Sample.estimate_transitions Sample.ln tt Sample.min_prob None
           (mkPost [Sample.postA] [] []) 0%nat Sample.postA 5%nat
           ["AA"; "AC"; "CA"; "CC"]%string "XX"%string
           [9 # 10; 8 # 100; 2 # 100] 0%nat).
  - reflexivity.
  - reflexivity.
  - reflexivity.
  - repeat constructor.
  - row_ok.
  - row_ok.
  - reflexivity.
Defined.

(** C3 on three units, the second of which fails: in the first run a file
    of it cannot be prepared, in the second the network raises on its
    read, in the third the decoder does. *)
Lemma unit_failure_isolated_witness :
  (tang_imap Sample.worker [Sample.unit_a; Sample.broken_unit; Sample.unit_b]
   = tang_imap Sample.worker [Sample.unit_a] ++
     RetNone :: tang_imap Sample.worker [Sample.unit_b] /\
   Sample.execute [Sample.unit_a; Sample.broken_unit; Sample.unit_b] =
     Sample.execute [Sample.unit_a; Sample.unit_b] /\
   exists s,
     Sample.execute [Sample.unit_a; Sample.broken_unit; Sample.unit_b] = Ok s
     /\ fasta s = flat_map Sample.written [Sample.unit_a; Sample.unit_b]
     /\ n_reads s = List.length (fasta s)) /\
  (let worker :=
     Cases.worker_with Cases.picky_network
       (Decoding.decode_profile Sample.ln Sample.kmers)
       Sample.write_events_table in
   let execute :=
     Cases.execute_with Cases.picky_network
       (Decoding.decode_profile Sample.ln Sample.kmers)
       Sample.write_events_table in
   tang_imap worker [Sample.unit_a; Sample.unit_b; Sample.unit_a] =
     tang_imap worker [Sample.unit_a] ++
     RetNone :: tang_imap worker [Sample.unit_a] /\
   execute [Sample.unit_a; Sample.unit_b; Sample.unit_a] =
     execute [Sample.unit_a; Sample.unit_a]) /\
  (let worker :=
     Cases.worker_with Sample.network_run Cases.picky_decoder
       Sample.write_events_table in
   let execute :=
     Cases.execute_with Sample.network_run Cases.picky_decoder
       Sample.write_events_table in
   tang_imap worker [Sample.unit_a; Sample.unit_b; Sample.unit_a] =
     tang_imap worker [Sample.unit_a] ++
     RetNone :: tang_imap worker [Sample.unit_a] /\
   execute [Sample.unit_a; Sample.unit_b; Sample.unit_a] =
     execute [Sample.unit_a; Sample.unit_a]).
Proof.
  split; [|split].
  - apply (unit_failure_isolated matrix nat unit Sample.clock_of
             Sample.np_load Sample.meta_window Sample.meta_kmers
             Sample.make_basecall_input_multi Sample.astype
             Sample.network_run Sample.network_run_opencl
             Sample.cl_get_platforms Sample.estimate_transitions
             (Decoding.decode_profile Sample.ln Sample.kmers)
             (Decoding.decode_profile_opencl Sample.ln Sample.kmers)
             Sample.ln Sample.kmers_to_sequence Sample.write_events_table
             "model.npy"%string Sample.kw [Sample.unit_a] Sample.broken_unit
             [Sample.unit_b]).
    left. exists "c.fast5"%string. split.
    + left. reflexivity.
    + intros w (x & rest & H). discriminate H.
  - intros worker execute.
    destruct (unit_failure_isolated matrix nat unit Sample.clock_of
             Sample.np_load Sample.meta_window Sample.meta_kmers
             Sample.make_basecall_input_multi Sample.astype
             Cases.picky_network Sample.network_run_opencl
             Sample.cl_get_platforms Sample.estimate_transitions
             (Decoding.decode_profile Sample.ln Sample.kmers)
             (Decoding.decode_profile_opencl Sample.ln Sample.kmers)
             Sample.ln Sample.kmers_to_sequence Sample.write_events_table
             "model.npy"%string Sample.kw [Sample.unit_a] Sample.unit_b
             [Sample.unit_a]) as (H1 & H2 & _).
    + right. left. exists (ExternalError "network"), tt.
      split; [reflexivity|].
      exists "b.fast5"%string, "b"%string, Sample.postB, 2%nat, [].
      split; [left; reflexivity|]. split; reflexivity.
    + split; [exact H1|exact H2].
  - intros worker execute.
    pose (st := Sample.value Sample.no_state
                  (Sample.network_done Sample.unit_b true)).
    destruct (unit_failure_isolated matrix nat unit Sample.clock_of
             Sample.np_load Sample.meta_window Sample.meta_kmers
             Sample.make_basecall_input_multi Sample.astype
             Sample.network_run Sample.network_run_opencl
             Sample.cl_get_platforms Sample.estimate_transitions
             Cases.picky_decoder
             (Decoding.decode_profile_opencl Sample.ln Sample.kmers)
             Sample.ln Sample.kmers_to_sequence Sample.write_events_table
             "model.npy"%string Sample.kw [Sample.unit_a] Sample.unit_b
             [Sample.unit_a]) as (H1 & H2 & _).
    + right. right. exists (ExternalError "decode").
      exists (fst (fst (fst st))), (snd (fst (fst st))), (snd (fst st)),
        (snd st), (Sample.ticks (Sample.network_done Sample.unit_b true)),
        (Sample.value (mkPost [] [] []) (Cases.post_loop_of Sample.unit_b)).
      split; [vm_compute; reflexivity|].
      split; [vm_compute; reflexivity|].
      eexists 0%nat, _, _.
      split; [cbn; lia|].
      split; [vm_compute; reflexivity|].
      split; [vm_compute; reflexivity|].
      vm_compute. reflexivity.
    + split; [exact H1|exact H2].
Defined.

(** C4, as amended, on the same three units with two jobs. *)
Lemma run_summary_witness :
  exists s p,
    Sample.execute [Sample.unit_a; Sample.broken_unit; Sample.unit_b] = Ok s
    /\ fasta s = [("a", "CACACA"); ("b", "CCCC")]%string
    /\ basecalled_line 10 s = mkBasecalled 2 10 5 10
    /\ summarise 2 10 s = Ok (mkSummary 2 10 5 10 (Some p))
    /\ p_feature p == 5 /\ p_load p == 1 /\ p_network p == 7
    /\ p_decoding p == 13 /\ p_events_writing p == 17
    /\ Sample.written Sample.broken_unit = []
    /\ Cases.fastq_with Sample.network_run
         (Decoding.decode_profile Sample.ln Sample.kmers)
         Sample.write_events_table Sample.broken_unit = []
    /\ Cases.fastq_with Sample.network_run
         (Decoding.decode_profile Sample.ln Sample.kmers)
         Sample.write_events_table Sample.unit_b =
       [("b.fast5", "b", "CCCC")]%string.
Proof.
  destruct (run_summary matrix nat unit Sample.clock_of Sample.np_load
              Sample.meta_window Sample.meta_kmers
              Sample.make_basecall_input_multi Sample.astype
              Sample.network_run Sample.network_run_opencl
              Sample.cl_get_platforms Sample.estimate_transitions
              (Decoding.decode_profile Sample.ln Sample.kmers)
              (Decoding.decode_profile_opencl Sample.ln Sample.kmers)
              Sample.ln Sample.kmers_to_sequence Sample.write_events_table
              "model.npy"%string Sample.kw
              [Sample.unit_a; Sample.broken_unit; Sample.unit_b] 2%Z 10)
    as (s & He & Hf & Hb & Hprofile & Hfailed & Hreturned).
  destruct Hprofile as (p & Hs & Ha & Hl & Hc & Hd & Hw).
  - vm_compute. discriminate.
  - discriminate.
  - vm_compute. discriminate.
  - vm_compute. discriminate.
  - destruct (Hfailed Sample.broken_unit) as [Hw0 Hq0].
    { left. exists "c.fast5"%string. split.
      - left. reflexivity.
      - intros w (x & rest & H). discriminate H. }
    destruct (Hreturned Sample.unit_b
                (Sample.results (Sample.worker Sample.unit_b)))
      as [_ Hq1].
    { vm_compute. reflexivity. }
    exists s, p. split; [exact He|].
    split; [rewrite Hf; vm_compute; reflexivity|].
    split; [rewrite Hb; vm_compute; reflexivity|].
    split; [exact Hs|].
    split; [rewrite Ha; vm_compute; reflexivity|].
    split; [rewrite Hl; vm_compute; reflexivity|].
    split; [rewrite Hc; vm_compute; reflexivity|].
    split; [rewrite Hd; vm_compute; reflexivity|].
    split; [rewrite Hw; vm_compute; reflexivity|].
    split; [exact Hw0|]. split; [exact Hq0|].
    unfold Cases.fastq_with. rewrite Hq1. vm_compute. reflexivity.
Defined.

(** C5, as amended, on two devices and four jobs. *)
Lemma plan_round_robin_witness :
  exists pattern pa_list,
    plan Sample.py_int Sample.iterate_fast5 Sample.args_four_jobs =
      Ok (pattern, pa_list) /\
    List.length pattern = 4%nat /\
    List.length pa_list =
      List.length (Sample.iterate_fast5 "reads" pattern) /\
    forall i ff,
      nth_error (Sample.iterate_fast5 "reads" pattern) i = Some ff ->
      exists pa,
        nth_error pa_list i = Some pa /\
        planned Sample.py_int Sample.args_four_jobs
          ["nvidia:0"; "amd:1"]%string i ff pa /\
        fast5_files pa = ff /\
        use_opencl pa = (Z.of_nat i mod 4 <? 2)%Z /\
        nth_error pattern (Z.to_nat (Z.of_nat i mod 4)) =
          Some (if use_opencl pa then 3%Z else 1%Z).
Proof.
  apply (plan_round_robin Sample.py_int Sample.iterate_fast5
           Sample.args_four_jobs ["nvidia:0"; "amd:1"]%string).
  - reflexivity.
  - reflexivity.
  - cbn. lia.
  - repeat constructor.
    + exists "nvidia"%string, "0"%string, 0%Z. split; reflexivity.
    + exists "amd"%string, "1"%string, 1%Z. split; reflexivity.
Defined.

(** C5, as stated, fails: with two devices and one job (the default) the
    planner raises [IndexError] and assigns nothing. *)
Lemma more_devices_than_jobs :
  plan Sample.py_int Sample.iterate_fast5 Sample.args_one_job =
  Raise IndexError.
Proof. reflexivity. Qed.

(** C6 on a unit that asks for a vendor with no platform. *)
Lemma no_platform_raises_witness :
  use_opencl Sample.amd_unit = true /\
  matching_platforms (vendor Sample.amd_unit) Sample.cl_get_platforms = Ok []
  /\ no_result (Sample.process_read Sample.amd_unit false true)
  /\ Sample.process_read Sample.amd_unit false true = Raised IndexError.
Proof.
  split; [reflexivity|]. split; [reflexivity|].
  destruct (no_platform_raises matrix nat unit Sample.clock Sample.np_load
              Sample.meta_window Sample.meta_kmers
              Sample.make_basecall_input_multi Sample.astype
              Sample.network_run Sample.network_run_opencl
              Sample.cl_get_platforms Sample.estimate_transitions
              (Decoding.decode_profile Sample.ln Sample.kmers)
              (Decoding.decode_profile_opencl Sample.ln Sample.kmers)
              Sample.ln Sample.kmers_to_sequence Sample.write_events_table
              "model.npy"%string Sample.amd_unit Sample.min_prob None false
              true Sample.kw eq_refl eq_refl) as [Hno Hraise].
  split; [exact Hno|]. apply (Hraise tt eq_refl).
  intros f [<-|[<-|[]]]; eexists; eexists; reflexivity.
Defined.

(** C7 on the loop over the two sample reads. *)
Lemma transitions_logged_once_witness :
  let ps := Sample.value (mkPost [] [] []) Sample.post_loop in
  List.length (trans_list ps) = 2%nat /\
  forall x tl, nth_error (trans_list ps) x = Some tl ->
    exists post tr,
      nth_error (ps_post_list ps) x = Some post /\
      Sample.estimate_transitions post None = Ok tr /\
      tl = map (fun p => np_log Sample.ln (__ETA__ + p)) tr /\
      (Forall (fun p => 0 <= p) tr ->
       tl = map (fun p => Fin (Sample.ln (__ETA__ + p))) tr /\
       Forall (fun v => isfinite v = true) tl).
Proof.
  apply (transitions_logged_once unit Sample.meta_kmers
           Sample.estimate_transitions Sample.ln tt Sample.min_prob None
           false 2 [Sample.postA; Sample.postB] 0%nat
           (Sample.value (mkPost [] [] []) Sample.post_loop) 0%nat).
  vm_compute. reflexivity.
Defined.

(** C8, as amended, on the sample unit, with a decoder that always
    raises: the second of the four events of the first read is stripped,
    and the rows of the three others are divided by 19/20, 9/10 and
    19/20. *)
Lemma post_only_first_read_witness :
  exists returned,
    Sample.process_read_with Sample.no_decoder Sample.cpu_unit true true =
      Returned (RetPost returned) /\
    Forall2 (Forall2 Qeq) returned
      [[14 # 19; 2 # 19; 2 # 19; 1 # 19];
       [1 # 9; 6 # 9; 1 # 9; 1 # 9];
       [1 # 19; 1 # 19; 16 # 19; 1 # 19]] /\
    Forall (fun row => Qsum row == 1) returned.
Proof.
  pose (st := Sample.value Sample.no_state
                (Sample.network_done Sample.cpu_unit true)).
  destruct (post_only_first_read matrix nat unit Sample.clock Sample.np_load
           Sample.meta_window Sample.meta_kmers
           Sample.make_basecall_input_multi Sample.astype Sample.network_run
           Sample.network_run_opencl Sample.cl_get_platforms
           Sample.estimate_transitions Sample.no_decoder
           (Decoding.decode_profile_opencl Sample.ln Sample.kmers)
           Sample.ln Sample.kmers_to_sequence Sample.write_events_table
           "model.npy"%string Sample.cpu_unit Sample.min_prob None true
           Sample.kw (fst (fst (fst st))) (snd (fst (fst st)))
           (snd (fst st)) (snd st)
           (Sample.ticks (Sample.network_done Sample.cpu_unit true))
           Sample.postA [Sample.postB] 5%nat
           ["AA"; "AC"; "CA"; "CC"]%string "XX"%string)
    as (returned & E & Hrows & Hsum).
  - vm_compute. reflexivity.
  - discriminate.
  - reflexivity.
  - reflexivity.
  - repeat constructor.
  - repeat constructor.
  - row_ok.
  - exists returned. split; [exact E|]. split; [|exact Hsum].
    cbn [is_bad_kmer] in Hrows.
    change (is_bad_kmer "XX") with true in Hrows. cbv iota in Hrows.
    assert (Es : drop_last_col (kept_events Sample.postA) =
                 [[7 # 10; 1 # 10; 1 # 10; 1 # 20];
                  [1 # 10; 6 # 10; 1 # 10; 1 # 10];
                  [1 # 20; 1 # 20; 8 # 10; 1 # 20]])
      by (vm_compute; reflexivity).
    rewrite Es in Hrows.
    inversion Hrows as [|r1 s1 l1 m1 [_ E1] Hrows1]; subst.
    inversion Hrows1 as [|r2 s2 l2 m2 [_ E2] Hrows2]; subst.
    inversion Hrows2 as [|r3 s3 l3 m3 [_ E3] Hrows3]; subst.
    inversion Hrows3; subst.
    repeat (constructor; try reflexivity).
Defined.

(** C8, as stated, fails: the other reads are not ignored.  The first read
    alone gives its matrix; with a later file that cannot be prepared the
    same call returns [None], with a later read on which the network
    raises it raises, and on a unit with no read it returns the empty
    list. *)
Lemma post_only_waits_for_all_reads :
  (exists first,
     Cases.process_read_at Sample.meta_kmers Sample.network_run
       Sample.write_events_table Sample.unit_a true true =
     Returned (RetPost first)) /\
  Cases.process_read_at Sample.meta_kmers Sample.network_run
    Sample.write_events_table Cases.mixed_unit true true =
  Returned RetNone /\
  Cases.process_read_at Sample.meta_kmers Cases.picky_network
    Sample.write_events_table Sample.cpu_unit true true =
  Raised (ExternalError "network") /\
  Cases.process_read_at Sample.meta_kmers Sample.network_run
    Sample.write_events_table Cases.empty_unit true true =
  Returned (RetList []).
Proof.
  split; [eexists; vm_compute; reflexivity|].
  split; [vm_compute; reflexivity|].
  split; vm_compute; reflexivity.
Qed.

(** C9 on the sample unit. *)
Lemma no_events_no_results_witness :
  Sample.process_read Sample.cpu_unit false false = Returned (RetList []) /\
  forall s, tally_units s [RetList []] = Ok s.
Proof.
  pose (st := Sample.value Sample.no_state
                (Sample.network_done Sample.cpu_unit false)).
  apply (no_events_no_results matrix nat unit Sample.clock Sample.np_load
           Sample.meta_window Sample.meta_kmers
           Sample.make_basecall_input_multi Sample.astype Sample.network_run
           Sample.network_run_opencl Sample.cl_get_platforms
           Sample.estimate_transitions
           (Decoding.decode_profile Sample.ln Sample.kmers)
           (Decoding.decode_profile_opencl Sample.ln Sample.kmers)
           Sample.ln Sample.kmers_to_sequence Sample.write_events_table
           "model.npy"%string Sample.cpu_unit Sample.min_prob None false
           Sample.kw (fst (fst (fst st))) (snd (fst (fst st)))
           (snd (fst st)) (snd st)
           (Sample.ticks (Sample.network_done Sample.cpu_unit false))
           (Sample.value Sample.no_decoded
              (Sample.decode_done Sample.cpu_unit false))
           (Sample.ticks (Sample.decode_done Sample.cpu_unit false))).
  - vm_compute. reflexivity.
  - vm_compute. reflexivity.
Defined.

(** C10, as amended, on the sample unit run on the accelerator. *)
Lemma per_read_times_witness :
  let ret :=
    Sample.results (Sample.process_read Sample.nvidia_unit false true) in
  List.length ret = 2%nat /\
  forall x r, nth_error ret x = Some r ->
    t_decode (r_time r) = (Sample.clock 9 - Sample.clock 8) / Qof_nat 2 /\
    t_network (r_time r) = (Sample.clock 7 - Sample.clock 6) / Qof_nat 2.
Proof.
  apply (per_read_times matrix nat unit Sample.clock Sample.np_load
           Sample.meta_window Sample.meta_kmers
           Sample.make_basecall_input_multi Sample.astype Sample.network_run
           Sample.network_run_opencl Sample.cl_get_platforms
           Sample.estimate_transitions
           (Decoding.decode_profile Sample.ln Sample.kmers)
           (Decoding.decode_profile_opencl Sample.ln Sample.kmers)
           Sample.ln Sample.kmers_to_sequence Sample.write_events_table
           "model.npy"%string Sample.nvidia_unit Sample.min_prob None false
           Sample.kw
           (Sample.results
              (Sample.process_read Sample.nvidia_unit false true))).
  vm_compute. reflexivity.
Defined.

(** C10, as stated, fails: on the CPU the network times of the two reads of
    a unit are 7 and 13, so they are not one total divided by two. *)
Lemma cpu_network_time_per_read :
  let ret :=
    Sample.results (Sample.process_read Sample.cpu_unit false true) in
  List.length ret = 2%nat /\
  ~ exists total,
      forall r, In r ret -> t_network (r_time r) == total / Qof_nat 2.
Proof.
  intros ret. split; [vm_compute; reflexivity|].
  assert (E : exists r0 r1,
             ret = [r0; r1] /\ t_network (r_time r0) = 7 /\
             t_network (r_time r1) = 13).
  { vm_compute. eexists. eexists. split; [reflexivity|]. split; reflexivity. }
  destruct E as (r0 & r1 & -> & E0 & E1). intros [total H].
  pose proof (H r0 (or_introl eq_refl)) as H0.
  pose proof (H r1 (or_intror (or_introl eq_refl))) as H1.
  rewrite E0 in H0. rewrite E1 in H1. rewrite <- H1 in H0.
  discriminate H0.
Qed.

(** * Further properties *)

(** ** Which events are stripped *)

(** [argmax_from] returns the first position of a maximum: what comes
    before it is strictly smaller. *)
Lemma argmax_from_first l : forall best besti i,
  (argmax_from best besti i l = besti /\ Forall (fun y => y <= best) l) \/
  exists k m,
    argmax_from best besti i l = (i + k)%nat /\
    nth_error l k = Some m /\ best < m /\
    (forall k' y, (k' < k)%nat -> nth_error l k' = Some y -> y < m) /\
    Forall (fun y => y <= m) l.
Proof.
  induction l as [|x l IH]; intros best besti i; cbn [argmax_from].
  - left. split; [reflexivity|constructor].
  - destruct (Qltb best x) eqn:E.
    + apply Qltb_true in E. right.
      destruct (IH x i (S i)) as [[Hj Hall]|(k & m & Hj & Hk & Hlt & Hbef & Hall)].
      * exists 0%nat, x. rewrite Hj, Nat.add_0_r.
        split; [reflexivity|]. split; [reflexivity|]. split; [exact E|].
        split; [intros k' y Hk'; lia|].
        constructor; [apply Qle_refl|exact Hall].
      * exists (S k), m. rewrite Hj.
        split; [lia|]. split; [exact Hk|].
        split; [now apply Qlt_trans with x|]. split.
        -- intros [|k'] y Hk' Hy; cbn in Hy.
           ++ inversion Hy; subst. exact Hlt.
           ++ apply (Hbef k' y); [lia|exact Hy].
        -- constructor; [now apply Qlt_le_weak|exact Hall].
    + apply Qltb_false in E.
      destruct (IH best besti (S i))
        as [[Hj Hall]|(k & m & Hj & Hk & Hlt & Hbef & Hall)].
      * left. split; [exact Hj|]. constructor; assumption.
      * right. exists (S k), m. rewrite Hj.
        split; [lia|]. split; [exact Hk|]. split; [exact Hlt|]. split.
        -- intros [|k'] y Hk' Hy; cbn in Hy.
           ++ inversion Hy; subst. now apply Qle_lt_trans with best.
           ++ apply (Hbef k' y); [lia|exact Hy].
        -- constructor; [|exact Hall].
           apply Qle_trans with best; [exact E|now apply Qlt_le_weak].
Qed.

Lemma np_argmax_first row j :
  np_argmax row = Some j ->
  exists m,
    nth_error row j = Some m /\
    (forall i y, (i < j)%nat -> nth_error row i = Some y -> y < m) /\
    Forall (fun y => y <= m) row.
Proof.
  destruct row as [|x r]; cbn [np_argmax]; [discriminate|].
  intros H. inversion H; subst; clear H.
  destruct (argmax_from_first r x 0%nat 1%nat)
    as [[Hj Hall]|(k & m & Hj & Hk & Hlt & Hbef & Hall)].
  - exists x. rewrite Hj. split; [reflexivity|]. split.
    + intros i y Hi; lia.
    + constructor; [apply Qle_refl|exact Hall].
  - exists m. rewrite Hj. split; [exact Hk|]. split.
    + intros [|i] y Hi Hy; cbn in Hy.
      * inversion Hy; subst. exact Hlt.
      * apply (Hbef i y); [lia|exact Hy].
    + constructor; [now apply Qlt_le_weak|exact Hall].
Qed.

(** X1.  An event is stripped exactly when the bad state, the last column,
    is strictly more likely than every other state of the event: on a tie
    [np.argmax] answers the first maximum and the event stays. *)
Theorem called_bad_iff row :
  called_bad row = true <->
  exists others bad,
    row = others ++ [bad] /\ Forall (fun y => y < bad) others.
Proof.
  unfold called_bad. split.
  - destruct (np_argmax row) as [j|] eqn:E; [|discriminate].
    intros Hj. apply Nat.eqb_eq in Hj.
    destruct (np_argmax_first row j E) as (m & Hm & Hbef & _).
    destruct (@exists_last _ row) as (others & bad & ->).
    { intros ->. discriminate E. }
    rewrite length_app in Hj. cbn [List.length] in Hj.
    assert (Hjl : j = List.length others) by lia. subst j.
    rewrite nth_error_app2, Nat.sub_diag in Hm by lia.
    cbn in Hm. inversion Hm; subst m.
    exists others, bad. split; [reflexivity|].
    apply Forall_forall. intros y Hy.
    apply In_nth_error in Hy. destruct Hy as [i Hi].
    apply (Hbef i y).
    + apply nth_error_Some. congruence.
    + rewrite nth_error_app1; [exact Hi|].
      apply nth_error_Some. congruence.
  - intros (others & bad & -> & Hall).
    destruct (np_argmax (others ++ [bad])) as [j|] eqn:E.
    2:{ destruct others; discriminate E. }
    destruct (np_argmax_first _ j E) as (m & Hm & _ & Hmax).
    apply Nat.eqb_eq. rewrite length_app. cbn [List.length].
    assert (Hlt : (j < List.length (others ++ [bad]))%nat)
      by (apply nth_error_Some; congruence).
    rewrite length_app in Hlt. cbn [List.length] in Hlt.
    destruct (Nat.eq_dec j (List.length others)) as [->|Hne]; [lia|].
    exfalso. rewrite nth_error_app1 in Hm by lia.
    rewrite Forall_forall in Hall, Hmax.
    pose proof (Hall m (nth_error_In _ _ Hm)) as H1.
    assert (H2 : bad <= m).
    { apply Hmax. apply in_or_app. right. left. reflexivity. }
    lra.
Qed.

(** ** The rows after the flooring *)

Lemma Qsum_ge_In l p : Forall (fun q => 0 <= q) l -> In p l -> p <= Qsum l.
Proof.
  intros Hl Hin. apply In_nth_error in Hin. destruct Hin as [j Hj].
  eapply Qsum_ge_nth; eauto.
Qed.

Lemma normalise_row_cells row :
  Forall (fun p => 0 <= p) row -> 0 < Qsum row ->
  Forall (fun p => 0 <= p /\ p <= 1) (normalise_row row).
Proof.
  intros Hpos Hw. unfold normalise_row. apply Forall_forall.
  intros q Hq. apply in_map_iff in Hq. destruct Hq as (p & <- & Hp).
  rewrite Forall_forall in Hpos. split.
  - apply Qle_shift_div_l; [exact Hw|]. rewrite Qmult_0_l. auto.
  - apply Qle_shift_div_r; [exact Hw|]. rewrite Qmult_1_l.
    apply Qsum_ge_In; [apply Forall_forall; exact Hpos|exact Hp].
Qed.

Lemma floor_row_sum min_prob row :
  Qsum row == 1 ->
  Qsum (map (floor_cell min_prob) row) ==
  1 + (Qof_nat (List.length row) - 1) * min_prob.
Proof.
  intros Hsum.
  assert (E : Qsum (map (floor_cell min_prob) row) ==
              Qof_nat (List.length row) * min_prob +
              (1 - min_prob) * Qsum row).
  { clear Hsum. induction row as [|p row IH].
    - change (Qsum (map (floor_cell min_prob) [])) with 0.
      change (Qsum []) with 0. change (Qof_nat (List.length [])) with 0.
      ring.
    - cbn [map List.length]. rewrite !Qsum_cons, IH.
      unfold floor_cell, Qof_nat. rewrite Nat2Z.inj_succ.
      unfold Z.succ. rewrite inject_Z_plus.
      change (inject_Z 1) with 1. ring. }
  rewrite E, Hsum. lra.
Qed.

(** X2.  After the flooring by [min_prob] (between 0 and 1) of a proper
    posterior matrix whose table has the bad k-mer, every cell lies
    between [min_prob] and 1, so none is zero when [min_prob] is positive;
    a row of [n] cells no longer sums to one but to
    [1 + (n - 1) * min_prob]. *)
Theorem floored_rows min_prob K post :
  0 <= min_prob -> min_prob <= 1 ->
  Forall (fun row => List.length row = K) post ->
  Forall (fun row => Forall (fun p => 0 <= p) row /\ Qsum row == 1) post ->
  Forall (fun row =>
            Forall (fun p => min_prob <= p /\ p <= 1) row /\
            List.length row = (K - 1)%nat /\
            Qsum row == 1 + (Qof_nat (List.length row) - 1) * min_prob)
         (floor_post min_prob (normalise (drop_last_col (kept_events post)))).
Proof.
  intros H0 H1 Hrect Hpost.
  unfold floor_post, normalise, drop_last_col, kept_events.
  induction post as [|row post IH]; [constructor|].
  inversion Hrect as [|? ? Hlen Hrect']; subst.
  inversion Hpost as [|? ? [Hpos Hsum] Hpost']; subst.
  cbn [filter]. destruct (called_bad row) eqn:Hbad; cbn [negb map].
  - now apply IH.
  - constructor; [|now apply IH].
    pose proof (kept_row_weight row Hpos Hsum Hbad) as Hw.
    pose proof (normalise_row_cells (removelast row)
                  (Forall_removelast _ _ _ Hpos) Hw) as Hcells.
    split; [|split].
    + apply Forall_forall. intros q Hq. apply in_map_iff in Hq.
      destruct Hq as (p & <- & Hp). rewrite Forall_forall in Hcells.
      destruct (Hcells p Hp) as [Hp0 Hp1]. unfold floor_cell. split; nra.
    + unfold normalise_row.
      rewrite !length_map, removelast_firstn_len, length_firstn. lia.
    + rewrite length_map. apply floor_row_sum. apply normalise_row_sum.
      intros Hz. rewrite Hz in Hw. discriminate Hw.
Qed.

(** ** The platform of a unit *)

Lemma prefix_empty s : prefix EmptyString s = true.
Proof. destruct s; reflexivity. Qed.

Lemma contains_empty s : contains EmptyString s = true.
Proof. destruct s; cbn; [reflexivity|]. reflexivity. Qed.

(** X3.  With a vendor, the platforms a unit chooses from are those, in
    the order of [cl.get_platforms()], that have a GPU and whose name
    contains the vendor, letter case ignored; the search never raises,
    and the empty vendor (an entry [:0]) matches every platform with a
    GPU.  Without a vendor the search raises [AttributeError] as soon as
    one platform has a GPU, and finds nothing otherwise. *)
Theorem matching_platforms_spec ps :
  (forall v,
     matching_platforms (Some v) ps =
     Ok (filter (fun p => has_gpu p &&
                          contains (lower v) (lower (platform_NAME p))) ps))
  /\ matching_platforms (Some EmptyString) ps = Ok (filter has_gpu ps)
  /\ matching_platforms None ps =
     if existsb has_gpu ps then Raise AttributeError else Ok [].
Proof.
  split; [|split].
  - intros v. induction ps as [|p ps IH]; [reflexivity|].
    cbn [matching_platforms filter]. unfold has_gpu at 1.
    destruct (gpu_devices p); cbn [andb].
    + exact IH.
    + rewrite IH. destruct (contains (lower v) (lower (platform_NAME p)));
        reflexivity.
  - induction ps as [|p ps IH]; [reflexivity|].
    cbn [matching_platforms filter]. unfold has_gpu at 1.
    destruct (gpu_devices p).
    + exact IH.
    + rewrite IH. cbn [lower]. rewrite contains_empty. reflexivity.
  - induction ps as [|p ps IH]; [reflexivity|].
    cbn [matching_platforms existsb]. unfold has_gpu at 1.
    destruct (gpu_devices p); cbn [orb]; [exact IH|reflexivity].
Qed.

(** ** The entries [VENDOR:DEVICE] *)

Lemma split_on_nonempty c s : split_on c s <> [].
Proof.
  destruct s as [|x r]; cbn [split_on]; [discriminate|].
  destruct (Ascii.eqb x c); [discriminate|].
  destruct (split_on c r); discriminate.
Qed.

Lemma split_on_length c s :
  List.length (split_on c s) = S (occurrences c s).
Proof.
  induction s as [|x r IH]; [reflexivity|].
  cbn [split_on occurrences]. destruct (Ascii.eqb x c).
  - cbn [List.length]. now rewrite IH.
  - pose proof (split_on_nonempty c r) as Hne.
    destruct (split_on c r) as [|h t]; [contradiction|].
    cbn [List.length] in *. exact IH.
Qed.

(** Joining the parts with the separator gives the string back. *)
Lemma split_on_join c s :
  String.concat (String c EmptyString) (split_on c s) = s.
Proof.
  induction s as [|x r IH]; [reflexivity|].
  cbn [split_on]. destruct (Ascii.eqb_spec x c) as [->|Hne].
  - pose proof (split_on_nonempty c r) as Hn.
    destruct (split_on c r) as [|h t]; [contradiction|].
    cbn [String.concat String.append] in *. now rewrite IH.
  - pose proof (split_on_nonempty c r) as Hn.
    destruct (split_on c r) as [|h t]; [contradiction|].
    destruct t as [|h' t']; cbn [String.concat String.append] in *;
      now rewrite IH.
Qed.

Section EntryFacts.

Variable py_int : string -> option Z.

(** X4.  On a device slot the entry of the slot is read as follows: with
    exactly one colon it is [VENDOR:DEVICE], the unit gets the text before
    the colon as vendor and [int] of the text after it as device, and a
    device [int] refuses is a [ValueError]; with no colon or several the
    unit is not made and planning stops with [ValueError]. *)
Theorem plan_unit_entry a ps i ff entry :
  opencl a = true ->
  jobs a <> 0%Z ->
  platforms a = Some ps ->
  (0 <= Z.of_nat i mod jobs a)%Z ->
  nth_error ps (Z.to_nat (Z.of_nat i mod jobs a)) = Some entry ->
  (occurrences ":"%char entry = 1%nat ->
   exists v d,
     entry = (v ++ ":" ++ d)%string /\
     plan_unit py_int a i ff =
     match py_int d with
     | Some id => Ok (mkPA ff true (Some v) id)
     | None => Raise ValueError
     end) /\
  (occurrences ":"%char entry <> 1%nat ->
   plan_unit py_int a i ff = Raise ValueError).
Proof.
  intros Ho Hj Hp Hslot Hentry.
  assert (Hlt : (Z.to_nat (Z.of_nat i mod jobs a) < List.length ps)%nat)
    by (apply nth_error_Some; congruence).
  assert (E : plan_unit py_int a i ff =
              match split_on ":"%char entry with
              | [v; d] =>
                  match py_int d with
                  | Some id => Ok (mkPA ff true (Some v) id)
                  | None => Raise ValueError
                  end
              | _ => Raise ValueError
              end).
  { unfold plan_unit. rewrite Ho, Hp.
    destruct (Z.eqb_spec (jobs a) 0); [contradiction|].
    destruct (Z.leb_spec 0 (Z.of_nat i mod jobs a)); [|lia].
    destruct (Z.ltb_spec (Z.of_nat i mod jobs a)
                (Z.of_nat (List.length ps))); [|lia].
    cbn [andb]. unfold py_nth.
    destruct (Z.leb_spec 0 (Z.of_nat i mod jobs a)); [|lia].
    rewrite Hentry. reflexivity. }
  rewrite E.
  pose proof (split_on_length ":"%char entry) as Hlen.
  pose proof (split_on_join ":"%char entry) as Hjoin.
  split; intros Hocc.
  - rewrite Hocc in Hlen.
    destruct (split_on ":"%char entry) as [|v [|d [|x l]]];
      try discriminate Hlen.
    exists v, d. split; [|reflexivity].
    cbn [String.concat] in Hjoin. symmetry. exact Hjoin.
  - destruct (split_on ":"%char entry) as [|v [|d [|x l]]];
      try reflexivity.
    cbn [List.length] in Hlen. exfalso. apply Hocc. lia.
Qed.

End EntryFacts.

(** ** The pattern of group sizes *)

Lemma set_items_closed (A : Type) (v : A) k : forall (pre l : list A),
  set_items (pre ++ l) (seq (List.length pre) k) v =
  if (k <=? List.length l)%nat
  then Ok (pre ++ repeat v k ++ skipn k l)
  else Raise IndexError.
Proof.
  induction k as [|k IH]; intros pre l; cbn [seq set_items].
  - reflexivity.
  - unfold set_item. rewrite length_app.
    destruct l as [|x l].
    + cbn [List.length]. rewrite Nat.add_0_r, Nat.ltb_irrefl. reflexivity.
    + destruct (Nat.ltb_spec (List.length pre)
                  (List.length pre + List.length (x :: l)));
        [|cbn [List.length] in *; lia].
      rewrite set_nth_app by reflexivity.
      specialize (IH (pre ++ [v]) l).
      rewrite length_app in IH. cbn [List.length] in IH.
      rewrite Nat.add_1_r in IH. rewrite <- app_assoc in IH.
      cbn [app] in IH. rewrite IH. cbn [List.length].
      change (S k <=? S (List.length l))%nat with (k <=? List.length l)%nat.
      destruct (k <=? List.length l)%nat; [|reflexivity].
      rewrite <- app_assoc. reflexivity.
Qed.

(** X5.  With [--opencl] and a list of platforms, the pattern of group
    sizes is [opencl_input_files] once for each platform, then ones up to
    the number of jobs, and [IndexError] is raised exactly when there are
    more platforms than jobs; [--opencl] without [--platforms] is a
    [TypeError]; without [--opencl] the pattern is one per job. *)
Theorem files_pattern_closed a :
  files_pattern a =
  if opencl a then
    match platforms a with
    | None => Raise TypeError
    | Some ps =>
        if (List.length ps <=? Z.to_nat (jobs a))%nat
        then Ok (repeat (opencl_input_files a) (List.length ps) ++
                 repeat 1%Z (Z.to_nat (jobs a) - List.length ps))
        else Raise IndexError
    end
  else Ok (repeat 1%Z (Z.to_nat (jobs a))).
Proof.
  unfold files_pattern. destruct (opencl a); [|reflexivity].
  destruct (platforms a) as [ps|]; [|reflexivity].
  pose proof (set_items_closed Z (opencl_input_files a) (List.length ps) []
                (repeat 1%Z (Z.to_nat (jobs a)))) as H.
  cbn [app List.length] in H. rewrite H, repeat_length.
  destruct (Nat.leb_spec (List.length ps) (Z.to_nat (jobs a)));
    [|reflexivity].
  f_equal. f_equal.
  replace (Z.to_nat (jobs a))
    with (List.length ps + (Z.to_nat (jobs a) - List.length ps))%nat
    at 1 by lia.
  rewrite repeat_app, skipn_app, repeat_length, Nat.sub_diag.
  rewrite skipn_all2 by (rewrite repeat_length; lia). reflexivity.
Qed.

Section PlanFacts.

Variable py_int : string -> option Z.
Variable iterate_fast5 : string -> list Z -> list (list string).

Lemma plan_units_cpu a groups : forall i,
  opencl a = false ->
  plan_units py_int a i groups = Ok (map process_attr_cpu groups).
Proof.
  induction groups as [|ff groups IH]; intros i Ho; [reflexivity|].
  cbn [plan_units map]. unfold plan_unit. rewrite Ho.
  rewrite IH by exact Ho. reflexivity.
Qed.

(** X6.  Without [--opencl] planning never fails, whatever the number of
    jobs and the platforms given: every group becomes a CPU unit, in the
    order of the groups, and the pattern asks for one file per job (no
    pattern at all for a job count of zero or less). *)
Theorem plan_without_opencl a :
  opencl a = false ->
  plan py_int iterate_fast5 a =
  let pattern := repeat 1%Z (Z.to_nat (jobs a)) in
  Ok (pattern, map process_attr_cpu (iterate_fast5 (input a) pattern)).
Proof.
  intros Ho. unfold plan, files_pattern. rewrite Ho.
  rewrite plan_units_cpu by exact Ho. reflexivity.
Qed.

End PlanFacts.

(** ** The tally and the summary *)

Lemma tally_units_no_matrix rets : forall s s',
  tally_units s rets = Ok s' ->
  forallb (fun v => negb (is_matrix v)) rets = true.
Proof.
  induction rets as [|v rets IH]; intros s s' H; [reflexivity|].
  destruct v as [|m|r]; cbn [tally_units forallb is_matrix negb andb] in *.
  - eapply IH; eauto.
  - discriminate H.
  - eapply IH; eauto.
Qed.

Lemma tally_result_invariant s r :
  n_reads s = List.length (fasta s) ->
  n_bases s = list_sum (map (fun ns => String.length (snd ns)) (fasta s)) ->
  List.length (timings s) = 5%nat ->
  n_reads (tally_result s r) = List.length (fasta (tally_result s r)) /\
  n_bases (tally_result s r) =
    list_sum (map (fun ns => String.length (snd ns))
                  (fasta (tally_result s r))) /\
  List.length (timings (tally_result s r)) = 5%nat.
Proof.
  intros Hr Hb Ht. cbn [tally_result n_reads n_bases fasta timings].
  rewrite length_app, map_app, list_sum_app. cbn [List.length map snd].
  split; [lia|]. split.
  - cbn [list_sum fold_right]. lia.
  - unfold add_timings, time_tuple.
    rewrite length_map, length_combine, Ht. reflexivity.
Qed.

(** X7.  The loop of [main] keeps its counters in step with what it
    writes: after any number of units the number of reads is the number
    of fasta records written, the number of bases is the total length of
    the sequences written, and there are still five totals of time. *)
Theorem tally_invariant rets s :
  tally_units tally0 rets = Ok s ->
  n_reads s = List.length (fasta s) /\
  n_bases s = list_sum (map (fun ns => String.length (snd ns)) (fasta s)) /\
  List.length (timings s) = 5%nat.
Proof.
  intros H. pose proof (tally_units_no_matrix _ _ _ H) as Hm.
  rewrite tally_units_fold in H by exact Hm. inversion H; subst s; clear H.
  generalize (flat_map results_of rets). intros rs.
  assert (G : forall s0,
             n_reads s0 = List.length (fasta s0) ->
             n_bases s0 =
               list_sum (map (fun ns => String.length (snd ns)) (fasta s0)) ->
             List.length (timings s0) = 5%nat ->
             n_reads (fold_left tally_result rs s0) =
               List.length (fasta (fold_left tally_result rs s0)) /\
             n_bases (fold_left tally_result rs s0) =
               list_sum (map (fun ns => String.length (snd ns))
                             (fasta (fold_left tally_result rs s0))) /\
             List.length (timings (fold_left tally_result rs s0)) = 5%nat).
  { induction rs as [|r rs IH]; intros s0 Hr Hb Ht; cbn [fold_left].
    - auto.
    - destruct (tally_result_invariant s0 r Hr Hb Ht) as (Hr' & Hb' & Ht').
      apply IH; assumption. }
  apply G; reflexivity.
Qed.

Lemma list_sum_perm l l' : Permutation l l' ->
  list_sum l = list_sum l'.
Proof.
  induction 1; cbn [list_sum fold_right] in *; try lia.
  unfold list_sum in *. cbn [fold_right]. lia.
Qed.

Lemma Qsum_perm l l' : Permutation l l' -> Qsum l == Qsum l'.
Proof.
  induction 1.
  - reflexivity.
  - rewrite !Qsum_cons, IHPermutation. reflexivity.
  - rewrite !Qsum_cons. ring.
  - now rewrite IHPermutation1.
Qed.

(** X8.  The totals do not depend on the order in which the units come
    back: for two orders of the same values the loop ends alike, with the
    same numbers of reads, bases and events, equal totals of time (the
    times being exact rationals here, not rounded floats) and the same
    fasta records up to their order. *)
Theorem tally_order_independent rets rets' s :
  Permutation rets rets' ->
  tally_units tally0 rets = Ok s ->
  exists s',
    tally_units tally0 rets' = Ok s' /\
    n_reads s' = n_reads s /\ n_bases s' = n_bases s /\
    n_events s' = n_events s /\
    Forall2 Qeq (timings s') (timings s) /\
    Permutation (fasta s') (fasta s).
Proof.
  intros Hperm H. pose proof (tally_units_no_matrix _ _ _ H) as Hm.
  assert (Hm' : forallb (fun v => negb (is_matrix v)) rets' = true).
  { rewrite forallb_forall in Hm |- *. intros v Hv. apply Hm.
    eapply Permutation_in;
      [apply Permutation_sym; exact Hperm|exact Hv]. }
  rewrite tally_units_fold in H by exact Hm. inversion H; subst s; clear H.
  eexists. split; [apply tally_units_fold; exact Hm'|].
  pose proof (Permutation_flat_map results_of Hperm) as Hrs.
  set (rs := flat_map results_of rets) in *.
  set (rs' := flat_map results_of rets') in *.
  apply Permutation_sym in Hrs.
  rewrite !tally_n_reads, !tally_n_bases, !tally_n_events, !tally_fasta.
  cbn [tally0 n_reads n_bases n_events fasta Nat.add app].
  split; [now apply Permutation_length|].
  split; [now apply list_sum_perm, Permutation_map|].
  split; [now apply list_sum_perm, Permutation_map|].
  split; [|now apply Permutation_map].
  destruct (tally_timings rs tally0 0 0 0 0 0 eq_refl)
    as (a & b & c & d & e & Ht & Ha & Hb & Hc & Hd & He).
  destruct (tally_timings rs' tally0 0 0 0 0 0 eq_refl)
    as (a' & b' & c' & d' & e' & Ht' & Ha' & Hb' & Hc' & Hd' & He').
  rewrite Ht, Ht'.
  repeat constructor.
  - rewrite Ha, Ha'. apply Qplus_comp; [reflexivity|].
    now apply Qsum_perm, Permutation_map.
  - rewrite Hb, Hb'. apply Qplus_comp; [reflexivity|].
    now apply Qsum_perm, Permutation_map.
  - rewrite Hc, Hc'. apply Qplus_comp; [reflexivity|].
    now apply Qsum_perm, Permutation_map.
  - rewrite Hd, Hd'. apply Qplus_comp; [reflexivity|].
    now apply Qsum_perm, Permutation_map.
  - rewrite He, He'. apply Qplus_comp; [reflexivity|].
    now apply Qsum_perm, Permutation_map.
Qed.

Lemma Qdiv_zero_iff x j : ~ j == 0 -> (x / j == 0 <-> x == 0).
Proof.
  intros Hj. split; intros H.
  - assert (E : x == x / j * j) by (field; exact Hj).
    rewrite E, H. ring.
  - rewrite H. field. exact Hj.
Qed.

Lemma Qeq_bool_true_iff x : Qeq_bool x 0 = true <-> x == 0.
Proof. apply Qeq_bool_iff. Qed.

(** X9.  The summary can only fail by a division by zero, after all the
    reads are written: it is produced exactly when no read was basecalled
    (then without the profile), or when the number of jobs is not zero and
    neither the total of the network times nor the total of the decode
    times is zero. *)
Theorem summary_fails_iff jobs wall out nr nb ne f l n d w :
  let s := mkTally out nr nb ne [f; l; n; d; w] in
  ((exists sm, summarise jobs wall s = Ok sm) <->
   nr = 0%nat \/ (jobs <> 0%Z /\ ~ n == 0 /\ ~ d == 0)) /\
  (forall e, summarise jobs wall s = Raise e -> e = ZeroDivisionError) /\
  (nr = 0%nat ->
   summarise jobs wall s = Ok (mkSummary nr nb ne wall None)).
Proof.
  intros s. unfold summarise, profiling_of, per_kilo, s.
  cbn [n_reads n_bases n_events timings].
  destruct nr as [|nr]; cbn [Nat.ltb Nat.leb].
  - split; [|split].
    + split; [intros _; now left|intros _; eauto].
    + intros e H. discriminate H.
    + reflexivity.
  - destruct (Z.eqb_spec jobs 0) as [Hj|Hj].
    + split; [|split].
      * split; [intros [sm H]; discriminate H|].
        intros [H|[H _]]; [discriminate H|contradiction].
      * intros e H. now inversion H.
      * intros H. discriminate H.
    + pose proof (inject_Z_nonzero jobs Hj) as Hq.
      destruct (Qeq_bool (n / inject_Z jobs) 0) eqn:En.
      * apply Qeq_bool_true_iff in En. apply Qdiv_zero_iff in En; [|exact Hq].
        split; [|split].
        -- split; [intros [sm H]; discriminate H|].
           intros [H|(_ & Hn & _)]; [discriminate H|contradiction].
        -- intros e H. now inversion H.
        -- intros H. discriminate H.
      * assert (Hn : ~ n == 0).
        { intros Hn. apply (Qdiv_zero_iff n _ Hq) in Hn.
          apply Qeq_bool_true_iff in Hn. congruence. }
        destruct (Qeq_bool (d / inject_Z jobs) 0) eqn:Ed.
        -- apply Qeq_bool_true_iff in Ed.
           apply Qdiv_zero_iff in Ed; [|exact Hq].
           split; [|split].
           ++ split; [intros [sm H]; discriminate H|].
              intros [H|(_ & _ & Hd)]; [discriminate H|contradiction].
           ++ intros e H. now inversion H.
           ++ intros H. discriminate H.
        -- assert (Hd : ~ d == 0).
           { intros Hd. apply (Qdiv_zero_iff d _ Hq) in Hd.
             apply Qeq_bool_true_iff in Hd. congruence. }
           split; [|split].
           ++ split; [intros _; right; auto|intros _; eauto].
           ++ intros e H. discriminate H.
           ++ intros H. discriminate H.
Qed.

(** X10.  The throughput figures divide the count by 1000 as integers
    first: in a summary of a run with fewer than 1000 bases the two
    figures in kilobases per second are zero, and with fewer than 1000
    events the two figures in kilo-events per second are zero. *)
Theorem small_run_throughput jobs wall s sm p :
  summarise jobs wall s = Ok sm ->
  profile sm = Some p ->
  ((n_bases s < 1000)%nat -> p_network_kb p == 0 /\ p_decoding_kb p == 0) /\
  ((n_events s < 1000)%nat ->
   p_network_kev p == 0 /\ p_decoding_kev p == 0).
Proof.
  unfold summarise, profiling_of, per_kilo.
  destruct (0 <? n_reads s)%nat.
  2:{ intros H. inversion H; subst sm. discriminate. }
  destruct (timings s) as [|f [|l [|n [|d [|w [|x r]]]]]];
    try discriminate.
  destruct (jobs =? 0)%Z; [discriminate|].
  destruct (Qeq_bool (n / inject_Z jobs) 0);
    [discriminate|].
  destruct (Qeq_bool (d / inject_Z jobs) 0); [discriminate|].
  intros H Hp. inversion H; subst sm. cbn [profile] in Hp.
  inversion Hp; subst p.
  cbn [p_network_kb p_decoding_kb p_network_kev p_decoding_kev].
  split; intros Hlt.
  - rewrite Z.div_small by lia. split; reflexivity.
  - rewrite Z.div_small by lia. split; reflexivity.
Qed.

(** ** More on [process_read] *)

Lemma bind_ext (A B : Type) (m : M A) (k1 k2 : A -> M B) t :
  (forall a t1, k1 a t1 = k2 a t1) -> bind m k1 t = bind m k2 t.
Proof. intros H. unfold bind. destruct (m t); auto. Qed.

Lemma bind_cong (A B : Type) (m1 m2 : M A) (k : A -> M B) t :
  m1 t = m2 t -> bind m1 k t = bind m2 k t.
Proof. intros H. unfold bind. now rewrite H. Qed.

Lemma for_each_ext (A S : Type) (b1 b2 : S -> A -> M S) l :
  (forall s a t, b1 s a t = b2 s a t) ->
  forall s t, for_each b1 l s t = for_each b2 l s t.
Proof.
  intros H. induction l as [|a l IH]; intros s t; cbn [for_each].
  - reflexivity.
  - unfold bind. rewrite H. destruct (b2 s a t); auto.
Qed.

Section ProcessReadMore.

Variables features events network : Type.
Variable clock : nat -> Q.
Variable np_load : string -> res network.
Variable meta_window : network -> Z.
Variable meta_kmers : network -> list string.
Variable make_basecall_input_multi :
  string -> kwargs -> res (list (string * features * events)).
Variable astype : features -> features.
Variable network_run : network -> features -> res matrix.
Variable network_run_opencl :
  network -> list features -> cl_context -> list cl_queue ->
  res (list matrix).
Variable cl_get_platforms : list cl_platform.
Variable estimate_transitions : matrix -> option (list Q) -> res (list Q).
Variable decode_profile :
  matrix -> list npfloat -> res (npfloat * list nat).
Variable decode_profile_opencl :
  cl_context -> list cl_queue -> list matrix -> list (list npfloat) ->
  nat -> res (list npfloat * list (list nat)).
Variable ln : Q -> Q.
Variable kmers_to_sequence : list string -> res string.
Variable write_events_table :
  string -> events -> list bool -> matrix -> list string -> list nat ->
  string -> res (option string).

Let feature_step' :=
  feature_step clock make_basecall_input_multi astype network_run.
Let run_network' :=
  run_network clock np_load meta_window make_basecall_input_multi astype
    network_run network_run_opencl cl_get_platforms.
Let decode_reads' :=
  decode_reads (features:=features) (events:=events) clock meta_kmers
    estimate_transitions decode_profile decode_profile_opencl ln
    kmers_to_sequence.
Let process_read' :=
  process_read clock np_load meta_window meta_kmers
    make_basecall_input_multi astype network_run network_run_opencl
    cl_get_platforms estimate_transitions decode_profile
    decode_profile_opencl ln kmers_to_sequence write_events_table.
Let process_read_body' :=
  process_read_body clock np_load meta_window meta_kmers
    make_basecall_input_multi astype network_run network_run_opencl
    cl_get_platforms estimate_transitions decode_profile
    decode_profile_opencl ln kmers_to_sequence write_events_table.
Let prepared' := prepared make_basecall_input_multi.
Let read_ok' := read_ok make_basecall_input_multi astype network_run.
Let post_step' := post_step meta_kmers estimate_transitions ln.
Let write_step' := write_step (features:=features) clock write_events_table.

(** *** The first read that fails *)

Lemma feature_step_ok net kw we oc st g t :
  read_ok' oc net kw g ->
  exists st', feature_step' net kw we oc st g t =
              Next st' (t + (if oc then 2 else 3)).
Proof.
  intros (name & feats & evs & l & E & Hnet).
  unfold feature_step', feature_step, bind, default_timer. rewrite E.
  destruct oc.
  - eexists. unfold ret. f_equal. lia.
  - destruct (Hnet eq_refl) as [post Ep]. rewrite Ep. cbn [lift].
    unfold ret. eexists. f_equal. lia.
Qed.

Lemma feature_loop_ok net kw we oc l : forall st t,
  Forall (read_ok' oc net kw) l ->
  exists st' t', for_each (feature_step' net kw we oc) l st t = Next st' t'.
Proof.
  induction l as [|g l IH]; intros st t Hall; cbn [for_each].
  - eexists. eexists. reflexivity.
  - inversion Hall as [|? ? Hg Hl]; subst.
    destruct (feature_step_ok net kw we oc st g t Hg) as [st1 E1].
    unfold bind. rewrite E1. apply IH. exact Hl.
Qed.

Lemma feature_step_unprepared net kw we oc st f t :
  ~ prepared' kw f ->
  feature_step' net kw we oc st f t = Exit (Returned RetNone).
Proof.
  intros Hf. unfold feature_step', feature_step, bind, default_timer.
  destruct (make_basecall_input_multi f kw) as [[|x l]|e] eqn:E;
    try reflexivity.
  exfalso. apply Hf. exists x, l. exact E.
Qed.

Lemma feature_step_network_error net kw we st f t name feats evs l e :
  make_basecall_input_multi f kw = Ok ((name, feats, evs) :: l) ->
  network_run net (astype feats) = Raise e ->
  feature_step' net kw we false st f t = Exit (Raised e).
Proof.
  intros E He. unfold feature_step', feature_step, bind, default_timer.
  rewrite E, He. reflexivity.
Qed.

(** X11.  The reads of a unit are prepared one after the other and the
    first one that fails decides: when the model loads and every read
    before [f] goes through, then the unit returns [None] if the features
    of [f] cannot be prepared, and on the CPU it raises the exception of
    the network if the network fails on [f].  The reads after [f] are not
    looked at, and the results of the reads before it are lost. *)
Theorem first_failure_decides modelfile pa min_prob trans post_only
    write_events kw net pre f post :
  np_load modelfile = Ok net ->
  fast5_files pa = pre ++ f :: post ->
  Forall (read_ok' (use_opencl pa) net (set_window (meta_window net) kw))
         pre ->
  (~ prepared' (set_window (meta_window net) kw) f ->
   process_read' modelfile pa min_prob trans post_only write_events kw =
   Returned RetNone) /\
  (forall name feats evs l e,
     use_opencl pa = false ->
     make_basecall_input_multi f (set_window (meta_window net) kw) =
       Ok ((name, feats, evs) :: l) ->
     network_run net (astype feats) = Raise e ->
     process_read' modelfile pa min_prob trans post_only write_events kw =
     Raised e).
Proof.
  intros Hn Hfiles Hpre.
  assert (Hhead : forall o,
    (forall st t,
       feature_step' net (set_window (meta_window net) kw) write_events
         (use_opencl pa) st f t = Exit o) ->
    process_read' modelfile pa min_prob trans post_only write_events kw = o).
  { intros o Hstep.
    unfold process_read', process_read, run, process_read_body, run_network.
    unfold bind at 1. unfold bind at 1. unfold default_timer at 1.
    unfold bind at 1. rewrite Hn. cbn [lift]. unfold ret at 1.
    unfold bind at 1. unfold default_timer at 1. unfold bind at 1.
    rewrite Hfiles. fold feature_step'. rewrite for_each_app.
    destruct (feature_loop_ok net (set_window (meta_window net) kw)
                write_events (use_opencl pa) pre
                (empty_feat features events) 2%nat Hpre) as (st1 & t1 & E1).
    rewrite (bind_eq_Next _ _ _ _ _ _ _ E1). cbn [for_each].
    unfold bind at 1. rewrite Hstep. reflexivity. }
  split.
  - intros Hf. apply Hhead. intros st t.
    now apply feature_step_unprepared.
  - intros name feats evs l e Ho E He. apply Hhead. intros st t.
    rewrite Ho. eapply feature_step_network_error; eauto.
Qed.

(** X12.  A CPU unit with no file is not an error: when the model loads
    [process_read] returns the empty list, with [post_only] too (there is
    no first read whose posteriors could be returned). *)
Theorem empty_cpu_unit modelfile pa min_prob trans post_only write_events
    kw net :
  np_load modelfile = Ok net ->
  fast5_files pa = [] ->
  use_opencl pa = false ->
  process_read' modelfile pa min_prob trans post_only write_events kw =
  Returned (RetList []).
Proof.
  intros Hn Hfiles Ho.
  unfold process_read', process_read, run, process_read_body, run_network,
    decode_reads, write_reads, opencl_stage, decode_stage.
  rewrite Hfiles, Ho. unfold bind, default_timer. rewrite Hn.
  cbn [lift]. unfold ret. cbn [List.length seq for_each].
  unfold ret. destruct write_events; reflexivity.
Qed.

(** *** A table without the bad k-mer *)

Lemma post_step_mask net min_prob trans post_only st x t st' t' init lastk :
  meta_kmers net = init ++ [lastk] ->
  is_bad_kmer lastk = false ->
  post_step' net min_prob trans post_only st x t = Next st' t' ->
  good_events_list st' = good_events_list st.
Proof.
  intros Hk Hbad. unfold post_step', post_step. intros H.
  apply bind_Next in H. destruct H as (post0 & t1 & H1 & H).
  apply index_Next in H1. destruct H1 as [_ ->].
  rewrite Hk in H.
  rewrite (bind_eq_Next _ _ _ _ _ _ _ (last_kmer_ok init lastk t)) in H.
  rewrite Hbad in H. unfold bind at 1 in H. unfold ret at 1 in H.
  destruct post_only; [discriminate H|].
  apply bind_Next in H. destruct H as (tr & t3 & _ & H).
  apply ret_Next in H. destruct H as [<- _]. reflexivity.
Qed.

Lemma post_loop_mask net min_prob trans post_only init lastk l :
  meta_kmers net = init ++ [lastk] ->
  is_bad_kmer lastk = false ->
  forall st t st' t',
    for_each (post_step' net min_prob trans post_only) l st t = Next st' t' ->
    good_events_list st' = good_events_list st.
Proof.
  intros Hk Hbad. induction l as [|x l IH]; intros st t st' t' H;
    cbn [for_each] in H.
  - apply ret_Next in H. now destruct H as [<- _].
  - apply bind_Next in H. destruct H as (st1 & t1 & H1 & H2).
    apply (post_step_mask _ _ _ _ _ _ _ _ _ _ _ Hk Hbad) in H1.
    apply IH in H2. congruence.
Qed.

Lemma write_step_no_mask fast5 load_time fs ps scores states kps sqs dtl r x
    t :
  good_events_list ps = [] ->
  write_step' fast5 load_time fs ps scores states kps sqs dtl r x t =
  Exit (Raised IndexError).
Proof.
  intros Hm. unfold write_step', write_step, bind, default_timer, index.
  rewrite Hm.
  repeat match goal with
         | |- context [nth_error ?l x] =>
             lazymatch l with
             | [] => fail
             | _ => destruct (nth_error l x); unfold ret, raise;
                    [|reflexivity]
             end
         end.
  destruct x; reflexivity.
Qed.

(** X13.  With [write_events] on, the mask of the kept events is looked up
    for every read, but it is only made when the table of k-mers ends in
    the bad k-mer.  With a table that does not, a unit that is not empty
    and whose reads are all decoded raises [IndexError] before anything is
    written: no result comes back. *)
Theorem no_bad_kmer_no_results modelfile pa min_prob trans kw load_time net
    cs fs t d t' init lastk :
  run_network' modelfile pa true kw 0%nat =
    Next (load_time, net, cs, fs) t ->
  decode_reads' pa min_prob trans false net cs fs t = Next d t' ->
  fast5_files pa <> [] ->
  meta_kmers net = init ++ [lastk] ->
  is_bad_kmer lastk = false ->
  process_read' modelfile pa min_prob trans false true kw =
  Raised IndexError.
Proof.
  intros Hrun Hdec Hne Hk Hbad.
  assert (Hm : good_events_list (d_post d) = []).
  { unfold decode_reads', decode_reads in Hdec.
    apply bind_Next in Hdec. destruct Hdec as (t3 & t1 & _ & H).
    apply bind_Next in H. destruct H as (ps & t2 & H1 & H).
    apply (post_loop_mask _ _ _ _ _ _ _ Hk Hbad) in H1. cbn in H1.
    apply bind_Next in H. destruct H as ([scores states] & t4 & _ & H).
    apply bind_Next in H. destruct H as ([kps sqs] & t5 & _ & H).
    apply bind_Next in H. destruct H as (t6 & t7 & _ & H).
    apply ret_Next in H. destruct H as [<- _]. exact H1. }
  unfold process_read', process_read, run, process_read_body.
  unfold run_network' in Hrun. unfold decode_reads' in Hdec.
  rewrite (bind_eq_Next _ _ _ _ _ _ _ Hrun).
  rewrite (bind_eq_Next _ _ _ _ _ _ _ Hdec).
  unfold write_reads.
  destruct (fast5_files pa) as [|f l] eqn:Ef; [congruence|].
  cbn [List.length seq for_each]. unfold bind at 1. unfold bind at 1.
  fold write_step'.
  rewrite write_step_no_mask by exact Hm. reflexivity.
Qed.

(** *** [post_only] again *)

Variable decode_profile2 :
  matrix -> list npfloat -> res (npfloat * list nat).
Variable decode_profile_opencl2 :
  cl_context -> list cl_queue -> list matrix -> list (list npfloat) ->
  nat -> res (list npfloat * list (list nat)).
Variable kmers_to_sequence2 : list string -> res string.
Variable write_events_table2 :
  string -> events -> list bool -> matrix -> list string -> list nat ->
  string -> res (option string).

Lemma post_step_only_exits net min_prob trans st x t :
  exists o, post_step' net min_prob trans true st x t = Exit o.
Proof.
  destruct (post_step' net min_prob trans true st x t) as [st' t'|o] eqn:E;
    [|eauto].
  exfalso. unfold post_step', post_step in E.
  apply bind_Next in E. destruct E as (post0 & t1 & _ & H).
  apply bind_Next in H. destruct H as (lastk & t2 & _ & H).
  apply bind_Next in H. destruct H as ([post1 gel] & t3 & _ & H).
  discriminate H.
Qed.

(** X14.  With [post_only] set and a unit that is not empty, the decoder,
    [kmers_to_sequence] and the writer of the event table are never
    reached: [process_read] ends the same way whatever they do, and never
    with a list of results. *)
Theorem post_only_skips_decoding modelfile pa min_prob trans write_events
    kw :
  fast5_files pa <> [] ->
  process_read' modelfile pa min_prob trans true write_events kw =
  process_read clock np_load meta_window meta_kmers
    make_basecall_input_multi astype network_run network_run_opencl
    cl_get_platforms estimate_transitions decode_profile2
    decode_profile_opencl2 ln kmers_to_sequence2 write_events_table2
    modelfile pa min_prob trans true write_events kw /\
  not_a_list
    (process_read' modelfile pa min_prob trans true write_events kw).
Proof.
  intros Hne.
  assert (Hexit : forall dp dpo kts wet,
    exists o,
      process_read_body clock np_load meta_window meta_kmers
        make_basecall_input_multi astype network_run network_run_opencl
        cl_get_platforms estimate_transitions dp dpo ln kts wet modelfile
        pa min_prob trans true write_events kw 0%nat = Exit o /\
      forall dp' dpo' kts' wet',
        process_read_body clock np_load meta_window meta_kmers
          make_basecall_input_multi astype network_run network_run_opencl
          cl_get_platforms estimate_transitions dp' dpo' ln kts' wet'
          modelfile pa min_prob trans true write_events kw 0%nat = Exit o).
  { intros dp dpo kts wet. unfold process_read_body.
    destruct (run_network' modelfile pa write_events kw 0%nat)
      as [[[[load_time net] cs] fs] t1|o] eqn:E.
    - unfold run_network' in E.
      destruct (fast5_files pa) as [|f l] eqn:Ef; [congruence|].
      destruct (post_step_only_exits net min_prob trans
                  (mkPost (post_list fs) [] []) 0%nat (S t1)) as [o Ho].
      exists o. unfold post_step' in Ho.
      split; [|intros dp' dpo' kts' wet'];
        rewrite (bind_eq_Next _ _ _ _ _ _ _ E);
        unfold decode_reads; rewrite Ef; cbn [List.length seq for_each];
        unfold bind at 1; unfold bind at 1; unfold default_timer at 1;
        unfold bind at 1; unfold bind at 1; rewrite Ho; reflexivity.
    - unfold run_network' in E. exists o.
      split; [|intros dp' dpo' kts' wet'];
        rewrite (bind_eq_Exit _ _ _ _ _ _ E); reflexivity. }
  destruct (Hexit decode_profile decode_profile_opencl kmers_to_sequence
              write_events_table) as (o & Ho & Hall).
  unfold process_read', process_read, run.
  rewrite Ho, (Hall decode_profile2 decode_profile_opencl2
                 kmers_to_sequence2 write_events_table2).
  split; [reflexivity|].
  eapply (body_exits_not_list _ _ _ clock np_load meta_window meta_kmers
            make_basecall_input_multi astype network_run network_run_opencl
            cl_get_platforms estimate_transitions decode_profile
            decode_profile_opencl ln kmers_to_sequence write_events_table).
  exact Ho.
Qed.

(** *** The file that is written *)

(** X15.  Whatever the number of reads of a unit, the event tables and
    fastq records of all of them are written to one file, the last file of
    the unit (the loop variable [fast5] of the first loop is used after
    that loop): two writers that agree on that file give the same
    outcome. *)
Theorem only_last_file_written modelfile pa min_prob trans post_only
    write_events kw :
  (forall evs good post path states sq,
     write_events_table (last (fast5_files pa) EmptyString) evs good post
       path states sq =
     write_events_table2 (last (fast5_files pa) EmptyString) evs good post
       path states sq) ->
  process_read' modelfile pa min_prob trans post_only write_events kw =
  process_read clock np_load meta_window meta_kmers
    make_basecall_input_multi astype network_run network_run_opencl
    cl_get_platforms estimate_transitions decode_profile
    decode_profile_opencl ln kmers_to_sequence write_events_table2
    modelfile pa min_prob trans post_only write_events kw.
Proof.
  intros H.
  assert (E : forall t,
    process_read_body' modelfile pa min_prob trans post_only write_events kw
      t =
    process_read_body clock np_load meta_window meta_kmers
      make_basecall_input_multi astype network_run network_run_opencl
      cl_get_platforms estimate_transitions decode_profile
      decode_profile_opencl ln kmers_to_sequence write_events_table2
      modelfile pa min_prob trans post_only write_events kw t).
  { intros t. unfold process_read_body', process_read_body. apply bind_ext.
    intros [[[load_time net] cs] fs] t1. apply bind_ext. intros d t2.
    unfold write_reads. destruct write_events; [|reflexivity].
    apply bind_cong. apply for_each_ext. intros r x t'.
    unfold write_step. repeat (apply bind_ext; intros ? ?).
    rewrite H. reflexivity. }
  unfold process_read', process_read, run. fold process_read_body'.
  rewrite E. reflexivity.
Qed.

(** *** What is reported for a read *)

Lemma write_step_full fast5 load_time fs ps scores states kps sqs dtl r x t
    r' t' :
  write_step' fast5 load_time fs ps scores states kps sqs dtl r x t =
  Next r' t' ->
  t' = (t + 2)%nat /\
  exists res name post evs good path sts sq rid,
    r' = r ++ [res] /\
    nth_error (name_list fs) x = Some name /\
    nth_error (ps_post_list ps) x = Some post /\
    nth_error (good_events_list ps) x = Some good /\
    write_events_table fast5 evs good post path sts sq = Ok rid /\
    r_name res = match rid with Some n => n | None => name end /\
    r_n_ev res = List.length post /\
    nth_error (feature_time_list fs) x = Some (t_feature (r_time res)) /\
    t_load (r_time res) = load_time /\
    t_write (r_time res) = clock (t + 1) - clock t.
Proof.
  unfold write_step', write_step. intros H. inv_run H.
  split; [lia|].
  eexists _, _, _, _, _, _, _, _, _. split; [reflexivity|].
  cbn [r_name r_n_ev r_time t_feature t_load t_write].
  replace (t + 1)%nat with (S t) by lia.
  repeat split; eauto.
Qed.

Lemma write_loop_items fast5 load_time fs ps scores states kps sqs dtl k :
  forall a r t r' t',
    for_each (write_step' fast5 load_time fs ps scores states kps sqs dtl)
             (seq a k) r t = Next r' t' ->
    t' = (t + 2 * k)%nat /\
    exists new,
      r' = r ++ new /\ List.length new = k /\
      forall j res, nth_error new j = Some res ->
        exists r0,
          write_step' fast5 load_time fs ps scores states kps sqs dtl r0
            (a + j)%nat (t + 2 * j)%nat =
          Next (r0 ++ [res]) (t + 2 * j + 2)%nat.
Proof.
  induction k as [|k IH]; intros a r t r' t' H; cbn [seq for_each] in H.
  - apply ret_Next in H. destruct H as [<- ->]. split; [lia|].
    exists []. rewrite app_nil_r. split; [reflexivity|].
    split; [reflexivity|]. intros [|j] res Hj; discriminate.
  - apply bind_Next in H. destruct H as (r1 & t1 & H1 & H2).
    pose proof (write_step_full _ _ _ _ _ _ _ _ _ _ _ _ _ _ H1)
      as (Ht1 & res & name & post & evs & good & path & sts & sq & rid
          & Er1 & _).
    subst t1 r1.
    apply IH in H2. destruct H2 as (-> & new & -> & Hlen & Hnew).
    split; [lia|]. exists (res :: new). rewrite <- app_assoc.
    split; [reflexivity|]. split; [cbn; lia|].
    intros [|j] res' Hj; cbn in Hj.
    + inversion Hj; subst res'. exists r.
      replace (a + 0)%nat with a by lia.
      replace (t + 2 * 0)%nat with t by lia.
      replace (t + 2)%nat with (t + 2)%nat in H1 by lia. exact H1.
    + destruct (Hnew j res' Hj) as [r0 Hr0]. exists r0.
      replace (a + S j)%nat with (S a + j)%nat by lia.
      replace (t + 2 * S j)%nat with (t + 2 + 2 * j)%nat by lia.
      exact Hr0.
Qed.

(** The list returned with [write_events] on, taken apart. *)
Lemma returned_list modelfile pa min_prob trans post_only kw ret :
  process_read' modelfile pa min_prob trans post_only true kw =
    Returned (RetList ret) ->
  exists load_time net cs fs t d,
    run_network' modelfile pa true kw 0%nat =
      Next (load_time, net, cs, fs) t /\
    decode_reads' pa min_prob trans post_only net cs fs t =
      Next d (t + 2)%nat /\
    List.length ret = List.length (fast5_files pa) /\
    forall x res, nth_error ret x = Some res ->
      exists r0,
        write_step' (last (fast5_files pa) EmptyString) load_time fs
          (d_post d) (score_list d) (states_list d) (kmer_path_list d)
          (seq_list d) (decode_time_list d) r0 x (t + 2 + 2 * x)%nat =
        Next (r0 ++ [res]) (t + 2 + 2 * x + 2)%nat.
Proof.
  intros H.
  apply (process_read_list _ _ _ clock np_load meta_window meta_kmers
           make_basecall_input_multi astype network_run network_run_opencl
           cl_get_platforms estimate_transitions decode_profile
           decode_profile_opencl ln kmers_to_sequence write_events_table)
    in H.
  destruct H as [t0 H]. unfold process_read_body in H.
  apply bind_Next in H.
  destruct H as ([[[load_time net] cs] fs] & t1 & Hrun & H).
  apply bind_Next in H. destruct H as (d & t2 & Hdec & H).
  pose proof Hdec as Hdec'. apply decode_reads_next in Hdec'.
  destruct Hdec' as [-> _].
  unfold write_reads in H.
  apply bind_Next in H. destruct H as (r0 & t3 & Hw & H).
  apply ret_Next in H. destruct H as [E _]. inversion E; subst r0; clear E.
  fold write_step' in Hw. apply write_loop_items in Hw.
  destruct Hw as (_ & new & E & Hlen & Hnew). cbn [app] in E. subst new.
  exists load_time, net, cs, fs, t1, d.
  split; [exact Hrun|]. split; [exact Hdec|]. split; [exact Hlen|].
  intros x res Hx. destruct (Hnew x res Hx) as [r0 Hr0].
  exists r0. exact Hr0.
Qed.

(** X16.  When the file a unit writes to (its last file) carries a read
    id, every read of the unit is reported under that id: in a unit of
    several reads the names that feature preparation gave to the other
    reads are replaced by the id of the last file. *)
Theorem unit_named_after_last_file modelfile pa min_prob trans post_only kw
    ret rid :
  process_read' modelfile pa min_prob trans post_only true kw =
    Returned (RetList ret) ->
  (forall evs good post path states sq o,
     write_events_table (last (fast5_files pa) EmptyString) evs good post
       path states sq = Ok o -> o = Some rid) ->
  forall r, In r ret -> r_name r = rid.
Proof.
  intros H Hid r Hr. apply returned_list in H.
  destruct H as (load_time & net & cs & fs & t & d & _ & _ & _ & Hitems).
  apply In_nth_error in Hr. destruct Hr as [x Hx].
  destruct (Hitems x r Hx) as [r0 Hw].
  apply write_step_full in Hw.
  destruct Hw as (_ & res & name & post & evs & good & path & sts & sq & o
                  & E & _ & _ & _ & Hwrite & Hname & _).
  apply app_inj_tail in E. destruct E as [_ <-].
  rewrite (Hid _ _ _ _ _ _ _ Hwrite) in Hname. exact Hname.
Qed.

Lemma feature_loop_times net kw we oc l : forall st t st' t',
  for_each (feature_step' net kw we oc) l st t = Next st' t' ->
  feature_time_list st' =
  feature_time_list st ++
  map (fun x => clock (t + (if oc then 2 else 3) * x + 1) -
                clock (t + (if oc then 2 else 3) * x))
      (seq 0 (List.length l)).
Proof.
  induction l as [|f l IH]; intros st t st' t' H; cbn [for_each] in H.
  - apply ret_Next in H. destruct H as [<- _]. cbn. now rewrite app_nil_r.
  - apply bind_Next in H. destruct H as (s1 & t1 & H1 & H2).
    apply (feature_step_next _ _ _ clock make_basecall_input_multi astype
             network_run) in H1.
    destruct H1 as (-> & _ & _ & Hft & _).
    apply IH in H2. rewrite H2, Hft, <- app_assoc. f_equal.
    cbn [List.length seq map app]. f_equal.
    + f_equal; f_equal; lia.
    + rewrite <- seq_shift, map_map. apply map_ext. intros x.
      f_equal; f_equal; lia.
Qed.

Lemma run_network_feature_times modelfile pa we kw load_time net cs fs t' :
  run_network' modelfile pa we kw 0%nat = Next (load_time, net, cs, fs) t' ->
  feature_time_list fs =
  map (fun x => clock ((if use_opencl pa then 2 else 3) * x + 3) -
                clock ((if use_opencl pa then 2 else 3) * x + 2))
      (seq 0 (List.length (fast5_files pa))).
Proof.
  unfold run_network', run_network. intros H.
  apply bind_Next in H. destruct H as (t0 & t1 & H1 & H).
  unfold default_timer in H1. inversion H1; subst; clear H1.
  apply bind_Next in H. destruct H as (net' & t1 & H1 & H).
  apply lift_Next in H1. destruct H1 as [_ ->].
  apply bind_Next in H. destruct H as (t1' & t1 & H1 & H).
  unfold default_timer in H1. inversion H1; subst; clear H1.
  apply bind_Next in H. destruct H as (fs0 & t1 & H1 & H).
  fold feature_step' in H1. apply feature_loop_times in H1.
  apply bind_Next in H. destruct H as ([cs' fs'] & t2 & H2 & H).
  apply opencl_stage_next in H2.
  apply ret_Next in H. destruct H as [E _]. inversion E; subst; clear E.
  cbn [empty_feat feature_time_list app] in H1.
  assert (Hft : feature_time_list fs = feature_time_list fs0).
  { destruct (use_opencl pa).
    - destruct H2 as (_ & _ & _ & _ & ->). reflexivity.
    - destruct H2 as (_ & ->). reflexivity. }
  rewrite Hft, H1. apply map_ext. intros x. f_equal; f_equal; lia.
Qed.

(** X17.  In the list a unit returns, every read carries the full time of
    loading the model (the first two readings of the timer), so a unit of
    [k] reads adds the load time [k] times to the total of the run; the
    feature time of a read is measured around its own preparation and the
    write time around its own write. *)
Theorem other_times_of_a_read modelfile pa min_prob trans post_only kw ret :
  process_read' modelfile pa min_prob trans post_only true kw =
    Returned (RetList ret) ->
  let n := List.length (fast5_files pa) in
  let c := if use_opencl pa then 2%nat else 3%nat in
  let start := if use_opencl pa then (2 * n + 6)%nat else (3 * n + 5)%nat in
  forall x r, nth_error ret x = Some r ->
    t_load (r_time r) = clock 1 - clock 0 /\
    t_feature (r_time r) = clock (c * x + 3) - clock (c * x + 2) /\
    t_write (r_time r) =
      clock (start + 2 * x + 1) - clock (start + 2 * x).
Proof.
  intros H n c start x r Hx. apply returned_list in H.
  destruct H as (load_time & net & cs & fs & t & d & Hrun & _ & Hlen
                 & Hitems).
  pose proof (run_network_feature_times _ _ _ _ _ _ _ _ _ Hrun) as Hft.
  apply (run_network_next _ _ _ clock np_load meta_window
           make_basecall_input_multi astype network_run network_run_opencl
           cl_get_platforms) in Hrun.
  cbn [Nat.add] in Hrun. destruct Hrun as (_ & Hload & Ht & _).
  destruct (Hitems x r Hx) as [r0 Hw].
  apply write_step_full in Hw.
  destruct Hw as (_ & res & name & post & evs & good & path & sts & sq & o
                  & E & _ & _ & _ & _ & _ & _ & Hf & Hl & Hwt).
  apply app_inj_tail in E. destruct E as [_ <-].
  assert (Hxn : (x < n)%nat)
    by (unfold n; rewrite <- Hlen; apply nth_error_Some; congruence).
  split; [rewrite Hl; exact Hload|]. split.
  - rewrite Hft in Hf. fold n c in Hf.
    rewrite nth_error_map, nth_error_seq in Hf.
    destruct (Nat.ltb_spec x n); [|lia]. cbn in Hf. now inversion Hf.
  - rewrite Hwt. fold n in Ht. unfold start.
    destruct (use_opencl pa); subst t; f_equal; f_equal; lia.
Qed.

(** *** The number of events of a read *)

Lemma mask_rows_length (A : Type) (a : list A) : forall mask,
  (List.length (mask_rows a mask) <= List.length a)%nat.
Proof.
  induction a as [|x a IH]; intros [|b mask]; cbn; try lia.
  specialize (IH mask). destruct b; cbn; lia.
Qed.

Lemma post_step_rows net min_prob trans post_only st x t st' t' :
  post_step' net min_prob trans post_only st x t = Next st' t' ->
  exists post0 post' init lastk,
    nth_error (ps_post_list st) x = Some post0 /\
    ps_post_list st' = set_nth (ps_post_list st) x post' /\
    meta_kmers net = init ++ [lastk] /\
    if is_bad_kmer lastk then
      exists max_call,
        argmax_rows post0 = Ok max_call /\
        List.length post' =
        List.length
          (mask_rows post0
             (map (fun i => negb (Z.of_nat i =?
                                  Z.of_nat (shape1 post0) - 1)%Z)
                  max_call))
    else List.length post' = List.length post0.
Proof.
  unfold post_step', post_step. intros H.
  apply bind_Next in H. destruct H as (post0 & t1 & H1 & H).
  apply index_Next in H1. destruct H1 as [Hx ->].
  apply bind_Next in H. destruct H as (lastk & t1 & H1 & H).
  apply index_Next in H1. destruct H1 as [Hk ->].
  assert (Hkm : exists init, meta_kmers net = init ++ [lastk]).
  { destruct (@exists_last _ (meta_kmers net)) as (init & l & E).
    - intros E. rewrite E in Hk. discriminate Hk.
    - exists init. rewrite E in Hk |- *. rewrite length_app in Hk.
      cbn [List.length] in Hk.
      replace (List.length init + 1 - 1)%nat with (List.length init)
        in Hk by lia.
      rewrite nth_error_app2, Nat.sub_diag in Hk by lia.
      cbn in Hk. now inversion Hk. }
  destruct Hkm as [init Hkm].
  apply bind_Next in H. destruct H as ([post1 gel] & t2 & H1 & H).
  destruct post_only; [discriminate H|].
  apply bind_Next in H. destruct H as (tr & t3 & _ & H).
  apply ret_Next in H. destruct H as [<- _]. cbn [ps_post_list].
  exists post0, (floor_post min_prob (normalise post1)), init, lastk.
  split; [exact Hx|]. split; [reflexivity|]. split; [exact Hkm|].
  unfold floor_post, normalise. rewrite !length_map.
  destruct (is_bad_kmer lastk).
  - apply bind_Next in H1. destruct H1 as ([p ge] & t4 & H1 & H2).
    apply ret_Next in H2. destruct H2 as [E _]. inversion E; subst; clear E.
    unfold strip_bad in H1.
    apply bind_Next in H1. destruct H1 as (mc & t5 & H1 & H2).
    apply lift_Next in H1. destruct H1 as [Hmc _].
    apply ret_Next in H2. destruct H2 as [E _]. inversion E; subst; clear E.
    exists mc. split; [exact Hmc|].
    unfold drop_last_col. now rewrite length_map.
  - apply ret_Next in H1. destruct H1 as [E _]. now inversion E.
Qed.

Lemma post_loop_rows net min_prob trans post_only k :
  forall a st t st' t',
    for_each (post_step' net min_prob trans post_only) (seq a k) st t =
    Next st' t' ->
    forall j, (j < k)%nat ->
      exists post0 post' init lastk,
        nth_error (ps_post_list st) (a + j) = Some post0 /\
        nth_error (ps_post_list st') (a + j) = Some post' /\
        meta_kmers net = init ++ [lastk] /\
        if is_bad_kmer lastk then
          exists max_call,
            argmax_rows post0 = Ok max_call /\
            List.length post' =
            List.length
              (mask_rows post0
                 (map (fun i => negb (Z.of_nat i =?
                                      Z.of_nat (shape1 post0) - 1)%Z)
                      max_call))
        else List.length post' = List.length post0.
Proof.
  induction k as [|k IH]; intros a st t st' t' H j Hj; [lia|].
  cbn [seq for_each] in H.
  apply bind_Next in H. destruct H as (st1 & t1 & H1 & H2).
  pose proof H2 as Hloop.
  apply (post_loop_next _ meta_kmers estimate_transitions ln) in Hloop.
  destruct Hloop as (_ & Hkeep & _).
  pose proof H1 as Hstep. apply post_step_rows in Hstep.
  destruct Hstep as (post0 & post' & init & lastk & Hx & Hpl & Hk & Hrel).
  destruct j as [|j].
  - rewrite Nat.add_0_r. exists post0, post', init, lastk.
    split; [exact Hx|]. split; [|split; assumption].
    rewrite Hkeep by lia. rewrite Hpl.
    apply nth_error_set_nth_eq. apply nth_error_Some. congruence.
  - destruct (IH (S a) st1 t1 st' t' H2 j ltac:(lia))
      as (q0 & q' & init' & lastk' & Hq0 & Hq' & Hk' & Hrel').
    replace (a + S j)%nat with (S a + j)%nat by lia.
    exists q0, q', init', lastk'.
    split; [|split; [exact Hq'|split; assumption]].
    rewrite Hpl in Hq0. rewrite nth_error_set_nth_neq in Hq0 by lia.
    exact Hq0.
Qed.

Lemma decode_reads_post pa min_prob trans post_only net cs fs t d t' :
  decode_reads' pa min_prob trans post_only net cs fs t = Next d t' ->
  for_each (post_step' net min_prob trans post_only)
           (seq 0 (List.length (fast5_files pa)))
           (mkPost (post_list fs) [] []) (S t) = Next (d_post d) (S t).
Proof.
  unfold decode_reads', decode_reads. intros H.
  apply bind_Next in H. destruct H as (t3 & t1 & H1 & H).
  unfold default_timer in H1. inversion H1; subst; clear H1.
  apply bind_Next in H. destruct H as (ps & t1 & H1 & H).
  pose proof H1 as Hp.
  apply (pure_for_each _ _ _ _
           (pure_post_step _ meta_kmers estimate_transitions ln net
              min_prob trans post_only)) in Hp.
  subst t1.
  apply bind_Next in H. destruct H as ([scores states] & t4 & _ & H).
  apply bind_Next in H. destruct H as ([kps sqs] & t5 & _ & H).
  apply bind_Next in H. destruct H as (t6 & t7 & _ & H).
  apply ret_Next in H. destruct H as [<- _]. exact H1.
Qed.

(** X18.  The number of events reported for a read is the number of rows
    of its posterior matrix that are left after the events called as the
    bad k-mer are stripped: never more than the network returned for the
    read, and on a rectangular matrix exactly the events whose most likely
    state is not the last one.  A list of results only comes back when
    the table of k-mers ends in the bad k-mer. *)
Theorem reported_events modelfile pa min_prob trans post_only kw load_time
    net cs fs t ret x r :
  run_network' modelfile pa true kw 0%nat =
    Next (load_time, net, cs, fs) t ->
  process_read' modelfile pa min_prob trans post_only true kw =
    Returned (RetList ret) ->
  nth_error ret x = Some r ->
  exists post0 init lastk,
    nth_error (post_list fs) x = Some post0 /\
    meta_kmers net = init ++ [lastk] /\ is_bad_kmer lastk = true /\
    (r_n_ev r <= List.length post0)%nat /\
    forall K, (1 <= K)%nat ->
      Forall (fun row => List.length row = K) post0 ->
      r_n_ev r = List.length (kept_events post0).
Proof.
  intros Hrun H Hx. apply returned_list in H.
  destruct H as (load_time' & net' & cs' & fs' & t1 & d & Hrun' & Hdec
                 & Hlen & Hitems).
  rewrite Hrun in Hrun'. inversion Hrun'; subst; clear Hrun'.
  destruct (Hitems x r Hx) as [r0 Hw].
  apply write_step_full in Hw.
  destruct Hw as (_ & res & name & post & evs & good & path & sts & sq & o
                  & E & _ & Hpost & Hgood & _ & _ & Hnev & _).
  apply app_inj_tail in E. destruct E as [_ <-].
  assert (Hxn : (x < List.length (fast5_files pa))%nat)
    by (rewrite <- Hlen; apply nth_error_Some; congruence).
  apply decode_reads_post in Hdec.
  pose proof (post_loop_rows _ _ _ _ _ _ _ _ _ _ Hdec x Hxn)
    as (post0 & post' & init & lastk & Hp0 & Hp' & Hk & Hrel).
  cbn [Nat.add ps_post_list] in Hp0, Hp'.
  rewrite Hpost in Hp'. inversion Hp'; subst post'; clear Hp'.
  destruct (is_bad_kmer lastk) eqn:Hbad.
  - destruct Hrel as (mc & Hmc & Hl).
    exists post0, init, lastk. split; [exact Hp0|]. split; [exact Hk|].
    split; [exact Hbad|]. rewrite Hnev, Hl. split.
    + apply mask_rows_length.
    + intros K HK Hrect.
      destruct (mask_is_filter K post0 HK Hrect) as (mc' & E & Hmask & Hfilt).
      rewrite E in Hmc. inversion Hmc; subst mc'; clear Hmc.
      destruct Hrect as [|row rest Hrow Hrest]; [now destruct mc|].
      cbn [shape1]. rewrite Hrow, Hmask, Hfilt. reflexivity.
  - exfalso.
    apply (post_loop_mask _ _ _ _ _ _ _ Hk Hbad) in Hdec.
    cbn [good_events_list] in Hdec. rewrite Hdec in Hgood.
    destruct x; discriminate Hgood.
Qed.

(** *** The device of a unit *)

Lemma py_nth_spec (A : Type) (l : list A) i :
  let n := Z.of_nat (List.length l) in
  py_nth l i =
  if ((- n <=? i) && (i <? n))%Z then nth_error l (Z.to_nat (i mod n))
  else None.
Proof.
  intros n. unfold py_nth. fold n.
  destruct (0 <=? i)%Z eqn:E0.
  - apply Z.leb_le in E0.
    replace (- n <=? i)%Z with true by (symmetry; apply Z.leb_le; lia).
    cbn [andb]. destruct (i <? n)%Z eqn:E1.
    + apply Z.ltb_lt in E1. rewrite Z.mod_small by lia. reflexivity.
    + apply Z.ltb_ge in E1. apply nth_error_None. lia.
  - apply Z.leb_gt in E0.
    replace (i <? n)%Z with true by (symmetry; apply Z.ltb_lt; lia).
    rewrite andb_true_r.
    replace (0 <=? n + i)%Z with (- n <=? i)%Z.
    2:{ destruct (- n <=? i)%Z eqn:E1; symmetry.
        - apply Z.leb_le in E1. apply Z.leb_le. lia.
        - apply Z.leb_gt in E1. apply Z.leb_gt. lia. }
    destruct (- n <=? i)%Z eqn:E1; [|reflexivity].
    apply Z.leb_le in E1. f_equal. f_equal.
    apply (Z.mod_unique i n (-1) (n + i)); lia.
Qed.

Lemma opencl_stage_device net pa (st : feat_state features events) t p rest :
  use_opencl pa = true ->
  matching_platforms (vendor pa) cl_get_platforms = Ok (p :: rest) ->
  let n := Z.of_nat (List.length (gpu_devices p)) in
  (~ (- n <= device_id pa < n)%Z ->
   opencl_stage clock network_run_opencl cl_get_platforms net pa st t =
   Exit (Raised IndexError)) /\
  (forall cs st' t',
     opencl_stage clock network_run_opencl cl_get_platforms net pa st t =
     Next (cs, st') t' ->
     exists device,
       (- n <= device_id pa < n)%Z /\
       nth_error (gpu_devices p) (Z.to_nat (device_id pa mod n)) =
         Some device /\
       ctx cs = Some (mkContext [device]) /\
       max_workgroup_size cs = MAX_WORK_GROUP_SIZE device /\
       queue_list cs =
         repeat (mkQueue (mkContext [device]))
                (List.length (features_list st))).
Proof.
  intros Ho Hm n. split.
  - intros Hr. unfold opencl_stage. rewrite Ho, Hm.
    unfold bind at 1. unfold default_timer at 1.
    unfold bind at 1. cbn [lift]. unfold ret at 1.
    unfold bind at 1. unfold index at 1. cbn [nth_error]. unfold ret at 1.
    unfold bind at 1. unfold index_int.
    rewrite py_nth_spec. fold n.
    destruct ((- n <=? device_id pa) && (device_id pa <? n))%Z eqn:Er;
      [|reflexivity].
    apply andb_true_iff in Er. destruct Er as [E1 E2].
    apply Z.leb_le in E1. apply Z.ltb_lt in E2. exfalso. apply Hr. lia.
  - intros cs st' t' H. unfold opencl_stage in H. rewrite Ho, Hm in H.
    apply bind_Next in H. destruct H as (t2 & t1 & _ & H).
    apply bind_Next in H. destruct H as (pls & t3 & H1 & H).
    apply lift_Next in H1. destruct H1 as [E _].
    inversion E; subst pls; clear E.
    apply bind_Next in H. destruct H as (platform & t4 & H1 & H).
    apply index_Next in H1. destruct H1 as [E _].
    cbn [nth_error] in E. inversion E; subst platform; clear E.
    apply bind_Next in H. destruct H as (device & t5 & H1 & H).
    apply index_int_Next in H1. destruct H1 as [Hd _].
    rewrite py_nth_spec in Hd. fold n in Hd.
    destruct ((- n <=? device_id pa) && (device_id pa <? n))%Z eqn:Er;
      [|discriminate Hd].
    apply andb_true_iff in Er. destruct Er as [E1 E2].
    apply Z.leb_le in E1. apply Z.ltb_lt in E2.
    apply bind_Next in H. destruct H as (pl & t6 & _ & H).
    apply bind_Next in H. destruct H as (t7 & t8 & _ & H).
    apply ret_Next in H. destruct H as [E _]. inversion E; subst; clear E.
    exists device. split; [lia|]. split; [exact Hd|].
    cbn [ctx max_workgroup_size queue_list].
    split; [reflexivity|]. split; [reflexivity|].
    generalize (List.length (features_list st)) as k.
    intros k. generalize 0%nat as a.
    induction k as [|k IH]; intros a; [reflexivity|].
    cbn [seq map repeat]. f_equal. apply IH.
Qed.

(** X19.  A unit on the accelerator takes its device from the first
    matching platform only, at the index [device_id] among the GPU devices
    of that platform, where a negative index counts from the end as in
    any Python list.  With an index out of that range the unit raises
    [IndexError] once the features of its reads are prepared; otherwise
    the context holds that one device, the work-group size is the
    device's, and every read gets a queue of its own on that context. *)
Theorem device_of_a_unit modelfile pa min_prob trans post_only write_events
    kw net p rest :
  np_load modelfile = Ok net ->
  use_opencl pa = true ->
  matching_platforms (vendor pa) cl_get_platforms = Ok (p :: rest) ->
  let n := Z.of_nat (List.length (gpu_devices p)) in
  (Forall (read_ok' true net (set_window (meta_window net) kw))
          (fast5_files pa) ->
   ~ (- n <= device_id pa < n)%Z ->
   process_read' modelfile pa min_prob trans post_only write_events kw =
   Raised IndexError) /\
  (forall load_time net' cs fs t,
     run_network' modelfile pa write_events kw 0%nat =
       Next (load_time, net', cs, fs) t ->
     exists device,
       (- n <= device_id pa < n)%Z /\
       nth_error (gpu_devices p) (Z.to_nat (device_id pa mod n)) =
         Some device /\
       ctx cs = Some (mkContext [device]) /\
       max_workgroup_size cs = MAX_WORK_GROUP_SIZE device /\
       queue_list cs =
         repeat (mkQueue (mkContext [device]))
                (List.length (fast5_files pa))).
Proof.
  intros Hn Ho Hm n. split.
  - intros Hok Hr.
    unfold process_read', process_read, run, process_read_body.
    assert (E : run_network' modelfile pa write_events kw 0%nat =
                Exit (Raised IndexError)).
    { unfold run_network', run_network.
      unfold bind at 1. unfold default_timer at 1.
      unfold bind at 1. rewrite Hn. cbn [lift]. unfold ret at 1.
      unfold bind at 1. unfold default_timer at 1.
      unfold bind at 1. rewrite Ho.
      destruct (feature_loop_ok net (set_window (meta_window net) kw)
                  write_events true (fast5_files pa)
                  (empty_feat features events) 2%nat Hok) as (st' & t' & E).
      unfold feature_step' in E. rewrite E.
      unfold bind at 1.
      rewrite (proj1 (opencl_stage_device net pa st' t' p rest Ho Hm) Hr).
      reflexivity. }
    unfold run_network' in E.
    rewrite (bind_eq_Exit _ _ _ _ _ _ E). reflexivity.
  - intros load_time net' cs fs t H.
    unfold run_network', run_network in H.
    apply bind_Next in H. destruct H as (t0 & t1 & H1 & H).
    unfold default_timer in H1. inversion H1; subst; clear H1.
    apply bind_Next in H. destruct H as (net0 & t1 & H1 & H).
    apply lift_Next in H1. destruct H1 as [En ->].
    rewrite Hn in En. inversion En; subst net0; clear En.
    apply bind_Next in H. destruct H as (t1' & t1 & H1 & H).
    unfold default_timer in H1. inversion H1; subst; clear H1.
    apply bind_Next in H. destruct H as (fs0 & t1 & H1 & H).
    apply (feature_loop_next _ _ _ clock make_basecall_input_multi astype
             network_run) in H1.
    destruct H1 as (_ & Hfl & _).
    cbn [empty_feat features_list List.length Nat.add] in Hfl.
    apply bind_Next in H. destruct H as ([cs' fs'] & t2 & H1 & H).
    apply ret_Next in H. destruct H as [E _]. inversion E; subst; clear E.
    destruct (proj2 (opencl_stage_device net' pa fs0 t1 p rest Ho Hm)
                _ _ _ H1) as (device & Hr & Hd & Hc & Hw & Hq).
    exists device. rewrite <- Hfl. auto.
Qed.

End ProcessReadMore.
(** * Examples of the further properties *)

(** X2 on the first sample read. *)
Lemma floored_rows_witness :
  Forall (fun row =>
            Forall (fun p => Sample.min_prob <= p /\ p <= 1) row /\
            List.length row = 4%nat /\
            Qsum row == 1 + (Qof_nat (List.length row) - 1) * Sample.min_prob)
         (floor_post Sample.min_prob
            (normalise (drop_last_col (kept_events Sample.postA)))).
Proof.
  apply (floored_rows Sample.min_prob 5 Sample.postA).
  - discriminate.
  - discriminate.
  - repeat constructor.
  - row_ok.
Defined.

(** X4 on the sixth group of the command line of four jobs, and on an
    entry with two colons. *)
Lemma plan_unit_entry_witness :
  (exists v d,
     "amd:1"%string = (v ++ ":" ++ d)%string /\
     plan_unit Sample.py_int Sample.args_four_jobs 5 ["r06"%string] =
     match Sample.py_int d with
     | Some id => Ok (mkPA ["r06"%string] true (Some v) id)
     | None => Raise ValueError
     end) /\
  plan_unit Sample.py_int Cases.args_bad_entry 5 ["r06"%string] =
  Raise ValueError.
Proof.
  split.
  - apply (proj1 (plan_unit_entry Sample.py_int Sample.args_four_jobs
                    ["nvidia:0"; "amd:1"]%string 5 ["r06"%string]
                    "amd:1"%string eq_refl ltac:(discriminate) eq_refl
                    ltac:(discriminate) eq_refl)).
    reflexivity.
  - apply (proj2 (plan_unit_entry Sample.py_int Cases.args_bad_entry
                    ["nvidia:0"; "amd:1:2"]%string 5 ["r06"%string]
                    "amd:1:2"%string eq_refl ltac:(discriminate) eq_refl
                    ltac:(discriminate) eq_refl)).
    discriminate.
Defined.

(** X6 on a command line of three jobs without [--opencl]. *)
Lemma plan_without_opencl_witness :
  plan Sample.py_int Sample.iterate_fast5 Cases.args_cpu =
  Ok ([1; 1; 1]%Z,
      map (fun f => process_attr_cpu [f]) Sample.files).
Proof.
  rewrite (plan_without_opencl Sample.py_int Sample.iterate_fast5
             Cases.args_cpu eq_refl).
  reflexivity.
Defined.

(** X7 on what three units gave back. *)
Lemma tally_invariant_witness :
  let s := Cases.tallied Cases.returned in
  n_reads s = List.length (fasta s) /\
  n_bases s = list_sum (map (fun ns => String.length (snd ns)) (fasta s)) /\
  List.length (timings s) = 5%nat.
Proof.
  apply (tally_invariant Cases.returned (Cases.tallied Cases.returned)).
  reflexivity.
Defined.

(** X8 on the same values in another order. *)
Lemma tally_order_independent_witness :
  exists s',
    tally_units tally0 Cases.returned_late = Ok s' /\
    n_reads s' = 3%nat /\ n_bases s' = 14%nat /\ n_events s' = 16%nat /\
    Forall2 Qeq (timings s') (timings (Cases.tallied Cases.returned)) /\
    Permutation (fasta s') (fasta (Cases.tallied Cases.returned)).
Proof.
  apply (tally_order_independent Cases.returned Cases.returned_late
           (Cases.tallied Cases.returned)).
  - unfold Cases.returned, Cases.returned_late.
    apply Permutation_sym.
    apply (Permutation_cons_app [_; _] []). reflexivity.
  - reflexivity.
Defined.

(** X9 with no job: no summary. *)
Lemma summary_fails_iff_witness :
  ~ exists sm,
      summarise 0 10 (mkTally [("read1", "ACGT")]%string 1 4 4 [1; 1; 1; 1; 1])
      = Ok sm.
Proof.
  intros H.
  apply (proj1 (proj1 (summary_fails_iff 0%Z 10 [("read1", "ACGT")]%string
                         1 4 4 1 1 1 1 1))) in H.
  destruct H as [H|[H _]]; [discriminate H|]. apply H. reflexivity.
Defined.

(** X10 on the tally of the three units. *)
Lemma small_run_throughput_witness :
  let p :=
    Cases.profile_of
      (Cases.summary_of (summarise 2 10 (Cases.tallied Cases.returned))) in
  p_network_kb p == 0 /\ p_decoding_kb p == 0 /\
  p_network_kev p == 0 /\ p_decoding_kev p == 0.
Proof.
  intros p.
  destruct (small_run_throughput 2%Z 10 (Cases.tallied Cases.returned)
              (Cases.summary_of
                 (summarise 2 10 (Cases.tallied Cases.returned)))
              p eq_refl eq_refl) as [Hb He].
  destruct (Hb ltac:(vm_compute; lia)) as [H1 H2].
  destruct (He ltac:(vm_compute; lia)) as [H3 H4].
  repeat split; assumption.
Defined.

(** X11 on a unit whose second file cannot be prepared, and on the sample
    unit with a network that fails on its second read. *)
Lemma first_failure_decides_witness :
  Cases.process_read_at Sample.meta_kmers Sample.network_run
    Sample.write_events_table Cases.mixed_unit false true =
  Returned RetNone /\
  Cases.process_read_at Sample.meta_kmers Cases.picky_network
    Sample.write_events_table Sample.cpu_unit false true =
  Raised (ExternalError "network").
Proof.
  split.
  - apply (proj1 (first_failure_decides matrix nat unit Sample.clock
             Sample.np_load Sample.meta_window Sample.meta_kmers
             Sample.make_basecall_input_multi Sample.astype
             Sample.network_run Sample.network_run_opencl
             Sample.cl_get_platforms Sample.estimate_transitions
             (Decoding.decode_profile Sample.ln Sample.kmers)
             (Decoding.decode_profile_opencl Sample.ln Sample.kmers)
             Sample.ln Sample.kmers_to_sequence Sample.write_events_table
             "model.npy"%string Cases.mixed_unit Sample.min_prob None false
             true Sample.kw tt ["a.fast5"%string] "c.fast5"%string
             ["b.fast5"%string] eq_refl eq_refl
             ltac:(repeat constructor;
                   exists "a"%string, Sample.postA, 4%nat, [];
                   split; [reflexivity|]; intros _;
                   exists Sample.postA; reflexivity))).
    intros (x & rest & H). discriminate H.
  - apply (proj2 (first_failure_decides matrix nat unit Sample.clock
             Sample.np_load Sample.meta_window Sample.meta_kmers
             Sample.make_basecall_input_multi Sample.astype
             Cases.picky_network Sample.network_run_opencl
             Sample.cl_get_platforms Sample.estimate_transitions
             (Decoding.decode_profile Sample.ln Sample.kmers)
             (Decoding.decode_profile_opencl Sample.ln Sample.kmers)
             Sample.ln Sample.kmers_to_sequence Sample.write_events_table
             "model.npy"%string Sample.cpu_unit Sample.min_prob None false
             true Sample.kw tt ["a.fast5"%string] "b.fast5"%string
             [] eq_refl eq_refl
             ltac:(repeat constructor;
                   exists "a"%string, Sample.postA, 4%nat, [];
                   split; [reflexivity|]; intros _;
                   exists Sample.postA; reflexivity))
           "b"%string Sample.postB 2%nat [] (ExternalError "network")
           eq_refl eq_refl eq_refl).
Defined.

(** X12 on the unit with no file, with [post_only]. *)
Lemma empty_cpu_unit_witness :
  Cases.process_read_at Sample.meta_kmers Sample.network_run
    Sample.write_events_table Cases.empty_unit true true =
  Returned (RetList []).
Proof.
  apply (empty_cpu_unit matrix nat unit Sample.clock
           Sample.np_load Sample.meta_window Sample.meta_kmers
           Sample.make_basecall_input_multi Sample.astype
           Sample.network_run Sample.network_run_opencl
           Sample.cl_get_platforms Sample.estimate_transitions
           (Decoding.decode_profile Sample.ln Sample.kmers)
           (Decoding.decode_profile_opencl Sample.ln Sample.kmers)
           Sample.ln Sample.kmers_to_sequence Sample.write_events_table
           "model.npy"%string Cases.empty_unit Sample.min_prob None true
           true Sample.kw tt eq_refl eq_refl eq_refl).
Defined.

(** X13 on the sample unit with a table that ends in [CG]. *)
Lemma no_bad_kmer_no_results_witness :
  Cases.process_read_at Cases.plain_kmers Sample.network_run
    Sample.write_events_table Sample.cpu_unit false true =
  Raised IndexError.
Proof.
  pose (st := Sample.value Sample.no_state
                (Sample.network_done Sample.cpu_unit true)).
  apply (no_bad_kmer_no_results matrix nat unit Sample.clock
           Sample.np_load Sample.meta_window Cases.plain_kmers
           Sample.make_basecall_input_multi Sample.astype
           Sample.network_run Sample.network_run_opencl
           Sample.cl_get_platforms Sample.estimate_transitions
           (Decoding.decode_profile Sample.ln (Cases.plain_kmers tt))
           (Decoding.decode_profile_opencl Sample.ln (Cases.plain_kmers tt))
           Sample.ln Sample.kmers_to_sequence Sample.write_events_table
           "model.npy"%string Sample.cpu_unit Sample.min_prob None
           Sample.kw (fst (fst (fst st))) (snd (fst (fst st)))
           (snd (fst st)) (snd st)
           (Sample.ticks (Sample.network_done Sample.cpu_unit true))
           (Sample.value Sample.no_decoded
              (Cases.plain_decode_done Sample.cpu_unit))
           (Sample.ticks (Cases.plain_decode_done Sample.cpu_unit))
           ["AA"; "AC"; "CA"; "CC"]%string "CG"%string).
  - vm_compute. reflexivity.
  - vm_compute. reflexivity.
  - discriminate.
  - reflexivity.
  - reflexivity.
Defined.

(** X14 on the sample unit: the decoder that always fails changes
    nothing. *)
Lemma post_only_skips_decoding_witness :
  Sample.process_read Sample.cpu_unit true true =
  Sample.process_read_with Sample.no_decoder Sample.cpu_unit true true /\
  not_a_list (Sample.process_read Sample.cpu_unit true true).
Proof.
  apply (post_only_skips_decoding matrix nat unit Sample.clock
           Sample.np_load Sample.meta_window Sample.meta_kmers
           Sample.make_basecall_input_multi Sample.astype
           Sample.network_run Sample.network_run_opencl
           Sample.cl_get_platforms Sample.estimate_transitions
           (Decoding.decode_profile Sample.ln Sample.kmers)
           (Decoding.decode_profile_opencl Sample.ln Sample.kmers)
           Sample.ln Sample.kmers_to_sequence Sample.write_events_table
           Sample.no_decoder
           (Decoding.decode_profile_opencl Sample.ln Sample.kmers)
           Sample.kmers_to_sequence Sample.write_events_table
           "model.npy"%string Sample.cpu_unit Sample.min_prob None true
           Sample.kw).
  discriminate.
Defined.

(** X15 on the sample unit: a writer that fails on every file but
    [b.fast5] writes both reads. *)
Lemma only_last_file_written_witness :
  Sample.process_read Sample.cpu_unit false true =
  Cases.process_read_at Sample.meta_kmers Sample.network_run
    Cases.write_b_only Sample.cpu_unit false true.
Proof.
  apply (only_last_file_written matrix nat unit Sample.clock
           Sample.np_load Sample.meta_window Sample.meta_kmers
           Sample.make_basecall_input_multi Sample.astype
           Sample.network_run Sample.network_run_opencl
           Sample.cl_get_platforms Sample.estimate_transitions
           (Decoding.decode_profile Sample.ln Sample.kmers)
           (Decoding.decode_profile_opencl Sample.ln Sample.kmers)
           Sample.ln Sample.kmers_to_sequence Sample.write_events_table
           Cases.write_b_only
           "model.npy"%string Sample.cpu_unit Sample.min_prob None false
           true Sample.kw).
  intros evs good post path states sq. reflexivity.
Defined.

(** X16 on the sample unit: both reads come back under the id of
    [b.fast5]. *)
Lemma unit_named_after_last_file_witness :
  let ret :=
    Sample.results
      (Cases.process_read_at Sample.meta_kmers Sample.network_run
         Cases.write_with_id Sample.cpu_unit false true) in
  List.length ret = 2%nat /\
  forall r, In r ret -> r_name r = "id of b.fast5"%string.
Proof.
  intros ret. split; [vm_compute; reflexivity|].
  apply (unit_named_after_last_file matrix nat unit Sample.clock
           Sample.np_load Sample.meta_window Sample.meta_kmers
           Sample.make_basecall_input_multi Sample.astype
           Sample.network_run Sample.network_run_opencl
           Sample.cl_get_platforms Sample.estimate_transitions
           (Decoding.decode_profile Sample.ln Sample.kmers)
           (Decoding.decode_profile_opencl Sample.ln Sample.kmers)
           Sample.ln Sample.kmers_to_sequence Cases.write_with_id
           "model.npy"%string Sample.cpu_unit Sample.min_prob None false
           Sample.kw ret "id of b.fast5"%string).
  - vm_compute. reflexivity.
  - intros evs good post path states sq o H. inversion H. reflexivity.
Defined.

(** X17 on the sample unit on the CPU: the timer is read 3 times for each
    of the two reads after the load, and the writes start at the
    eleventh reading. *)
Lemma other_times_of_a_read_witness :
  let ret :=
    Sample.results (Sample.process_read Sample.cpu_unit false true) in
  List.length ret = 2%nat /\
  forall x r, nth_error ret x = Some r ->
    t_load (r_time r) = Sample.clock 1 - Sample.clock 0 /\
    t_feature (r_time r) =
      Sample.clock (3 * x + 3) - Sample.clock (3 * x + 2) /\
    t_write (r_time r) =
      Sample.clock (11 + 2 * x + 1) - Sample.clock (11 + 2 * x).
Proof.
  intros ret. split; [vm_compute; reflexivity|].
  apply (other_times_of_a_read matrix nat unit Sample.clock
           Sample.np_load Sample.meta_window Sample.meta_kmers
           Sample.make_basecall_input_multi Sample.astype
           Sample.network_run Sample.network_run_opencl
           Sample.cl_get_platforms Sample.estimate_transitions
           (Decoding.decode_profile Sample.ln Sample.kmers)
           (Decoding.decode_profile_opencl Sample.ln Sample.kmers)
           Sample.ln Sample.kmers_to_sequence Sample.write_events_table
           "model.npy"%string Sample.cpu_unit Sample.min_prob None false
           Sample.kw ret).
  vm_compute. reflexivity.
Defined.

(** X18 on the first read of the sample unit: of its four events the one
    called as the bad k-mer is not counted. *)
Lemma reported_events_witness :
  let ret :=
    Sample.results (Sample.process_read Sample.cpu_unit false true) in
  exists r,
    nth_error ret 0 = Some r /\
    (r_n_ev r <= 4)%nat /\ r_n_ev r = List.length (kept_events Sample.postA)
    /\ r_n_ev r = 3%nat.
Proof.
  intros ret.
  pose (st := Sample.value Sample.no_state
                (Sample.network_done Sample.cpu_unit true)).
  pose (r := nth 0 ret Sample.a_result).
  destruct (reported_events matrix nat unit Sample.clock
           Sample.np_load Sample.meta_window Sample.meta_kmers
           Sample.make_basecall_input_multi Sample.astype
           Sample.network_run Sample.network_run_opencl
           Sample.cl_get_platforms Sample.estimate_transitions
           (Decoding.decode_profile Sample.ln Sample.kmers)
           (Decoding.decode_profile_opencl Sample.ln Sample.kmers)
           Sample.ln Sample.kmers_to_sequence Sample.write_events_table
           "model.npy"%string Sample.cpu_unit Sample.min_prob None false
           Sample.kw (fst (fst (fst st))) (snd (fst (fst st)))
           (snd (fst st)) (snd st)
           (Sample.ticks (Sample.network_done Sample.cpu_unit true))
           ret 0%nat r)
    as (post0 & init & lastk & Hp & _ & _ & Hle & Heq).
  - vm_compute. reflexivity.
  - vm_compute. reflexivity.
  - vm_compute. reflexivity.
  - assert (E : post0 = Sample.postA).
    { vm_compute in Hp. inversion Hp. reflexivity. }
    subst post0. exists r. split; [vm_compute; reflexivity|].
    split; [exact Hle|].
    assert (Hk : r_n_ev r = List.length (kept_events Sample.postA)).
    { apply (Heq 5%nat); [lia|repeat constructor]. }
    split; [exact Hk|]. rewrite Hk. reflexivity.
Defined.

(** X19 on the platform of one device: the index 1 is out of range, the
    index -1 is the device [gpu0]. *)
Lemma device_of_a_unit_witness :
  Cases.process_read_at Sample.meta_kmers Sample.network_run
    Sample.write_events_table Cases.far_device_unit false true =
  Raised IndexError /\
  ctx (snd (fst (Sample.value Sample.no_state
                   (Sample.network_done Cases.last_device_unit true)))) =
  Some (mkContext [mkDevice "gpu0" 1024]).
Proof.
  split.
  - apply (proj1 (device_of_a_unit matrix nat unit Sample.clock
             Sample.np_load Sample.meta_window Sample.meta_kmers
             Sample.make_basecall_input_multi Sample.astype
             Sample.network_run Sample.network_run_opencl
             Sample.cl_get_platforms Sample.estimate_transitions
             (Decoding.decode_profile Sample.ln Sample.kmers)
             (Decoding.decode_profile_opencl Sample.ln Sample.kmers)
             Sample.ln Sample.kmers_to_sequence Sample.write_events_table
             "model.npy"%string Cases.far_device_unit Sample.min_prob None
             false true Sample.kw tt
             (mkPlatform "NVIDIA CUDA" [mkDevice "gpu0" 1024]) []
             eq_refl eq_refl eq_refl)).
    + repeat constructor.
      * exists "a"%string, Sample.postA, 4%nat, [].
        split; [reflexivity|]. discriminate.
      * exists "b"%string, Sample.postB, 2%nat, [].
        split; [reflexivity|]. discriminate.
    + cbn. lia.
  - pose (st := Sample.value Sample.no_state
                  (Sample.network_done Cases.last_device_unit true)).
    destruct (proj2 (device_of_a_unit matrix nat unit Sample.clock
             Sample.np_load Sample.meta_window Sample.meta_kmers
             Sample.make_basecall_input_multi Sample.astype
             Sample.network_run Sample.network_run_opencl
             Sample.cl_get_platforms Sample.estimate_transitions
             (Decoding.decode_profile Sample.ln Sample.kmers)
             (Decoding.decode_profile_opencl Sample.ln Sample.kmers)
             Sample.ln Sample.kmers_to_sequence Sample.write_events_table
             "model.npy"%string Cases.last_device_unit Sample.min_prob None
             false true Sample.kw tt
             (mkPlatform "NVIDIA CUDA" [mkDevice "gpu0" 1024]) []
             eq_refl eq_refl eq_refl)
             (fst (fst (fst st))) (snd (fst (fst st))) (snd (fst st))
             (snd st)
             (Sample.ticks (Sample.network_done Cases.last_device_unit true))
             ltac:(vm_compute; reflexivity))
      as (device & _ & Hd & Hc & _).
    cbn in Hd. inversion Hd; subst device. exact Hc.
Defined.
